(** * Office Time Manager: time accounting and punch integrity engine

    A shallow embedding of the backend services
    [TimeEngine], [PunchValidator], [PunchService] and
    [PunchCleanupService], and the properties of the engine proved on it.

    Conventions of the embedding.
    - A JavaScript [Date] is its epoch value in milliseconds, a [Z].
    - A finite JavaScript number that counts minutes is an exact rational
      [Q]; the floating point rounding of [+] and [/] is not modelled.
      Where the source can produce [NaN] or an infinity the type
      [JS.number] is used.
    - [moment()] (the current instant) and the timezone arithmetic of
      moment-timezone are inputs: the instant [now], the UTC bounds of the
      local day, the local wall clock of an instant.
    - The MongoDB collection of punches is a list of documents in insertion
      order; [find ... sort] is a filter followed by a sort on [punchTime].
    - A thrown exception is the [Throw] case of [Result]; the jobs of
      [PunchCleanupService], which log, write and catch, run in the monad
      [PunchCleanupService.M] over the collection, the log and the mail
      sent. In [PunchService] a call to the collection or to the audit log
      fails only when a validator of the schema rejects the document.
    - A string is a sequence of ASCII characters and its [length] is their
      number.
    - All the instants that one call reads ([new Date()], [moment()] and
      the [Date.now()] of the schema option [timestamps]) are one instant,
      the [now] of the call. *)

From Stdlib Require Import ZArith QArith Qround Qminmax Lia Lqa.
From stdpp Require Import base list sorting strings pretty.

Local Open Scope Z_scope.

(** ** JavaScript numbers and the moment.js differences *)

Module JS.

(** A JavaScript number: a finite value, [NaN] or an infinity
    (signed zeros are not distinguished). *)
Inductive number : Type :=
| Num (q : Q)
| NaN
| PosInf
| NegInf.

(** [a / b] on finite operands. *)
Definition div (a b : Q) : number :=
  if Qeq_bool b 0 then
    (if Qeq_bool a 0 then NaN
     else if Qle_bool 0 a then PosInf else NegInf)
  else Num (a / b).

Definition mul (x : number) (k : Q) : number :=
  match x with
  | Num q => Num (q * k)
  | other => other
  end.

(** [Math.round] on a finite number: the nearest integer, halves up. *)
Definition roundQ (q : Q) : Z := Qfloor (q + (1 # 2)).

(** [Math.round]. *)
Definition round (x : number) : number :=
  match x with
  | Num q => Num (inject_Z (roundQ q))
  | other => other
  end.

(** [Math.min(a, x)] for a finite [a]. *)
Definition min (a : Q) (x : number) : number :=
  match x with
  | Num q => Num (Qmin a q)
  | NaN => NaN
  | PosInf => Num a
  | NegInf => NegInf
  end.

(** [Math.max(0, q)] on a finite number. *)
Definition max0 (q : Q) : Q := Qmax 0 q.

(** [Math.round(q * 100) / 100]. *)
Definition round2 (q : Q) : Q := inject_Z (roundQ (q * 100)) / 100.

(** [a > b] on finite numbers. *)
Definition gtb (a b : Q) : bool := negb (Qle_bool a b).

(** [x <= bound] as JavaScript evaluates it: false on [NaN]. *)
Definition leb (x : number) (bound : Q) : bool :=
  match x with
  | Num q => Qle_bool q bound
  | NaN => false
  | PosInf => false
  | NegInf => true
  end.

(** Two numbers are the same number: finite values are compared as
    rationals. *)
Definition same (x y : number) : Prop :=
  match x, y with
  | Num a, Num b => (a == b)%Q
  | NaN, NaN => True
  | PosInf, PosInf => True
  | NegInf, NegInf => True
  | _, _ => False
  end.

(** The sum of a list of finite numbers. *)
Definition sum (l : list Q) : Q := fold_right Qplus 0%Q l.

(** [moment(a).diff(moment(b), 'minutes', true)]: the exact difference. *)
Definition diffMinutesExact (a b : Z) : Q := (a - b) # 60000.

(** [moment(a).diff(moment(b), 'hours', true)]. *)
Definition diffHoursExact (a b : Z) : Q := (a - b) # 3600000.

(** [moment(a).diff(moment(b), 'minutes')]: truncated toward zero. *)
Definition diffMinutes (a b : Z) : Z := Z.quot (a - b) 60000.

(** [moment(a).diff(moment(b), 'seconds')]: truncated toward zero. *)
Definition diffSeconds (a b : Z) : Z := Z.quot (a - b) 1000.

(** A finite number cut to its integer part, toward zero. *)
Definition truncQ (q : Q) : Z := Z.quot (Qnum q) (Zpos (Qden q)).

(** [a % b] on finite numbers, [b] not zero: the remainder has the sign of
    [a]. *)
Definition remQ (a b : Q) : Q := a - b * inject_Z (truncQ (a / b)).

(** [Math.round(q * 10) / 10]. *)
Definition round1 (q : Q) : Q := inject_Z (roundQ (q * 10)) / 10.

(** [Math.ceil]. *)
Definition ceil (x : number) : number :=
  match x with
  | Num q => Num (inject_Z (Qceiling q))
  | other => other
  end.

(** The upper case of a character: the letters a to z become A to Z. *)
Definition upperChar (c : Ascii.ascii) : Ascii.ascii :=
  let n := Ascii.nat_of_ascii c in
  if (97 <=? n)%nat && (n <=? 122)%nat
  then Ascii.ascii_of_nat (n - 32)
  else c.

(** [s.toUpperCase()]. *)
Fixpoint toUpperCase (s : string) : string :=
  match s with
  | EmptyString => EmptyString
  | String c rest => String (upperChar c) (toUpperCase rest)
  end.

End JS.

(** ** Documents *)

Definition ObjectId := N.

Inductive PunchType : Type := IN | OUT.

Inductive Source : Type := NFC | Manual | Admin.

#[global] Instance PunchType_eq_dec : EqDecision PunchType.
Proof. solve_decision. Defined.

#[global] Instance Source_eq_dec : EqDecision Source.
Proof. solve_decision. Defined.

(** The name of a punch type as the template strings print it. *)
Definition typeName (t : PunchType) : string :=
  match t with IN => "IN" | OUT => "OUT" end.

(** [t === 'IN' ? 'OUT' : 'IN'] *)
Definition toggle (t : PunchType) : PunchType :=
  match t with IN => OUT | OUT => IN end.

(** A document of the [PunchLog] collection (models/PunchLog.js), with the
    [createdAt] and [updatedAt] that the schema option [timestamps] makes
    Mongoose write: both on creation, [updatedAt] on every later write.
    [location], which no service reads or writes, is left out. *)
Record PunchLog : Type := mkPunch {
  _id : ObjectId;
  userId : ObjectId;
  punchType : PunchType;
  punchTime : Z;
  source : Source;
  nfcTagId : option ObjectId;
  edited : bool;
  editedBy : option ObjectId;
  editedAt : option Z;
  editReason : option string;
  originalPunchTime : option Z;
  originalPunchType : option PunchType;
  notes : option string;
  createdAt : Z;
  updatedAt : Z
}.

(** A time of day of the configuration. The source keeps it as the
    string ['HH:MM'] and reads it with [split(':').map(Number)]; the
    embedding keeps the two numbers read. *)
Record HM : Type := mkHM { hh : Z; mm : Z }.

(** [{ start: 'HH:MM', end: 'HH:MM' }] *)
Record BusinessHours : Type := mkBusinessHours { bh_start : HM; bh_end : HM }.

(** The profile of a [User] document as the engine reads it; an absent
    field is [None]. *)
Record Profile : Type := mkProfile {
  timezone : option string;
  dailyWorkTarget : option Q;
  workingDays : option (list string);
  businessHours : option BusinessHours;
  graceMinutes : option Z;
  shiftStartTime : option HM;
  minimumWorkHours : option Q
}.

Inductive Role : Type := RoleAdmin | RoleUser.

Record User : Type := mkUser {
  user_id : ObjectId;
  name : string;
  email : string;
  role : Role;
  profile : Profile
}.

(** [config.defaults] (config/index.js). *)
Record Defaults : Type := mkDefaults {
  d_timezone : string;
  d_workHours : Z;
  d_workingDays : list string;
  d_businessHours : option BusinessHours
}.

(** The clock of one request in one timezone: [moment()] and what
    moment-timezone derives from it. *)
Record Clock : Type := mkClock {
  now : Z;            (* new Date(), moment() *)
  startOfDay : Z;     (* moment().tz(tz).startOf('day').utc().toDate() *)
  endOfDay : Z;       (* moment().tz(tz).endOf('day').utc().toDate() *)
  localHour : Z;      (* moment(now).tz(tz).hour() *)
  localMinute : Z;    (* moment(now).tz(tz).minute() *)
  localSecond : Z;    (* moment(now).tz(tz).second() *)
  localDayName : string; (* moment(now).tz(tz).format('dddd') *)
  windowStart : Z     (* moment().tz(tz).subtract(30, 'days').startOf('day').utc().toDate() *)
}.

(** ** The PunchLog collection *)

Module Db.

(** [{ userId, punchTime: { $gte: start, $lte: end } }] *)
Definition inRange (uid : ObjectId) (start end_ : Z) (p : PunchLog) : bool :=
  (userId p =? uid)%N && (start <=? punchTime p) && (punchTime p <=? end_).

(** The order of [{ punchTime: 1 }] and of [{ punchTime: -1 }]. *)
Definition earlier (a b : PunchLog) : Prop := punchTime a <= punchTime b.
Definition later (a b : PunchLog) : Prop := punchTime b <= punchTime a.

#[global] Instance earlier_dec : RelDecision earlier.
Proof. intros a b. unfold earlier. apply Z.le_dec. Defined.

#[global] Instance later_dec : RelDecision later.
Proof. intros a b. unfold later. apply Z.le_dec. Defined.

(** [.sort({ punchTime: 1 })] *)
Definition sortAsc (l : list PunchLog) : list PunchLog :=
  merge_sort earlier l.

(** [.sort({ punchTime: -1 })] *)
Definition sortDesc (l : list PunchLog) : list PunchLog :=
  merge_sort later l.

(** [PunchLog.find({ userId, punchTime: { $gte, $lte } }).sort({ punchTime: 1 })] *)
Definition findInRange (db : list PunchLog) (uid : ObjectId) (start end_ : Z)
    : list PunchLog :=
  sortAsc (List.filter (inRange uid start end_) db).

(** [PunchLog.findById(id)] *)
Definition findById (db : list PunchLog) (id : ObjectId) : option PunchLog :=
  List.find (fun p => (_id p =? id)%N) db.

(** The identifier given to a created document: fresh in the collection. *)
Definition freshId (db : list PunchLog) : ObjectId :=
  N.succ (fold_right (fun p m => N.max (_id p) m) 0%N db).

End Db.

(** ** TimeEngine *)

Module TimeEngine.

(** [user?.profile?.timezone || config.defaults.timezone] *)
Definition getTimezone (cfg : Defaults) (user : User) : string :=
  match timezone (profile user) with
  | Some tz => if String.eqb tz "" then d_timezone cfg else tz
  | None => d_timezone cfg
  end.

(** [user?.profile?.dailyWorkTarget || (config.defaults.workHours * 60)];
    a target of 0 is falsy. *)
Definition getDailyWorkTarget (cfg : Defaults) (user : User) : Q :=
  match dailyWorkTarget (profile user) with
  | Some q => if Qeq_bool q 0 then inject_Z (d_workHours cfg * 60) else q
  | None => inject_Z (d_workHours cfg * 60)
  end.

(** The variables of the loop of [calculateWorkedTime]. *)
Record Scan : Type := mkScan {
  totalMinutes : Q;
  lastInPunch : option PunchLog
}.

(** One iteration of [for (const punch of punches)]. *)
Definition scanStep (s : Scan) (punch : PunchLog) : Scan :=
  match punchType punch with
  | IN => mkScan (totalMinutes s) (Some punch)
  | OUT =>
      match lastInPunch s with
      | Some lastIn =>
          let duration := JS.diffMinutesExact (punchTime punch) (punchTime lastIn) in
          if JS.gtb duration 1440
          then mkScan (totalMinutes s) None
          else mkScan (totalMinutes s + duration) None
      | None => s
      end
  end.

(** [calculateWorkedTime(punches, includeOpenPunch)], with [moment()]
    read as [now]. *)
Definition calculateWorkedTime (now : Z) (punches : list PunchLog)
    (includeOpenPunch : bool) : Q :=
  let s := fold_left scanStep punches (mkScan 0 None) in
  let total :=
    match includeOpenPunch, lastInPunch s with
    | true, Some lastIn =>
        let duration := JS.diffMinutesExact now (punchTime lastIn) in
        if Qle_bool duration 960
        then (totalMinutes s + duration)%Q
        else (totalMinutes s + 480)%Q
    | _, _ => totalMinutes s
    end in
  JS.max0 total.

(** [getTodayPunches(userId, timezone)] *)
Definition getTodayPunches (db : list PunchLog) (clock : Clock)
    (uid : ObjectId) : list PunchLog :=
  Db.findInRange db uid (startOfDay clock) (endOfDay clock).

(** [getLastPunch(userId)]:
    [PunchLog.findOne({ userId }).sort({ punchTime: -1 }).limit(1)] *)
Definition getLastPunch (db : list PunchLog) (uid : ObjectId)
    : option PunchLog :=
  head (Db.sortDesc (List.filter (fun p => (userId p =? uid)%N) db)).

(** [getNextPunchType(userId)] *)
Definition getNextPunchType (db : list PunchLog) (uid : ObjectId)
    : PunchType :=
  match getLastPunch db uid with
  | None => IN
  | Some lastPunch =>
      match punchType lastPunch with IN => OUT | OUT => IN end
  end.

(** [isDoublePunch(userId, newPunchTime)] *)
Definition isDoublePunch (db : list PunchLog) (uid : ObjectId)
    (newPunchTime : Z) : bool :=
  match getLastPunch db uid with
  | None => false
  | Some lastPunch =>
      let diffSeconds :=
        Z.abs (JS.diffSeconds newPunchTime (punchTime lastPunch)) in
      diffSeconds <? 60
  end.

(** [calculateRemainingTime] *)
Definition calculateRemainingTime (totalWorkedMinutes dailyTargetMinutes : Q)
    : Q :=
  JS.max0 (dailyTargetMinutes - totalWorkedMinutes).

(** One day of the week of [getWeeklySummary], as moment computes it from
    [weekStart.clone().add(i, 'days')]. *)
Record WeekDay : Type := mkWeekDay {
  wd_date : string;     (* day.format('YYYY-MM-DD') *)
  wd_dayName : string;  (* day.format('dddd') *)
  wd_start : Z;         (* day.clone().startOf('day').utc().toDate() *)
  wd_end : Z;           (* day.clone().endOf('day').utc().toDate() *)
  wd_isToday : bool     (* day.isSame(moment(), 'day') *)
}.

Record DailyEntry : Type := mkDailyEntry {
  date : string;
  dayName : string;
  isWorkingDay : bool;
  workedMinutes : Q;
  targetMinutes : Q;
  punchCount : nat;
  isTargetMet : bool
}.

Record WeeklySummary : Type := mkWeeklySummary {
  totalWorkedMinutes : Q;
  weeklyTargetMinutes : Q;
  progressPercent : JS.number;
  workingDaysCount : nat;
  dailyData : list DailyEntry
}.

(** [workingDays.includes(dayName)] *)
Definition includes (l : list string) (s : string) : bool :=
  existsb (String.eqb s) l.

(** The variables of the loop [for (let i = 0; i < 7; i++)]. *)
Record WeekLoop : Type := mkWeekLoop {
  wl_dailyData : list DailyEntry;
  wl_totalWeekMinutes : Q;
  wl_workingDaysCount : nat
}.

(** The minutes worked on a day of the week:
    [calculateWorkedTime(dayPunches, day.isSame(moment(), 'day'))]. *)
Definition dayWorked (now : Z) (punches : list PunchLog) (day : WeekDay) : Q :=
  let dayPunches :=
    List.filter (fun p => (wd_start day <=? punchTime p)
                          && (punchTime p <=? wd_end day)) punches in
  calculateWorkedTime now dayPunches (wd_isToday day).

(** The object pushed to [dailyData] for a day. *)
Definition dailyEntry (now : Z) (dailyTarget : Q) (workingDays : list string)
    (punches : list PunchLog) (day : WeekDay) : DailyEntry :=
  let dayName := wd_dayName day in
  let isWorkingDay := includes workingDays dayName in
  let dayPunches :=
    List.filter (fun p => (wd_start day <=? punchTime p)
                          && (punchTime p <=? wd_end day)) punches in
  let workedMinutes := dayWorked now punches day in
  mkDailyEntry (wd_date day) dayName isWorkingDay
    (JS.round2 workedMinutes)
    (if isWorkingDay then dailyTarget else 0)
    (length dayPunches)
    (Qle_bool dailyTarget workedMinutes).

(** The body of the loop for day [i]. *)
Definition weekStep (now : Z) (dailyTarget : Q) (workingDays : list string)
    (punches : list PunchLog) (week : nat -> WeekDay)
    (st : WeekLoop) (i : nat) : WeekLoop :=
  let day := week i in
  let isWorkingDay := includes workingDays (wd_dayName day) in
  let workedMinutes := dayWorked now punches day in
  let entry := dailyEntry now dailyTarget workingDays punches day in
  if isWorkingDay
  then mkWeekLoop (wl_dailyData st ++ [entry])
         (wl_totalWeekMinutes st + workedMinutes)
         (S (wl_workingDaysCount st))
  else mkWeekLoop (wl_dailyData st ++ [entry])
         (wl_totalWeekMinutes st)
         (wl_workingDaysCount st).

(** [getWeeklySummary(user, weekOffset)]. The week selected by
    [weekOffset] is the input [week]: day [i] of it for [i] from 0 to 6.
    The formatted strings of the result are left out. *)
Definition getWeeklySummary (cfg : Defaults) (db : list PunchLog) (now : Z)
    (week : nat -> WeekDay) (user : User) : WeeklySummary :=
  let dailyTarget := getDailyWorkTarget cfg user in
  let workingDays :=
    match workingDays (profile user) with
    | Some l => l
    | None => d_workingDays cfg
    end in
  let punches :=
    Db.findInRange db (user_id user) (wd_start (week 0%nat)) (wd_end (week 6%nat)) in
  let st :=
    fold_left (weekStep now dailyTarget workingDays punches week)
      (seq 0 7) (mkWeekLoop [] 0 0) in
  let totalWeekMinutes := wl_totalWeekMinutes st in
  let weeklyTarget := (inject_Z (Z.of_nat (wl_workingDaysCount st)) * dailyTarget)%Q in
  mkWeeklySummary
    (JS.round2 totalWeekMinutes)
    weeklyTarget
    (JS.min 100 (JS.round (JS.mul (JS.div totalWeekMinutes weeklyTarget) 100)))
    (wl_workingDaysCount st)
    (wl_dailyData st).

(** The object returned by [calculatePredictedExitTime]; [timeLocal] is the
    formatted [time] and is left out. [Date] keeps whole milliseconds. *)
Record PredictedExit : Type := mkPredictedExit {
  pe_time : Z;
  pe_remainingMinutes : Q
}.

(** [calculatePredictedExitTime(punches, dailyTargetMinutes, timezone)];
    [now] is only passed on to [calculateWorkedTime], which does not read
    it here. *)
Definition calculatePredictedExitTime (now : Z) (punches : list PunchLog)
    (dailyTargetMinutes : Q) : option PredictedExit :=
  match List.find (fun p => bool_decide (punchType p = IN)) (rev punches) with
  | None => None
  | Some lastInPunch =>
      let hasOutAfterIn :=
        existsb (fun p => bool_decide (punchType p = OUT)
                          && (punchTime lastInPunch <? punchTime p)) punches in
      if hasOutAfterIn then None
      else
        let punchesBeforeLastIn :=
          List.filter (fun p => punchTime p <? punchTime lastInPunch) punches in
        let workedBefore := calculateWorkedTime now punchesBeforeLastIn false in
        let remainingMinutes := (dailyTargetMinutes - workedBefore)%Q in
        Some (mkPredictedExit
                (Qfloor (inject_Z (punchTime lastInPunch)
                         + remainingMinutes * 60000))
                remainingMinutes)
  end.

(** [formatMinutes(minutes)]; numbers are printed in decimal. *)
Definition formatMinutes (minutes : Q) : string :=
  let hours := Qfloor (minutes / 60) in
  let mins := JS.roundQ (JS.remQ minutes 60) in
  if hours =? 0
  then pretty mins +:+ "m"
  else pretty hours +:+ "h " +:+ pretty mins +:+ "m".

Inductive Status : Type := WORKING | NOT_WORKING.

(** [todayStats] of the dashboard. *)
Record TodayStats : Type := mkTodayStats {
  ts_totalWorkedMinutes : Q;
  ts_totalWorkedFormatted : string;
  ts_remainingMinutes : Q;
  ts_remainingFormatted : string;
  ts_dailyTargetMinutes : Q;
  ts_dailyTargetFormatted : string;
  ts_progressPercent : JS.number;
  ts_isTargetMet : bool;
  ts_sessionCount : nat;
  ts_punchCount : nat
}.

(** [alerts] of the dashboard. *)
Record Alerts : Type := mkAlerts {
  al_hasOpenPunch : bool;
  al_hasOddPunchCount : bool;
  al_isWeekend : bool
}.

(** The object returned by [getDashboardData]; [currentTime] and the
    formatted local times are left out. *)
Record Dashboard : Type := mkDashboard {
  ds_status : Status;
  ds_nextPunchType : PunchType;
  ds_lastPunch : option PunchLog;
  ds_todayStats : TodayStats;
  ds_predictedExit : option PredictedExit;
  ds_todayPunches : list PunchLog;
  ds_alerts : Alerts
}.

(** [getDashboardData(user)] *)
Definition getDashboardData (cfg : Defaults) (db : list PunchLog)
    (clock : Clock) (user : User) : Dashboard :=
  let dailyTarget := getDailyWorkTarget cfg user in
  let todayPunches := getTodayPunches db clock (user_id user) in
  let lastPunch := getLastPunch db (user_id user) in
  let totalWorkedMinutes := calculateWorkedTime (now clock) todayPunches true in
  let remainingMinutes := calculateRemainingTime totalWorkedMinutes dailyTarget in
  let predictedExit :=
    calculatePredictedExitTime (now clock) todayPunches dailyTarget in
  let lastIsIn :=
    match lastPunch with
    | Some p => bool_decide (punchType p = IN)
    | None => false
    end in
  let currentStatus := if lastIsIn then WORKING else NOT_WORKING in
  let nextPunchType := if lastIsIn then OUT else IN in
  let hasOpenPunch :=
    match last todayPunches with
    | Some p => bool_decide (punchType p = IN)
    | None => false
    end in
  let hasOddPunchCount :=
    (0 <? length todayPunches)%nat
    && negb (length todayPunches mod 2 =? 0)%nat in
  let sessionCount :=
    (length todayPunches / 2 + (if hasOpenPunch then 1 else 0))%nat in
  mkDashboard currentStatus nextPunchType lastPunch
    (mkTodayStats
       (JS.round2 totalWorkedMinutes) (formatMinutes totalWorkedMinutes)
       (JS.round2 remainingMinutes) (formatMinutes remainingMinutes)
       dailyTarget (formatMinutes dailyTarget)
       (JS.min 100
          (JS.round (JS.mul (JS.div totalWorkedMinutes dailyTarget) 100)))
       (Qle_bool dailyTarget totalWorkedMinutes)
       sessionCount (length todayPunches))
    (match predictedExit with
     | Some pe =>
         Some (mkPredictedExit (pe_time pe)
                 (JS.round2 (pe_remainingMinutes pe)))
     | None => None
     end)
    todayPunches
    (mkAlerts hasOpenPunch hasOddPunchCount
       (negb (includes (d_workingDays cfg) (localDayName clock)))).

End TimeEngine.

(** ** The quantities of the weekly summary *)

Module Weekly.

(** The minutes worked on day [i] of the week. *)
Definition workedOn (now_ : Z) (punches : list PunchLog)
    (week : nat -> TimeEngine.WeekDay) (i : nat) : Q :=
  TimeEngine.dayWorked now_ punches (week i).

(** Whether day [i] of the week is one of the working days. *)
Definition workingOn (workingDays_ : list string)
    (week : nat -> TimeEngine.WeekDay) (i : nat) : bool :=
  TimeEngine.includes workingDays_ (TimeEngine.wd_dayName (week i)).

End Weekly.

(** ** Section 4.3 of the specification, in its own words *)

Module Reference.

(** The scan of section 4.3 from a given [pendingIn]: the minutes
    accumulated by the rest of the sequence and the [pendingIn] left. *)
Fixpoint scan (pendingIn : option PunchLog) (punches : list PunchLog)
    : Q * option PunchLog :=
  match punches with
  | [] => (0%Q, pendingIn)
  | p :: rest =>
      match punchType p, pendingIn with
      | IN, _ => scan (Some p) rest
      | OUT, None => scan None rest
      | OUT, Some i =>
          let duration := (inject_Z (punchTime p - punchTime i) / 60000)%Q in
          let r := scan None rest in
          if Qle_bool duration 1440
          then (duration + fst r, snd r)%Q
          else r
      end
  end.

(** What the open session adds after the scan. *)
Definition openSession (now : Z) (includeOpenSession : bool)
    (pendingIn : option PunchLog) : Q :=
  match pendingIn with
  | Some i =>
      if includeOpenSession then
        let duration := (inject_Z (now - punchTime i) / 60000)%Q in
        if Qle_bool duration 960 then duration else 480%Q
      else 0%Q
  | None => 0%Q
  end.

(** [calculateWorkedMinutes(punches, includeOpenSession)] of section 4.3. *)
Definition calculateWorkedMinutes (now : Z) (punches : list PunchLog)
    (includeOpenSession : bool) : Q :=
  let r := scan None punches in
  Qmax 0 (fst r + openSession now includeOpenSession (snd r))%Q.

End Reference.

(** ** PunchValidator *)

Module PunchValidator.

(** The result of [validatePunchSequence]: [{ valid: true }] or
    [{ valid: false, error, ... }]. *)
Inductive SequenceResult : Type :=
| SequenceValid
| SequenceError (error : string).

(** [validatePunchSequence(userId, newPunchType, timezone)] *)
Definition validatePunchSequence (db : list PunchLog) (clock : Clock)
    (uid : ObjectId) (newPunchType : PunchType) : SequenceResult :=
  let todayPunches :=
    Db.findInRange db uid (startOfDay clock) (endOfDay clock) in
  match last todayPunches with
  | None =>
      match newPunchType with
      | IN => SequenceValid
      | OUT => SequenceError "First punch of the day must be IN"
      end
  | Some lastPunch =>
      if decide (punchType lastPunch = newPunchType)
      then SequenceError
             ("Cannot punch " +:+ typeName newPunchType +:+ " twice in a row")
      else SequenceValid
  end.

(** The result of [validateBusinessHours]: [{ valid: true }] or
    [{ valid: false, warning, severity: 'warning', requiresApproval: true }]. *)
Record BusinessHoursResult : Type := mkBusinessHoursResult {
  bhr_valid : bool;
  bhr_warning : bool;
  bhr_requiresApproval : bool
}.

(** The window used when none is passed:
    [config.defaults.businessHours || { start: '06:00', end: '23:59' }]. *)
Definition defaultBusinessHours (cfg : Defaults) : BusinessHours :=
  match d_businessHours cfg with
  | Some bh => bh
  | None => mkBusinessHours (mkHM 6 0) (mkHM 23 59)
  end.

(** [validateBusinessHours(punchTime, timezone, businessHours)]; [hour] and
    [minute] are [punchMoment.hour()] and [punchMoment.minute()]. *)
Definition validateBusinessHours (cfg : Defaults) (hour minute : Z)
    (businessHours : option BusinessHours) : BusinessHoursResult :=
  let businessHours :=
    match businessHours with
    | Some bh => bh
    | None => defaultBusinessHours cfg
    end in
  let punchMinutes := hour * 60 + minute in
  let startMinutes := hh (bh_start businessHours) * 60 + mm (bh_start businessHours) in
  let endMinutes := hh (bh_end businessHours) * 60 + mm (bh_end businessHours) in
  if (punchMinutes <? startMinutes) || (punchMinutes >? endMinutes)
  then mkBusinessHoursResult false true true
  else mkBusinessHoursResult true false false.

(** The result of [validateWorkingDay]: [{ valid: true }] or
    [{ valid: false, warning, isWeekend: true, dayName }]. *)
Inductive WorkingDayResult : Type :=
| WorkingDay
| NotWorkingDay (dayName : string).

(** [validateWorkingDay(punchTime, timezone, workingDays)]; [dayName] is
    [punchMoment.format('dddd')]. *)
Definition validateWorkingDay (cfg : Defaults) (dayName : string)
    (workingDays : option (list string)) : WorkingDayResult :=
  let workingDays :=
    match workingDays with
    | Some l => l
    | None => d_workingDays cfg
    end in
  if TimeEngine.includes workingDays dayName
  then WorkingDay
  else NotWorkingDay dayName.

(** [checkGracePeriod(punchInTime, timezone, graceMinutes = 15,
    shiftStartTime = '09:00')]: [Some minutesLate] when late. The shift
    start is the punch's local day at [shiftStartTime], seconds set to 0;
    both instants are counted in seconds of that local day. *)
Definition checkGracePeriod (clock : Clock) (graceMinutes : option Z)
    (shiftStartTime : option HM) : option Z :=
  let graceMinutes := default 15 graceMinutes in
  let shiftStartTime := default (mkHM 9 0) shiftStartTime in
  let punchMoment :=
    (localHour clock * 60 + localMinute clock) * 60 + localSecond clock in
  let shiftStart := (hh shiftStartTime * 60 + mm shiftStartTime) * 60 in
  let gracePeriodEnd := shiftStart + graceMinutes * 60 in
  if punchMoment >? gracePeriodEnd
  then Some (Z.quot (punchMoment - shiftStart) 60)
  else None.

(** [checkEarlyDeparture(punchOutTime, punchInTime, timezone,
    minimumWorkHours = 8)]: [Some hoursWorked] when early. *)
Definition checkEarlyDeparture (punchOutTime punchInTime : Z)
    (minimumWorkHours : option Q) : option Q :=
  let minimumWorkHours := default 8%Q minimumWorkHours in
  let hoursWorked := JS.diffHoursExact punchOutTime punchInTime in
  if JS.gtb minimumWorkHours hoursWorked
  then Some hoursWorked
  else None.

(** An entry of the list returned by [detectPunchIssues]; the texts of
    [message] and [description] are represented by the values they print. *)
Inductive Issue : Type :=
| ODD_PUNCH_COUNT (count : nat)
| LONG_OPEN_PUNCH (hoursSinceIn : Q) (punchInTime : Z)
| SHORT_SESSION (duration : Z) (fromTime toTime : Z)
| MULTIPLE_SESSIONS (sessionCount : nat).

Inductive Severity : Type := SevError | SevWarning | SevInfo.

Definition severity (i : Issue) : Severity :=
  match i with
  | ODD_PUNCH_COUNT _ => SevWarning
  | LONG_OPEN_PUNCH _ _ => SevError
  | SHORT_SESSION _ _ _ => SevInfo
  | MULTIPLE_SESSIONS _ => SevInfo
  end.

(** The indices visited by
    [for (let i = 0; i < todayPunches.length - 1; i += 2)]. *)
Fixpoint pairIndices (i : nat) (len : nat) (fuel : nat) : list nat :=
  match fuel with
  | O => []
  | S fuel' =>
      if (Z.of_nat i <? Z.of_nat len - 1)
      then i :: pairIndices (i + 2) len fuel'
      else []
  end.

(** The body of the short-session loop at index [i]. *)
Definition shortSessionAt (todayPunches : list PunchLog) (i : nat)
    : list Issue :=
  match todayPunches !! i, todayPunches !! (i + 1)%nat with
  | Some a, Some b =>
      match punchType a, punchType b with
      | IN, OUT =>
          let duration := JS.diffMinutes (punchTime b) (punchTime a) in
          if duration <? 30
          then [SHORT_SESSION duration (punchTime a) (punchTime b)]
          else []
      | _, _ => []
      end
  | _, _ => []
  end.

(** [detectPunchIssues(userId, timezone)] *)
Definition detectPunchIssues (db : list PunchLog) (clock : Clock)
    (uid : ObjectId) : list Issue :=
  let todayPunches :=
    Db.findInRange db uid (startOfDay clock) (endOfDay clock) in
  let len := length todayPunches in
  let odd :=
    if (0 <? len)%nat && negb (len mod 2 =? 0)%nat
    then [ODD_PUNCH_COUNT len] else [] in
  let open :=
    match last todayPunches with
    | Some lastPunch =>
        match punchType lastPunch with
        | IN =>
            let hoursSinceIn :=
              JS.diffHoursExact (now clock) (punchTime lastPunch) in
            if JS.gtb hoursSinceIn 12
            then [LONG_OPEN_PUNCH hoursSinceIn (punchTime lastPunch)]
            else []
        | OUT => []
        end
    | None => []
    end in
  let short :=
    flat_map (shortSessionAt todayPunches) (pairIndices 0 len len) in
  let sessionCount := (len / 2)%nat in
  let multiple :=
    if (3 <? sessionCount)%nat then [MULTIPLE_SESSIONS sessionCount] else [] in
  odd ++ open ++ short ++ multiple.

(** A warning of the summary of [validatePunch], by the values its
    text prints. *)
Inductive Warning : Type :=
| WarnBusinessHours
| WarnWorkingDay (dayName : string)
| WarnLate (minutesLate : Z)
| WarnEarlyDeparture (hoursWorked : Q).

Record Validation : Type := mkValidation {
  v_sequence : SequenceResult;
  v_businessHours : BusinessHoursResult;
  v_workingDay : WorkingDayResult;
  v_gracePeriod : option (option Z);
  v_earlyDeparture : option (option Q)
}.

Definition sequenceValid (r : SequenceResult) : bool :=
  match r with SequenceValid => true | SequenceError _ => false end.

Definition workingDayValid (r : WorkingDayResult) : bool :=
  match r with WorkingDay => true | NotWorkingDay _ => false end.

(** [validations.gracePeriod?.isLate] *)
Definition isLate (v : Validation) : option Z :=
  match v_gracePeriod v with
  | Some (Some minutesLate) => Some minutesLate
  | _ => None
  end.

(** [validations.earlyDeparture?.isEarly] *)
Definition isEarly (v : Validation) : option Q :=
  match v_earlyDeparture v with
  | Some (Some hoursWorked) => Some hoursWorked
  | _ => None
  end.

(** [collectWarnings(validations)] *)
Definition collectWarnings (v : Validation) : list Warning :=
  (if bhr_valid (v_businessHours v) then [] else [WarnBusinessHours])
  ++ match v_workingDay v with
     | WorkingDay => []
     | NotWorkingDay d => [WarnWorkingDay d]
     end
  ++ match isLate v with Some m => [WarnLate m] | None => [] end
  ++ match isEarly v with Some h => [WarnEarlyDeparture h] | None => [] end.

Record ValidationResult : Type := mkValidationResult {
  valid : bool;
  hasWarnings : bool;
  validations : Validation;
  errors : list string;
  warnings : list Warning
}.

(** The configuration passed by [createPunch] as [userConfig]. *)
Definition userConfig : Type := Profile.

(** [validatePunch(userId, punchType, punchTime, timezone, userConfig)];
    [punchTime] is [now clock]. *)
Definition validatePunch (cfg : Defaults) (db : list PunchLog) (clock : Clock)
    (uid : ObjectId) (punchType_ : PunchType) (userConfig_ : userConfig)
    : ValidationResult :=
  let punchTime_ := now clock in
  let sequence := validatePunchSequence db clock uid punchType_ in
  let bh := validateBusinessHours cfg (localHour clock) (localMinute clock)
              (businessHours userConfig_) in
  let wd := validateWorkingDay cfg (localDayName clock)
              (workingDays userConfig_) in
  let gracePeriod :=
    match punchType_ with
    | IN => Some (checkGracePeriod clock (graceMinutes userConfig_)
                    (shiftStartTime userConfig_))
    | OUT => None
    end in
  let earlyDeparture :=
    match punchType_ with
    | OUT =>
        let lastInPunch :=
          head (Db.sortDesc
                  (List.filter
                     (fun p => (userId p =? uid)%N
                               && bool_decide (punchType p = IN)
                               && (punchTime p <? punchTime_)) db)) in
        match lastInPunch with
        | Some lastIn =>
            Some (checkEarlyDeparture punchTime_ (punchTime lastIn)
                    (minimumWorkHours userConfig_))
        | None => None
        end
    | IN => None
    end in
  let v := mkValidation sequence bh wd gracePeriod earlyDeparture in
  let hasErrors := negb (sequenceValid sequence) in
  let hasWarnings_ :=
    negb (bhr_valid bh) || negb (workingDayValid wd)
    || bool_decide (is_Some (isLate v)) || bool_decide (is_Some (isEarly v)) in
  mkValidationResult (negb hasErrors) hasWarnings_ v
    (match sequence with SequenceError e => [e] | SequenceValid => [] end)
    (collectWarnings v).

End PunchValidator.

(** ** Exceptions *)

(** The errors thrown by the services, with the text of their message. *)
Inductive Error : Type :=
| DoublePunchError
| ValidationError (message : string)
| NfcUidRequired
| NfcTagNotFound
| NfcTagNotOwned
| PunchNotFound
| NotAuthorized
| DbError (operation : string) (uid : ObjectId)
| MailError (uid : ObjectId)
| SchemaError (model path message : string).

Definition errorMessage (e : Error) : string :=
  match e with
  | DoublePunchError =>
      "Double punch detected. Please wait at least 1 minute between punches."
  | ValidationError m => m
  | NfcUidRequired => "NFC UID is required for NFC punch."
  | NfcTagNotFound => "NFC tag not found or inactive."
  | NfcTagNotOwned => "NFC tag is not registered to this user."
  | PunchNotFound => "Punch not found."
  | NotAuthorized => "Not authorized to edit this punch."
  | DbError op _ => op
  | MailError _ => "mail"
  | SchemaError model path message =>
      model +:+ " validation failed: " +:+ path +:+ ": " +:+ message
  end.

Inductive Result (A : Type) : Type :=
| Ok (a : A)
| Throw (e : Error).

Arguments Ok {A} a.
Arguments Throw {A} e.

(** ** The validators of the schemas *)

Module Schema.

(** The validator [maxlength: [limit, message]] of a String path; [null]
    passes. *)
Definition maxlength (limit : nat) (v : option string) : bool :=
  match v with
  | Some s => (String.length s <=? limit)%nat
  | None => true
  end.

(** [notes] of PunchLog: [maxlength: [500, ...]]. *)
Definition notesError : Error :=
  SchemaError "PunchLog" "notes" "Notes cannot exceed 500 characters".

(** [editReason] of PunchLog: [maxlength: [500, ...]]. *)
Definition editReasonError : Error :=
  SchemaError "PunchLog" "editReason"
    "Edit reason cannot exceed 500 characters".

(** [description] of AuditLog: [maxlength: [1000, ...]]. *)
Definition descriptionError : Error :=
  SchemaError "AuditLog" "description"
    "Description cannot exceed 1000 characters".

End Schema.

(** ** PunchService *)

Module PunchService.

(** A document of the [NfcTag] collection, as [createPunch] reads it;
    [tag_uid] is the uid as stored. *)
Record NfcTag : Type := mkNfcTag {
  tag_id : ObjectId;
  tag_uid : string;
  tag_userId : ObjectId;
  tag_isActive : bool
}.

(** [NfcTag.findActiveByUID(uid)]:
    [findOne({ uid: uid.toUpperCase(), isActive: true })] *)
Definition findActiveByUID (tags : list NfcTag) (uid : string)
    : option NfcTag :=
  List.find
    (fun t => String.eqb (tag_uid t) (JS.toUpperCase uid) && tag_isActive t)
    tags.

(** The [options] of [createPunch]. *)
Record Options : Type := mkOptions {
  o_source : Source;
  o_nfcUID : option string;
  o_notes : option string;
  o_skipValidation : bool
}.

(** The result of [createPunch]; the dashboard of the response is derived
    data and is left out. *)
Record Created : Type := mkCreated {
  c_punch : PunchLog;
  c_warnings : list PunchValidator.Warning;
  c_issues : list PunchValidator.Issue
}.

(** The NFC checks of [createPunch]: the tag to record, or the error. *)
Definition checkNfc (tags : list NfcTag) (user : User) (options : Options)
    : Result (option NfcTag) :=
  match o_source options with
  | NFC =>
      match o_nfcUID options with
      | None => Throw NfcUidRequired
      | Some uid =>
          if String.eqb uid "" then Throw NfcUidRequired else
          match findActiveByUID tags uid with
          | None => Throw NfcTagNotFound
          | Some nfcTag =>
              if (tag_userId nfcTag =? user_id user)%N
              then Ok (Some nfcTag)
              else Throw NfcTagNotOwned
          end
      end
  | _ => Ok None
  end.

(** [finalNotes || null] after the late annotation. *)
Definition buildNotes (notes : option string) (late : option Z)
    : option string :=
  let finalNotes := default "" notes in
  let finalNotes :=
    match late with
    | Some minutesLate =>
        if String.eqb finalNotes ""
        then "Late by " +:+ pretty minutesLate +:+ " minutes"
        else finalNotes +:+ " | Late by " +:+ pretty minutesLate +:+ " minutes"
    | None => finalNotes
    end in
  if String.eqb finalNotes "" then None else Some finalNotes.

(** The validation that [createPunch] runs; none when [skipValidation] is
    set. *)
Definition validation (cfg : Defaults) (clock : Clock) (db : list PunchLog)
    (user : User) (options : Options)
    : option PunchValidator.ValidationResult :=
  if o_skipValidation options then None
  else Some (PunchValidator.validatePunch cfg db clock (user_id user)
               (TimeEngine.getNextPunchType db (user_id user))
               (profile user)).

(** [options.minutesLate] when [createPunch] sets [options.isLate]. *)
Definition lateness (cfg : Defaults) (clock : Clock) (db : list PunchLog)
    (user : User) (options : Options) : option Z :=
  match validation cfg clock db user options with
  | Some v =>
      if PunchValidator.hasWarnings v
      then PunchValidator.isLate (PunchValidator.validations v)
      else None
  | None => None
  end.

(** The notes that [createPunch] hands to [PunchLog.create]:
    [finalNotes || null]. *)
Definition finalNotes (cfg : Defaults) (clock : Clock) (db : list PunchLog)
    (user : User) (options : Options) : option string :=
  buildNotes (o_notes options) (lateness cfg clock db user options).

(** [createPunch(user, options)]: the result and the collection after the
    call. [punchTime] is [new Date()], the [now] of the clock.
    [PunchLog.create] rejects notes of more than 500 characters. Sending
    the weekend notice cannot fail the call and is left out. *)
Definition createPunch (cfg : Defaults) (tags : list NfcTag) (clock : Clock)
    (db : list PunchLog) (user : User) (options : Options)
    : Result Created * list PunchLog :=
  let punchTime_ := now clock in
  if TimeEngine.isDoublePunch db (user_id user) punchTime_
  then (Throw DoublePunchError, db)
  else
    let punchType_ := TimeEngine.getNextPunchType db (user_id user) in
    let validation_ := validation cfg clock db user options in
    let failed :=
      match validation_ with
      | Some v =>
          if PunchValidator.valid v then None
          else Some (ValidationError
                       (default "" (head (PunchValidator.errors v))))
      | None => None
      end in
    match failed with
    | Some e => (Throw e, db)
    | None =>
        let validationWarnings :=
          match validation_ with
          | Some v =>
              if PunchValidator.hasWarnings v
              then PunchValidator.warnings v else []
          | None => []
          end in
        match checkNfc tags user options with
        | Throw e => (Throw e, db)
        | Ok nfcTag =>
            let notes_ := finalNotes cfg clock db user options in
            if Schema.maxlength 500 notes_ then
              let punch :=
                mkPunch (Db.freshId db) (user_id user) punchType_ punchTime_
                  (o_source options) (tag_id <$> nfcTag)
                  false None None None None None notes_
                  punchTime_ punchTime_ in
              let db' := db ++ [punch] in
              (Ok (mkCreated punch validationWarnings
                     (PunchValidator.detectPunchIssues db' clock
                        (user_id user))),
               db')
            else (Throw Schema.notesError, db)
        end
    end.

(** The checks of [createPunch] that follow the double-punch check pass:
    the sequence check, unless the validation is skipped, the NFC checks,
    and the limit of 500 characters on the notes. *)
Definition passes (cfg : Defaults) (tags : list NfcTag) (clock : Clock)
    (db : list PunchLog) (user : User) (options : Options) : Prop :=
  (o_skipValidation options = true
   \/ PunchValidator.validatePunchSequence db clock (user_id user)
        (TimeEngine.getNextPunchType db (user_id user))
      = PunchValidator.SequenceValid)
  /\ (exists nfcTag, checkNfc tags user options = Ok nfcTag)
  /\ Schema.maxlength 500 (finalNotes cfg clock db user options) = true.

(** The [editData] of [editPunch]; an absent or empty field is [None]. *)
Record EditData : Type := mkEditData {
  e_punchTime : option Z;
  e_punchType : option PunchType;
  e_editReason : option string
}.

(** An entry written by [AuditLog.log] for an edit. *)
Record AuditEntry : Type := mkAuditEntry {
  a_performedBy : ObjectId;
  a_targetUser : ObjectId;
  a_resourceId : ObjectId;
  a_previousState : Z * PunchType;
  a_newState : Z * PunchType;
  a_description : option string
}.

(** [punch.save()]: the stored document with the identifier of [punch] is
    replaced by [punch]. *)
Fixpoint save (db : list PunchLog) (punch : PunchLog) : list PunchLog :=
  match db with
  | [] => []
  | q :: rest =>
      if (_id q =? _id punch)%N then punch :: rest else q :: save rest punch
  end.

(** [a || b] on a field that is [null] or a truthy value. *)
Definition orElse {A : Type} (a : option A) (b : A) : option A :=
  match a with
  | Some x => Some x
  | None => Some b
  end.

(** The assignments of [editPunch] to the document found, and the
    [updatedAt] that [punch.save()] sets. *)
Definition applyEdit (punch : PunchLog) (editData : EditData)
    (performedBy : User) (now_ : Z) : PunchLog :=
  let originalPunchTime_ := orElse (originalPunchTime punch) (punchTime punch) in
  let originalPunchType_ := orElse (originalPunchType punch) (punchType punch) in
  let punchTime_ := default (punchTime punch) (e_punchTime editData) in
  let punchType_ := default (punchType punch) (e_punchType editData) in
  mkPunch (_id punch) (userId punch) punchType_ punchTime_
    (source punch) (nfcTagId punch)
    true (Some (user_id performedBy)) (Some now_) (e_editReason editData)
    originalPunchTime_ originalPunchType_ (notes punch)
    (createdAt punch) now_.

(** [editPunch(punchId, editData, performedBy)] at the instant [now_]: the
    document returned, the collection and the audit log after the call.
    [punch.save()] rejects an [editReason] of more than 500 characters and
    [AuditLog.log] a [description] of more than 1000. *)
Definition editPunch (db : list PunchLog) (audit : list AuditEntry)
    (now_ : Z) (punchId : ObjectId) (editData : EditData) (performedBy : User)
    : Result PunchLog * list PunchLog * list AuditEntry :=
  match Db.findById db punchId with
  | None => (Throw PunchNotFound, db, audit)
  | Some punch =>
      if match role performedBy with RoleAdmin => false | RoleUser => true end
         && negb (userId punch =? user_id performedBy)%N
      then (Throw NotAuthorized, db, audit)
      else
        let previousState := (punchTime punch, punchType punch) in
        let punch' := applyEdit punch editData performedBy now_ in
        if negb (Schema.maxlength 500 (editReason punch'))
        then (Throw Schema.editReasonError, db, audit)
        else if negb (Schema.maxlength 1000 (e_editReason editData))
        then (Throw Schema.descriptionError, save db punch', audit)
        else
          (Ok punch', save db punch',
           audit ++ [mkAuditEntry (user_id performedBy) (userId punch')
                       (_id punch') previousState
                       (punchTime punch', punchType punch')
                       (e_editReason editData)])
  end.

(** The [punchData] of [createManualPunch]. *)
Record PunchData : Type := mkPunchData {
  pd_punchType : PunchType;
  pd_punchTime : Z;
  pd_notes : option string;
  pd_reason : option string
}.

(** An entry written by [AuditLog.log] for a punch created by an
    administrator or for a deleted punch; both carry the whole document. *)
Inductive AuditRecord : Type :=
| AuditCreated (performedBy targetUser resourceId : ObjectId)
    (newState : PunchLog) (description : string)
| AuditDeleted (performedBy targetUser resourceId : ObjectId)
    (previousState : PunchLog) (description : option string).

(** The result of [createManualPunch]: the punch, the error
    ['Cannot create punch for future time.'], or the error of a validator of
    the schemas. *)
Inductive ManualResult : Type :=
| ManualCreated (punch : PunchLog)
| ManualFutureTime
| ManualRejected (e : Error).

(** [reason || 'Manual punch created by admin'] *)
Definition manualDescription (reason : option string) : string :=
  match reason with
  | Some r => if String.eqb r "" then "Manual punch created by admin" else r
  | None => "Manual punch created by admin"
  end.

(** [createManualPunch(userId, punchData, performedBy)] at the instant
    [now_]: the result, the collection and the audit log after the call.
    [PunchLog.create] rejects notes of more than 500 characters;
    [AuditLog.log], which runs after the punch was stored, rejects a
    description of more than 1000. *)
Definition createManualPunch (db : list PunchLog) (audit : list AuditRecord)
    (now_ : Z) (uid : ObjectId) (punchData : PunchData) (performedBy : User)
    : ManualResult * list PunchLog * list AuditRecord :=
  if now_ <? pd_punchTime punchData
  then (ManualFutureTime, db, audit)
  else
    let source_ :=
      if (user_id performedBy =? uid)%N then Manual else Admin in
    if negb (Schema.maxlength 500 (pd_notes punchData))
    then (ManualRejected Schema.notesError, db, audit)
    else
      let punch :=
        mkPunch (Db.freshId db) uid (pd_punchType punchData)
          (pd_punchTime punchData) source_ None false None None None None
          None (pd_notes punchData) now_ now_ in
      match source_ with
      | Admin =>
          let description := manualDescription (pd_reason punchData) in
          if Schema.maxlength 1000 (Some description)
          then (ManualCreated punch, db ++ [punch],
                audit ++ [AuditCreated (user_id performedBy) uid (_id punch)
                            punch description])
          else (ManualRejected Schema.descriptionError, db ++ [punch], audit)
      | _ => (ManualCreated punch, db ++ [punch], audit)
      end.

(** [punch.deleteOne()]: the stored document with identifier [id] is
    removed. *)
Fixpoint deleteOne (db : list PunchLog) (id : ObjectId) : list PunchLog :=
  match db with
  | [] => []
  | q :: rest => if (_id q =? id)%N then rest else q :: deleteOne rest id
  end.

(** [deletePunch(punchId, performedBy, reason)]: [Ok tt] is
    [{ success: true, message: 'Punch deleted successfully' }].
    [AuditLog.log], which runs before the deletion, rejects a [reason] of
    more than 1000 characters. *)
Definition deletePunch (db : list PunchLog) (audit : list AuditRecord)
    (punchId : ObjectId) (performedBy : User) (reason : option string)
    : Result unit * list PunchLog * list AuditRecord :=
  match Db.findById db punchId with
  | None => (Throw PunchNotFound, db, audit)
  | Some punch =>
      if Schema.maxlength 1000 reason
      then (Ok tt, deleteOne db (_id punch),
            audit ++ [AuditDeleted (user_id performedBy) (userId punch)
                        (_id punch) punch reason])
      else (Throw Schema.descriptionError, db, audit)
  end.

(** The [options] of [getPunchHistory]: the bounds computed from
    [startDate] and [endDate] when given, and [page] and [limit] as the
    routes pass them, [parseInt] of the query: an integer, or [NaN], which
    is [None]. *)
Record HistoryOptions : Type := mkHistoryOptions {
  h_gte : option Z;
  h_lte : option Z;
  h_page : option Z;
  h_limit : option Z
}.

(** The result of [getPunchHistory]; the punches are kept as documents. *)
Record History : Type := mkHistory {
  hi_punches : list PunchLog;
  hi_total : nat;
  hi_page : option Z;
  hi_limit : option Z;
  hi_pages : JS.number
}.

(** The documents matched by the [query] of [getPunchHistory]. *)
Definition historyQuery (uid : ObjectId) (options : HistoryOptions)
    (p : PunchLog) : bool :=
  (userId p =? uid)%N
  && match h_gte options with
     | Some start => start <=? punchTime p
     | None => true
     end
  && match h_lte options with
     | Some end_ => punchTime p <=? end_
     | None => true
     end.

(** [.skip(s).limit(l)] on the sorted matches, the part of the database
    driver: the documents returned, or the error thrown. [None] is [NaN].
    The driver is an input of [getPunchHistory]. *)
Definition Cursor : Type :=
  option Z -> option Z -> list PunchLog -> Result (list PunchLog).

(** [(page - 1) * limit] *)
Definition skipOf (options : HistoryOptions) : option Z :=
  match h_page options, h_limit options with
  | Some page, Some limit => Some ((page - 1) * limit)
  | _, _ => None
  end.

(** [Math.ceil(total / limit)] *)
Definition pagesOf (total : nat) (limit : option Z) : JS.number :=
  match limit with
  | Some l => JS.ceil (JS.div (inject_Z (Z.of_nat total)) (inject_Z l))
  | None => JS.NaN
  end.

(** [getPunchHistory(userId, options)] *)
Definition getPunchHistory (cursor : Cursor) (db : list PunchLog)
    (uid : ObjectId) (options : HistoryOptions) : Result History :=
  let matched := List.filter (historyQuery uid options) db in
  let total := length matched in
  match cursor (skipOf options) (h_limit options) (Db.sortDesc matched) with
  | Ok punches_ =>
      Ok (mkHistory punches_ total (h_page options) (h_limit options)
            (pagesOf total (h_limit options)))
  | Throw e => Throw e
  end.

End PunchService.

(** ** Successive edits *)

Module Scenario.

(** One call [editPunch(punchId, editData, performedBy)] at the instant
    [q_now]. *)
Record EditRequest : Type := mkEditRequest {
  q_now : Z;
  q_punchId : ObjectId;
  q_editData : PunchService.EditData;
  q_performedBy : User
}.

(** The calls of [requests] in order, each on the collection and the audit
    log left by the one before; a call that throws leaves them as they
    were. *)
Fixpoint editMany (db : list PunchLog) (audit : list PunchService.AuditEntry)
    (requests : list EditRequest)
    : list PunchLog * list PunchService.AuditEntry :=
  match requests with
  | [] => (db, audit)
  | q :: rest =>
      match PunchService.editPunch db audit (q_now q) (q_punchId q)
              (q_editData q) (q_performedBy q) with
      | (_, db', audit') => editMany db' audit' rest
      end
  end.

End Scenario.

(** ** PunchCleanupService *)

Module PunchCleanupService.

(** A line written through [logger]. *)
Inductive LogEntry : Type :=
| LogInfo (message : string)
| LogError (message : string) (e : Error).

(** A call of [EmailService.sendMissedPunchOutAlert] that went through. *)
Record Mail : Type := mkMail {
  m_user : ObjectId;
  m_inPunchTime : Z;
  m_outPunchTime : Z
}.

(** What a job reads and writes: the collection, the log, the mail sent. *)
Record World : Type := mkWorld {
  punches : list PunchLog;
  logs : list LogEntry;
  outbox : list Mail
}.

(** Which calls to the collaborators reject during a run: the query for a
    user's punches, the insertion of a punch for a user, the update of a
    punch, the mail to a user. *)
Record Faults : Type := mkFaults {
  findFails : ObjectId -> bool;
  createFails : ObjectId -> bool;
  updateFails : ObjectId -> bool;
  mailFails : ObjectId -> bool
}.

(** A computation that reads and writes the world and may throw; what it
    wrote before a throw stays written. *)
Definition M (A : Type) : Type := World -> Result A * World.

#[global] Instance M_ret : MRet M := fun A a w => (Ok a, w).

#[global] Instance M_bind : MBind M := fun A B f m w =>
  match m w with
  | (Ok a, w') => f a w'
  | (Throw e, w') => (Throw e, w')
  end.

Definition throw {A : Type} (e : Error) : M A := fun w => (Throw e, w).

(** [try { m } catch (error) { handler(error) }] *)
Definition tryCatch {A : Type} (m : M A) (handler : Error -> M A) : M A :=
  fun w =>
    match m w with
    | (Ok a, w') => (Ok a, w')
    | (Throw e, w') => handler e w'
    end.

(** [for (const x of l) { acc = body(acc, x) }] *)
Fixpoint forOf {A B : Type} (body : B -> A -> M B) (l : list A) (acc : B)
    : M B :=
  match l with
  | [] => mret acc
  | x :: rest => acc' ← body acc x; forOf body rest acc'
  end.

Definition log (entry : LogEntry) : M unit := fun w =>
  (Ok tt, mkWorld (punches w) (logs w ++ [entry]) (outbox w)).

(** [PunchLog.find({ userId, punchTime: { $gte, $lte } }).sort({ punchTime: 1 })] *)
Definition find (F : Faults) (uid : ObjectId) (start end_ : Z)
    : M (list PunchLog) := fun w =>
  if findFails F uid
  then (Throw (DbError "find" uid), w)
  else (Ok (Db.findInRange (punches w) uid start end_), w).

(** [PunchLog.create({ userId, punchType, punchTime, source, notes })] at
    the instant [now_]; the only notes created here are the note of the
    auto-close job, which is within the 500 characters of the schema. *)
Definition create (F : Faults) (now_ : Z) (uid : ObjectId) (type : PunchType)
    (time : Z) (src : Source) (notes_ : option string) : M PunchLog := fun w =>
  if createFails F uid
  then (Throw (DbError "create" uid), w)
  else
    let punch :=
      mkPunch (Db.freshId (punches w)) uid type time src None
        false None None None None None notes_ now_ now_ in
    (Ok punch, mkWorld (punches w ++ [punch]) (logs w) (outbox w)).

(** The document [q] after the update [{ notes: notes_ }] at the instant
    [now_]: its [notes] are [notes_] and, by the schema option
    [timestamps], its [updatedAt] is [now_]. *)
Definition withNotes (q : PunchLog) (notes_ : option string) (now_ : Z)
    : PunchLog :=
  mkPunch (_id q) (userId q) (punchType q) (punchTime q) (source q)
    (nfcTagId q) (edited q) (editedBy q) (editedAt q) (editReason q)
    (originalPunchTime q) (originalPunchType q) notes_ (createdAt q) now_.

(** The update [{ notes: notes_ }] of the document with identifier [id] at
    the instant [now_]. *)
Fixpoint setNotes (db : list PunchLog) (id : ObjectId) (notes_ : string)
    (now_ : Z) : list PunchLog :=
  match db with
  | [] => []
  | q :: rest =>
      if (_id q =? id)%N
      then withNotes q (Some notes_) now_ :: rest
      else q :: setNotes rest id notes_ now_
  end.

(** [PunchLog.findByIdAndUpdate(id, { notes })] at the instant [now_]; an
    update runs no validator of the schema. *)
Definition findByIdAndUpdate (F : Faults) (now_ : Z) (id : ObjectId)
    (notes_ : string) : M unit := fun w =>
  if updateFails F id
  then (Throw (DbError "findByIdAndUpdate" id), w)
  else (Ok tt, mkWorld (setNotes (punches w) id notes_ now_) (logs w)
                 (outbox w)).

(** [Date.now()] during a job: the instant of the run, which is the [now]
    of the clock in any timezone; it is read in the default one. *)
Definition instant (cfg : Defaults) (clockOf : string -> Clock) : Z :=
  now (clockOf (d_timezone cfg)).

(** [EmailService.sendMissedPunchOutAlert(user, inPunchTime, outPunchTime)] *)
Definition sendMissedPunchOutAlert (F : Faults) (user : User)
    (inPunchTime outPunchTime : Z) : M unit := fun w =>
  if mailFails F (user_id user)
  then (Throw (MailError (user_id user)), w)
  else (Ok tt, mkWorld (punches w) (logs w)
                 (outbox w ++ [mkMail (user_id user) inPunchTime outPunchTime])).

(** An entry of the notification queue of [autoCloseOpenPunches]. *)
Record Notification : Type := mkNotification {
  n_user : User;
  n_inPunchTime : Z;
  n_outPunchTime : Z
}.

(** [{ success: true, closedCount, notificationsSent }] *)
Record AutoCloseResult : Type := mkAutoCloseResult {
  closedCount : nat;
  notificationsSent : nat
}.

(** The body of [for (const user of users)] in [autoCloseOpenPunches];
    the accumulator is [closedCount] and [notifications]. *)
Definition autoCloseUser (F : Faults) (cfg : Defaults)
    (clockOf : string -> Clock) (acc : nat * list Notification) (user : User)
    : M (nat * list Notification) :=
  let timezone_ := TimeEngine.getTimezone cfg user in
  let today := clockOf timezone_ in
  todayPunches ← find F (user_id user) (startOfDay today) (endOfDay today);
  match last todayPunches with
  | Some lastPunch =>
      match punchType lastPunch with
      | IN =>
          let autoCloseTime := endOfDay today - 60000 in
          autoPunch ← create F (now today) (user_id user) OUT autoCloseTime
            Admin
            (Some "Auto-closed by system at midnight (missed punch out)");
          log (LogInfo ("Auto-closed punch for user " +:+ email user));;
          mret (S (fst acc),
                snd acc ++ [mkNotification user (punchTime lastPunch)
                              (punchTime autoPunch)])
      | OUT => mret acc
      end
  | None => mret acc
  end.

(** The body of [for (const notification of notifications)]. *)
Definition notify (F : Faults) (_ : unit) (n : Notification) : M unit :=
  tryCatch
    (sendMissedPunchOutAlert F (n_user n) (n_inPunchTime n) (n_outPunchTime n))
    (fun error =>
       log (LogError ("Failed to send notification to "
                      +:+ email (n_user n) +:+ ":") error)).

(** [autoCloseOpenPunches()]; [users] is the result of
    [User.find({ status: 'Active' })]. *)
Definition autoCloseOpenPunches (F : Faults) (cfg : Defaults)
    (clockOf : string -> Clock) (users : list User) : M AutoCloseResult :=
  tryCatch
    (log (LogInfo "Starting auto-close of open punches...");;
     acc ← forOf (autoCloseUser F cfg clockOf) users (0%nat, []);
     forOf (notify F) (snd acc) tt;;
     log (LogInfo ("Auto-close completed: " +:+ pretty (fst acc)
                   +:+ " punches closed"));;
     mret (mkAutoCloseResult (fst acc) (length (snd acc))))
    (fun error =>
       log (LogError "Error in auto-close open punches:" error);;
       throw error).

(** An entry of [orphanedPunches]. *)
Record Orphan : Type := mkOrphan {
  punchId : ObjectId;
  o_userId : ObjectId;
  o_userName : string;
  o_punchType : PunchType;
  o_punchTime : Z;
  reason : string
}.

(** The loop [for (const punch of punches)] of the orphan scan: the
    accumulator is [orphanedPunches] and [expectedNext]. *)
Definition orphanStep (user : User) (acc : list Orphan * PunchType)
    (punch : PunchLog) : list Orphan * PunchType :=
  let expectedNext := snd acc in
  let found :=
    if decide (punchType punch = expectedNext) then fst acc
    else fst acc ++
         [mkOrphan (_id punch) (user_id user) (name user) (punchType punch)
            (punchTime punch)
            ("Expected " +:+ typeName expectedNext +:+ " but got "
             +:+ typeName (punchType punch))] in
  (found, match punchType punch with IN => OUT | OUT => IN end).

(** The body of [for (const user of users)] in [cleanupOrphanedPunches]. *)
Definition scanUser (F : Faults) (cfg : Defaults) (clockOf : string -> Clock)
    (orphanedPunches : list Orphan) (user : User) : M (list Orphan) :=
  let timezone_ := TimeEngine.getTimezone cfg user in
  let clock := clockOf timezone_ in
  punches_ ← find F (user_id user) (windowStart clock) (endOfDay clock);
  mret (fst (fold_left (orphanStep user) punches_ (orphanedPunches, IN))).

(** The note written on an orphan. *)
Definition orphanNote (orphan : Orphan) : string :=
  "[SYSTEM] Orphaned " +:+ typeName (o_punchType orphan) +:+ " punch - "
  +:+ reason orphan.

(** The body of [for (const orphan of orphanedPunches)]. *)
Definition markOrphan (F : Faults) (now_ : Z) (_ : unit) (orphan : Orphan)
    : M unit :=
  findByIdAndUpdate F now_ (punchId orphan) (orphanNote orphan).

(** [{ success: true, orphanedPunches, dryRun }] *)
Record CleanupResult : Type := mkCleanupResult {
  orphanedPunches : list Orphan;
  r_dryRun : bool
}.

(** [cleanupOrphanedPunches(dryRun)] *)
Definition cleanupOrphanedPunches (F : Faults) (cfg : Defaults)
    (clockOf : string -> Clock) (users : list User) (dryRun : bool)
    : M CleanupResult :=
  tryCatch
    (log (LogInfo ("Cleanup orphaned punches (dryRun: "
                   +:+ (if dryRun then "true" else "false") +:+ ")..."));;
     orphans ← forOf (scanUser F cfg clockOf) users [];
     (if negb dryRun && (0 <? length orphans)%nat
      then forOf (markOrphan F (instant cfg clockOf)) orphans tt
      else mret tt);;
     log (LogInfo ("Found " +:+ pretty (length orphans)
                   +:+ " orphaned punches"));;
     mret (mkCleanupResult orphans dryRun))
    (fun error =>
       log (LogError "Error cleaning up orphaned punches:" error);;
       throw error).

(** An entry of [usersWithOpenPunches]. *)
Record OpenPunch : Type := mkOpenPunch {
  op_userId : ObjectId;
  op_userName : string;
  op_email : string;
  op_punchInTime : Z;
  op_hoursSinceIn : Q;
  op_timezone : string
}.

(** The body of [for (const user of users)] in
    [findUsersWithOpenPunches]. *)
Definition openPunchOf (F : Faults) (cfg : Defaults)
    (clockOf : string -> Clock) (usersWithOpenPunches : list OpenPunch)
    (user : User) : M (list OpenPunch) :=
  let timezone_ := TimeEngine.getTimezone cfg user in
  let today := clockOf timezone_ in
  todayPunches ← find F (user_id user) (startOfDay today) (endOfDay today);
  match last todayPunches with
  | Some lastPunch =>
      match punchType lastPunch with
      | IN =>
          let hoursSinceIn :=
            JS.diffHoursExact (now today) (punchTime lastPunch) in
          mret (usersWithOpenPunches
                ++ [mkOpenPunch (user_id user) (name user) (email user)
                      (punchTime lastPunch) (JS.round1 hoursSinceIn)
                      timezone_])
      | OUT => mret usersWithOpenPunches
      end
  | None => mret usersWithOpenPunches
  end.

(** [findUsersWithOpenPunches()] *)
Definition findUsersWithOpenPunches (F : Faults) (cfg : Defaults)
    (clockOf : string -> Clock) (users : list User) : M (list OpenPunch) :=
  tryCatch
    (forOf (openPunchOf F cfg clockOf) users [])
    (fun error =>
       log (LogError "Error finding users with open punches:" error);;
       throw error).

(** [User.findById(id)] followed by
    [EmailService.sendPunchOutReminder(user, punchInTime)]: the call rejects
    when the user is not found or when the mail call rejects. The reminder
    itself is not part of the world. *)
Definition sendPunchOutReminder (F : Faults) (users : list User)
    (id : ObjectId) (punchInTime : Z) : M unit := fun w =>
  match List.find (fun u => (user_id u =? id)%N) users with
  | Some user =>
      if mailFails F (user_id user)
      then (Throw (MailError (user_id user)), w)
      else (Ok tt, w)
  | None => (Throw (MailError id), w)
  end.

(** The body of [for (const userData of usersWithOpenPunches)] in
    [sendPunchOutReminders]; the accumulator is [remindersSent]. *)
Definition remind (F : Faults) (users : list User) (remindersSent : nat)
    (userData : OpenPunch) : M nat :=
  if Qle_bool 8 (op_hoursSinceIn userData)
  then
    tryCatch
      (sendPunchOutReminder F users (op_userId userData)
         (op_punchInTime userData);;
       log (LogInfo ("Sent reminder to " +:+ op_email userData));;
       mret (S remindersSent))
      (fun error =>
         log (LogError ("Failed to send reminder to "
                        +:+ op_email userData +:+ ":") error);;
         mret remindersSent)
  else mret remindersSent.

(** [sendPunchOutReminders()]: the result is [remindersSent]. *)
Definition sendPunchOutReminders (F : Faults) (cfg : Defaults)
    (clockOf : string -> Clock) (users : list User) : M nat :=
  tryCatch
    (log (LogInfo "Sending punch-out reminders...");;
     usersWithOpenPunches ← findUsersWithOpenPunches F cfg clockOf users;
     remindersSent ← forOf (remind F users) usersWithOpenPunches 0%nat;
     log (LogInfo ("Reminders sent: " +:+ pretty remindersSent));;
     mret remindersSent)
    (fun error =>
       log (LogError "Error sending punch-out reminders:" error);;
       throw error).

(** An entry of [usersWithOddPunches]. *)
Record OddPunches : Type := mkOddPunches {
  od_userId : ObjectId;
  od_userName : string;
  od_email : string;
  od_punchCount : nat
}.

(** The body of the last loop of [getPunchHealthReport]; the query is not
    sorted there and only its length is read. *)
Definition oddPunchesOf (F : Faults) (cfg : Defaults)
    (clockOf : string -> Clock) (usersWithOddPunches : list OddPunches)
    (user : User) : M (list OddPunches) :=
  let timezone_ := TimeEngine.getTimezone cfg user in
  let today := clockOf timezone_ in
  todayPunches ← find F (user_id user) (startOfDay today) (endOfDay today);
  if (0 <? length todayPunches)%nat
     && negb (length todayPunches mod 2 =? 0)%nat
  then mret (usersWithOddPunches
             ++ [mkOddPunches (user_id user) (name user) (email user)
                   (length todayPunches)])
  else mret usersWithOddPunches.

(** The report of [getPunchHealthReport]; each [count] is the length of
    its list and [timestamp] is left out. *)
Record HealthReport : Type := mkHealthReport {
  hr_openPunches : list OpenPunch;
  hr_orphanedPunches : list Orphan;
  hr_oddPunchCount : list OddPunches
}.

(** [getPunchHealthReport()] *)
Definition getPunchHealthReport (F : Faults) (cfg : Defaults)
    (clockOf : string -> Clock) (users : list User) : M HealthReport :=
  tryCatch
    (usersWithOpenPunches ← findUsersWithOpenPunches F cfg clockOf users;
     orphanedCheck ← cleanupOrphanedPunches F cfg clockOf users true;
     usersWithOddPunches ← forOf (oddPunchesOf F cfg clockOf) users [];
     mret (mkHealthReport usersWithOpenPunches
             (orphanedPunches orphanedCheck) usersWithOddPunches))
    (fun error =>
       log (LogError "Error generating punch health report:" error);;
       throw error).

(** The queries and insertions for the punches of [user] go through. *)
Definition reachable (F : Faults) (user : User) : bool :=
  negb (findFails F (user_id user)) && negb (createFails F (user_id user)).

(** [orphan] is the entry that the scan writes for the punch [p]: the
    expected type is the opposite of the type of the punch. *)
Definition entryFor (p : PunchLog) (orphan : Orphan) : Prop :=
  punchId orphan = _id p
  /\ o_punchType orphan = punchType p
  /\ reason orphan
     = "Expected " +:+ typeName (toggle (punchType p)) +:+ " but got "
       +:+ typeName (punchType p).

(** [orphan] is the entry of a punch of the collection. *)
Definition flagged (db : list PunchLog) (orphan : Orphan) : Prop :=
  exists p, p ∈ db /\ entryFor p orphan.

(** The annotation of an orphan of type [t]:
    '[SYSTEM] Orphaned <t> punch - Expected <other type> but got <t>'. *)
Definition systemNote (t : PunchType) : string :=
  "[SYSTEM] Orphaned " +:+ typeName t +:+ " punch - " +:+ "Expected "
  +:+ typeName (toggle t) +:+ " but got " +:+ typeName t.

(** The document [q] is what the document [p] is after the entries [os]
    were marked at the instant [now_]: when [p] is the punch of one of the
    entries, [p] with the annotation of its type as its notes, updated at
    [now_]; otherwise [p] itself. *)
Definition annotated (now_ : Z) (os : list Orphan) (p q : PunchLog) : Prop :=
  ((_id p ∈ map punchId os)
   /\ q = withNotes p (Some (systemNote (punchType p))) now_)
  \/ ((_id p ∉ map punchId os) /\ q = p).

(** What marking the orphan [orphan] at the instant [now_] does to the
    collection. *)
Definition mark (now_ : Z) (db : list PunchLog) (orphan : Orphan)
    : list PunchLog :=
  setNotes db (punchId orphan) (orphanNote orphan) now_.

(** The line logged when the punch of the user of [n] was closed. *)
Definition closedLog (n : Notification) : LogEntry :=
  LogInfo ("Auto-closed punch for user " +:+ email (n_user n)).

(** What the notification loop logs for [n]: the failure of its mail, when
    the mail fails. *)
Definition notificationLog (F : Faults) (n : Notification) : list LogEntry :=
  if mailFails F (user_id (n_user n))
  then [LogError ("Failed to send notification to " +:+ email (n_user n)
                  +:+ ":") (MailError (user_id (n_user n)))]
  else [].

(** What the notification loop sends for [n]: its mail, unless the mail
    fails. *)
Definition notificationMail (F : Faults) (n : Notification) : list Mail :=
  if mailFails F (user_id (n_user n))
  then []
  else [mkMail (user_id (n_user n)) (n_inPunchTime n) (n_outPunchTime n)].

(** A computation that leaves the collection and the mail sent as they
    are, whatever it returns or throws; it may write to the log. *)
Definition readOnly {A : Type} (m : M A) : Prop :=
  forall w, punches (snd (m w)) = punches w /\ outbox (snd (m w)) = outbox w.

(** A punch written by the auto-close job for one of [users]: an OUT of
    source Admin, one minute before the end of the user's day, with the
    note of the job. *)
Definition autoClosed (cfg : Defaults) (clockOf : string -> Clock)
    (users : list User) (p : PunchLog) : Prop :=
  punchType p = OUT
  /\ source p = Admin
  /\ edited p = false
  /\ notes p = Some "Auto-closed by system at midnight (missed punch out)"
  /\ exists user,
       user ∈ users
       /\ userId p = user_id user
       /\ punchTime p
          = endOfDay (clockOf (TimeEngine.getTimezone cfg user)) - 60000.

(** The day of [user] is closed in the collection: the last punch of the
    user's today, if any, is an OUT. *)
Definition closedFor (cfg : Defaults) (clockOf : string -> Clock)
    (db : list PunchLog) (user : User) : Prop :=
  let today := clockOf (TimeEngine.getTimezone cfg user) in
  match last (Db.findInRange db (user_id user) (startOfDay today)
                (endOfDay today)) with
  | Some lastPunch => punchType lastPunch = OUT
  | None => True
  end.

End PunchCleanupService.

(** ** BreakTimeService *)

Module BreakTimeService.

(** The category returned by [categorizeBreak]. *)
Inductive BreakType : Type :=
| ShortBreak      (* 'Short Break' *)
| TeaBreak        (* 'Tea Break' *)
| LunchBreak      (* 'Lunch Break' *)
| ExtendedBreak   (* 'Extended Break' *)
| LongAbsence.    (* 'Long Absence' *)

(** [categorizeBreak(durationMinutes)] *)
Definition categorizeBreak (durationMinutes : Z) : BreakType :=
  if durationMinutes <=? 15 then ShortBreak
  else if durationMinutes <=? 30 then TeaBreak
  else if durationMinutes <=? 60 then LunchBreak
  else if durationMinutes <=? 120 then ExtendedBreak
  else LongAbsence.

(** [formatBreakDuration(minutes)] on a whole number of minutes. *)
Definition formatBreakDuration (minutes : Z) : string :=
  if minutes <? 60 then pretty minutes +:+ "m"
  else
    let hours := minutes / 60 in
    let mins := Z.rem minutes 60 in
    if 0 <? mins
    then pretty hours +:+ "h " +:+ pretty mins +:+ "m"
    else pretty hours +:+ "h".

(** An entry of the list returned by [analyzeBreaks]; the formatted
    [startTime] and [endTime] are kept as the instants they print. *)
Record Break : Type := mkBreak {
  br_start : Z;
  br_end : Z;
  br_durationMinutes : Z;
  br_durationFormatted : string;
  br_type : BreakType;
  br_isLongBreak : bool
}.

(** The body of [for (let i = 0; i < punches.length - 1; i++)]. *)
Definition breakAt (punches : list PunchLog) (i : nat) : list Break :=
  match punches !! i, punches !! (i + 1)%nat with
  | Some a, Some b =>
      match punchType a, punchType b with
      | OUT, IN =>
          let durationMinutes := JS.diffMinutes (punchTime b) (punchTime a) in
          [mkBreak (punchTime a) (punchTime b) durationMinutes
             (formatBreakDuration durationMinutes)
             (categorizeBreak durationMinutes)
             (durationMinutes >? 60)]
      | _, _ => []
      end
  | _, _ => []
  end.

(** [analyzeBreaks(punches, timezone)] *)
Definition analyzeBreaks (punches : list PunchLog) : list Break :=
  flat_map (breakAt punches) (seq 0 (length punches - 1)).

(** The object returned by [getTodayBreaks]. *)
Record TodayBreaks : Type := mkTodayBreaks {
  tb_breaks : list Break;
  tb_totalBreakMinutes : Z;
  tb_totalBreakFormatted : string;
  tb_breakCount : nat
}.

(** [getTodayBreaks(userId, timezone)] *)
Definition getTodayBreaks (db : list PunchLog) (clock : Clock)
    (uid : ObjectId) : TodayBreaks :=
  let punches :=
    Db.findInRange db uid (startOfDay clock) (endOfDay clock) in
  let breaks := analyzeBreaks punches in
  let totalBreakMinutes :=
    fold_left (fun sum br => sum + br_durationMinutes br) breaks 0 in
  mkTodayBreaks breaks totalBreakMinutes
    (formatBreakDuration totalBreakMinutes) (length breaks).

(** The alert text of [checkLongBreak]. *)
Inductive LongBreakAlert : Type :=
| ExceedsTwoHours    (* 'Break exceeds 2 hours' *)
| ExtendedDetected.  (* 'Extended break detected' *)

(** The object returned by [checkLongBreak]. *)
Record LongBreak : Type := mkLongBreak {
  lb_breakStartTime : Z;
  lb_breakDuration : Z;
  lb_breakDurationFormatted : string;
  lb_alert : LongBreakAlert
}.

(** [checkLongBreak(userId, timezone)] *)
Definition checkLongBreak (db : list PunchLog) (clock : Clock)
    (uid : ObjectId) : option LongBreak :=
  let punches :=
    Db.sortDesc
      (List.filter (Db.inRange uid (startOfDay clock) (endOfDay clock)) db) in
  match head punches with
  | None => None
  | Some lastPunch =>
      match punchType lastPunch with
      | OUT =>
          let breakDuration :=
            JS.diffMinutes (now clock) (punchTime lastPunch) in
          if breakDuration >? 90
          then Some (mkLongBreak (punchTime lastPunch) breakDuration
                       (formatBreakDuration breakDuration)
                       (if breakDuration >? 120
                        then ExceedsTwoHours else ExtendedDetected))
          else None
      | IN => None
      end
  end.

End BreakTimeService.

(** ** Quantities of a punch sequence *)

Module Sequence.

(** The pairs of neighbours of a sequence, in order. *)
Definition adjacent (l : list PunchLog) : list (PunchLog * PunchLog) :=
  zip l (tail l).

(** The minutes between two punches. *)
Definition gap (pair : PunchLog * PunchLog) : Q :=
  JS.diffMinutesExact (punchTime (snd pair)) (punchTime (fst pair)).

(** What a pair of neighbours counts as worked time: its minutes when it
    is an IN followed by an OUT at most 1440 minutes later. *)
Definition session (pair : PunchLog * PunchLog) : Q :=
  match punchType (fst pair), punchType (snd pair) with
  | IN, OUT => if Qle_bool (gap pair) 1440 then gap pair else 0%Q
  | _, _ => 0%Q
  end.

(** The pending IN of the loop of [calculateWorkedTime] after it read
    [prev]: that punch when it is an IN, and nothing otherwise. *)
Definition pendingAfter (prev : PunchLog) : option PunchLog :=
  match punchType prev with IN => Some prev | OUT => None end.

(** Punch types alternate, starting with [first]. *)
Fixpoint alternates (first : PunchType) (l : list PunchLog) : Prop :=
  match l with
  | [] => True
  | p :: rest => punchType p = first /\ alternates (toggle first) rest
  end.

(** The sequence is in ascending order of [punchTime]. *)
Definition ascending (l : list PunchLog) : Prop := Sorted Db.earlier l.

(** The punches that are out of turn: a first punch that is an OUT, and
    every punch of the type of the punch right before it. *)
Definition outOfTurn (l : list PunchLog) : list PunchLog :=
  match l with
  | p :: _ => match punchType p with OUT => [p] | IN => [] end
  | [] => []
  end
  ++ map snd
       (List.filter
          (fun pair => bool_decide (punchType (fst pair) = punchType (snd pair)))
          (adjacent l)).

(** What a pair of neighbours counts as a break: its whole minutes when it
    is an OUT followed by an IN. *)
Definition pause (pair : PunchLog * PunchLog) : Z :=
  match punchType (fst pair), punchType (snd pair) with
  | OUT, IN => JS.diffMinutes (punchTime (snd pair)) (punchTime (fst pair))
  | _, _ => 0
  end.

(** The minutes from the first punch of the sequence to the last. *)
Definition span (l : list PunchLog) : Q :=
  match l with
  | [] => 0%Q
  | first :: rest =>
      JS.diffMinutesExact (punchTime (List.last rest first)) (punchTime first)
  end.

End Sequence.

(** ** Concrete inputs *)

Module Ex.

(** 2024-01-15T00:00:00Z in epoch milliseconds. *)
Definition day0 : Z := 1705276800000.

(** [hh:mm:ss] UTC on that day. *)
Definition at_ (h m sec : Z) : Z := day0 + ((h * 60 + m) * 60 + sec) * 1000.

(** A punch of user 1 as [PunchLog.create] stores it. *)
Definition punch (id : ObjectId) (t : PunchType) (time : Z) : PunchLog :=
  mkPunch id 1%N t time Manual None false None None None None None None
    time time.

(** [IN 09:00, OUT 12:00, IN 13:00, OUT 17:00] *)
Definition twoSessions : list PunchLog :=
  [punch 1%N IN (at_ 9 0 0); punch 2%N OUT (at_ 12 0 0);
   punch 3%N IN (at_ 13 0 0); punch 4%N OUT (at_ 17 0 0)].

(** [config.defaults] with the values of the repository. *)
Definition cfg : Defaults :=
  mkDefaults "Asia/Kolkata" 8
    ["Monday"; "Tuesday"; "Wednesday"; "Thursday"; "Friday"]
    (Some (mkBusinessHours (mkHM 6 0) (mkHM 23 59))).

(** The clock at [hh:mm:ss] of that day, a Monday, in the timezone UTC. *)
Definition clockAt (h m sec : Z) : Clock :=
  mkClock (at_ h m sec) day0 (day0 + 86399999) h m sec "Monday"
    (day0 - 30 * 86400000).

Definition profileOf (days : option (list string)) : Profile :=
  mkProfile (Some "UTC") (Some 480%Q) days None None None None.

(** User 1, with the default profile of a registered user. *)
Definition alice : User :=
  mkUser 1%N "Alice" "alice@example.com" RoleUser
    (profileOf (Some ["Monday"; "Tuesday"; "Wednesday"; "Thursday"; "Friday"])).

(** [createPunch(user)] from the manual punch route. *)
Definition manual : PunchService.Options :=
  PunchService.mkOptions Manual None None false.

(** The only punch of user 1 is an IN at 18:00 of the day before. *)
Definition openYesterday : list PunchLog := [punch 1%N IN (at_ (-6) 0 0)].

(** The only punch of user 1 is an IN at 23:59:55 of the day before. *)
Definition inBeforeMidnight : list PunchLog := [punch 1%N IN (at_ 0 0 (-5))].

(** The only punch of user 1 is an IN at 09:00:00 of the day. *)
Definition inAtNine : list PunchLog := [punch 1%N IN (at_ 9 0 0)].

(** Day [i] of the week of [day0], which starts on Sunday 2024-01-14;
    today is the Monday. *)
Definition week (i : nat) : TimeEngine.WeekDay :=
  TimeEngine.mkWeekDay
    (nth i ["2024-01-14"; "2024-01-15"; "2024-01-16"; "2024-01-17";
            "2024-01-18"; "2024-01-19"; "2024-01-20"] "")
    (nth i ["Sunday"; "Monday"; "Tuesday"; "Wednesday"; "Thursday"; "Friday";
            "Saturday"] "")
    (day0 + (Z.of_nat i - 1) * 86400000)
    (day0 + (Z.of_nat i - 1) * 86400000 + 86399999)
    (i =? 1)%nat.

(** User 2 saved an empty list of working days in the profile. *)
Definition bob : User :=
  mkUser 2%N "Bob" "bob@example.com" RoleUser (profileOf (Some [])).

(** User 2 worked from 09:00 to 17:00 on the Monday. *)
Definition bobMonday : list PunchLog :=
  [mkPunch 5%N 2%N IN (at_ 9 0 0) Manual None false None None None None None
     None (at_ 9 0 0) (at_ 9 0 0);
   mkPunch 6%N 2%N OUT (at_ 17 0 0) Manual None false None None None None
     None None (at_ 17 0 0) (at_ 17 0 0)].

(** User 1 worked from 10:00 to 12:00 on the Sunday and from 09:00 to
    17:00 on the Monday. *)
Definition aliceWeek : list PunchLog :=
  [punch 1%N IN (at_ (-14) 0 0); punch 2%N OUT (at_ (-12) 0 0);
   punch 3%N IN (at_ 9 0 0); punch 4%N OUT (at_ 17 0 0)].

(** User 3. *)
Definition carol : User :=
  mkUser 3%N "Carol" "carol@example.com" RoleUser (profileOf None).

(** User 4. *)
Definition dave : User :=
  mkUser 4%N "Dave" "dave@example.com" RoleUser (profileOf None).

(** The query for the punches of user 1 rejects; nothing else fails. *)
Definition findFailsForAlice : PunchCleanupService.Faults :=
  PunchCleanupService.mkFaults (fun uid => (uid =? 1)%N) (fun _ => false)
    (fun _ => false) (fun _ => false).

(** Nothing fails. *)
Definition noFaults : PunchCleanupService.Faults :=
  PunchCleanupService.mkFaults (fun _ => false) (fun _ => false)
    (fun _ => false) (fun _ => false).

(** The mail to user 1 and the query for the punches of user 3 reject;
    nothing else fails. *)
Definition mailFailsForAlice : PunchCleanupService.Faults :=
  PunchCleanupService.mkFaults (fun uid => (uid =? 3)%N) (fun _ => false)
    (fun _ => false) (fun uid => (uid =? 1)%N).

(** A driver that skips and limits for a skip that is not negative and a
    limit of at least 1, and rejects every other call. *)
Definition cursor : PunchService.Cursor := fun skip limit docs =>
  match skip, limit with
  | Some s, Some l =>
      if (0 <=? s) && (1 <=? l)
      then Ok (take (Z.to_nat l) (drop (Z.to_nat s) docs))
      else Throw (DbError "find" 0%N)
  | _, _ => Throw (DbError "find" 0%N)
  end.

(** Every user is in the timezone of [clockAt]; the job runs at 23:59. *)
Definition atMidnightJob (tz : string) : Clock := clockAt 23 59 0.

(** Users 1, 3 and 4 each punched IN this morning and never punched OUT. *)
Definition threeOpen : PunchCleanupService.World :=
  PunchCleanupService.mkWorld
    [punch 1%N IN (at_ 9 0 0);
     mkPunch 2%N 3%N IN (at_ 9 30 0) Manual None false None None None None
       None None (at_ 9 30 0) (at_ 9 30 0);
     mkPunch 3%N 4%N IN (at_ 8 0 0) Manual None false None None None None
       None None (at_ 8 0 0) (at_ 8 0 0)]
    [] [].

(** The only punch of user 1 in the last 30 days is an OUT at 17:00 today,
    with a note of the user. *)
Definition loneOut : PunchCleanupService.World :=
  PunchCleanupService.mkWorld
    [mkPunch 1%N 1%N OUT (at_ 17 0 0) Manual None false None None None None
       None (Some "Left early, dentist") (at_ 17 0 0) (at_ 17 0 0)]
    [] [].

(** The entry of the orphan scan for the punch of [loneOut]. *)
Definition loneOutEntry : PunchCleanupService.Orphan :=
  PunchCleanupService.mkOrphan 1%N 1%N "Alice" OUT (at_ 17 0 0)
    "Expected IN but got OUT".

(** [loneOut] after the cleanup run at 23:59. *)
Definition loneOutMarked : PunchCleanupService.World :=
  PunchCleanupService.mkWorld
    [mkPunch 1%N 1%N OUT (at_ 17 0 0) Manual None false None None None None
       None (Some "[SYSTEM] Orphaned OUT punch - Expected IN but got OUT")
       (at_ 17 0 0) (at_ 23 59 0)]
    [PunchCleanupService.LogInfo "Cleanup orphaned punches (dryRun: false)...";
     PunchCleanupService.LogInfo "Found 1 orphaned punches"]
    [].

(** Business hours from 09:00 to 17:00. *)
Definition nineToFive : BusinessHours :=
  mkBusinessHours (mkHM 9 0) (mkHM 17 0).

(** The punches of user 1 today: IN 09:00, IN 09:05, OUT 09:10. *)
Definition inInOut : list PunchLog :=
  [punch 1%N IN (at_ 9 0 0); punch 2%N IN (at_ 9 5 0);
   punch 3%N OUT (at_ 9 10 0)].

(** An administrator. *)
Definition admin : User :=
  mkUser 9%N "Root" "root@example.com" RoleAdmin (profileOf None).

(** An edit that moves the punch to [time]. *)
Definition moveTo (time : Z) : PunchService.EditData :=
  PunchService.mkEditData (Some time) None (Some "correction").

(** An edit that changes the type of the punch. *)
Definition retype (t : PunchType) : PunchService.EditData :=
  PunchService.mkEditData None (Some t) (Some "wrong button").

(** Two later edits of punch 1: by its owner, then by the administrator. *)
Definition laterEdits : list Scenario.EditRequest :=
  [Scenario.mkEditRequest (at_ 11 0 0) 1%N (moveTo (at_ 8 50 0)) alice;
   Scenario.mkEditRequest (at_ 12 0 0) 1%N (retype OUT) admin].

End Ex.

(** * Properties *)

(** ** Rational arithmetic of the embedding *)

Lemma diffMinutesExact_div (a b : Z) :
  (JS.diffMinutesExact a b == inject_Z (a - b) / 60000)%Q.
Proof.
  unfold JS.diffMinutesExact, Qdiv, Qeq, Qmult, Qinv, inject_Z. simpl. lia.
Qed.

Lemma Qle_bool_eq (a a' b : Q) : (a == a')%Q -> Qle_bool a b = Qle_bool a' b.
Proof. intros H. rewrite H. reflexivity. Qed.

Lemma max0_nonneg (q : Q) : (0 <= JS.max0 q)%Q.
Proof. unfold JS.max0. apply Q.le_max_l. Qed.

(** ** The worked-time calculator *)

Section WorkedTime.

Import TimeEngine.

(** The loop of [calculateWorkedTime], started in any state, adds what the
    scan of section 4.3 accumulates from the same pending IN. *)
Lemma fold_scanStep_reference (punches : list PunchLog) (s : Scan) :
  (totalMinutes (fold_left scanStep punches s)
     == totalMinutes s + fst (Reference.scan (lastInPunch s) punches))%Q
  /\ lastInPunch (fold_left scanStep punches s)
     = snd (Reference.scan (lastInPunch s) punches).
Proof.
  revert s. induction punches as [|p rest IH]; intros s; simpl.
  - split; [ring | reflexivity].
  - unfold scanStep at 2 4. destruct (punchType p).
    + destruct (IH (mkScan (totalMinutes s) (Some p))) as [Ht Hl].
      simpl in *. split; assumption.
    + destruct (lastInPunch s) as [i|] eqn:Hlast.
      * unfold JS.gtb.
        rewrite (Qle_bool_eq _ _ 1440 (diffMinutesExact_div (punchTime p) (punchTime i))).
        destruct (Qle_bool (inject_Z (punchTime p - punchTime i) / 60000) 1440);
          simpl.
        -- destruct (IH (mkScan (totalMinutes s
                 + JS.diffMinutesExact (punchTime p) (punchTime i)) None))
             as [Ht Hl]. simpl in *. split; [|assumption].
           rewrite Ht, diffMinutesExact_div. ring.
        -- destruct (IH (mkScan (totalMinutes s) None)) as [Ht Hl].
           simpl in *. split; assumption.
      * destruct (IH s) as [Ht Hl]. rewrite Hlast in Ht, Hl.
        split; assumption.
Qed.

End WorkedTime.

(** C1, as amended. For every punch sequence and every [now],
    [calculateWorkedTime] returns what the reference algorithm of section
    4.3 returns: a later IN replaces the pending IN, an OUT without pending
    IN adds nothing, a pair longer than 1440 minutes is dropped, any other
    pair adds its duration, the open session adds its elapsed time when at
    most 960 minutes and 480 otherwise, and the result is at least 0. For
    [IN 09:00, OUT 12:00, IN 13:00, OUT 17:00] without the open session the
    result is 420 minutes. *)
Theorem calculateWorkedTime_reference :
  (forall (now_ : Z) (punches : list PunchLog) (includeOpenSession : bool),
     (TimeEngine.calculateWorkedTime now_ punches includeOpenSession
      == Reference.calculateWorkedMinutes now_ punches includeOpenSession)%Q)
  /\ (forall now_ : Z,
        (TimeEngine.calculateWorkedTime now_ Ex.twoSessions false == 420)%Q).
Proof.
  split.
  - intros now_ punches b.
    unfold TimeEngine.calculateWorkedTime, Reference.calculateWorkedMinutes,
      JS.max0.
    destruct (fold_scanStep_reference punches (TimeEngine.mkScan 0 None))
      as [Ht Hl].
    simpl in Ht, Hl. rewrite Hl.
    unfold Reference.openSession.
    destruct (snd (Reference.scan None punches)) as [i|]; destruct b;
      try (apply Q.max_compat; [reflexivity | rewrite Ht; ring]).
    rewrite (Qle_bool_eq _ _ 960 (diffMinutesExact_div now_ (punchTime i))).
    destruct (Qle_bool (inject_Z (now_ - punchTime i) / 60000) 960);
      apply Q.max_compat; try reflexivity; rewrite Ht;
      rewrite ?diffMinutesExact_div; ring.
  - intros now_. vm_compute. reflexivity.
Qed.

(** C1, the example as the claim states it: the code does not return 480
    for [IN 09:00, OUT 12:00, IN 13:00, OUT 17:00]. *)
Lemma calculateWorkedTime_example_not_480 :
  ~ (TimeEngine.calculateWorkedTime (Ex.at_ 18 0 0) Ex.twoSessions false
     == 480)%Q.
Proof. vm_compute. discriminate. Qed.

(** ** The last punch and the next punch type *)

#[local] Instance later_total : Total Db.later.
Proof. intros a b. unfold Db.later. lia. Qed.

#[local] Instance later_trans : Transitive Db.later.
Proof. intros a b c. unfold Db.later. lia. Qed.

#[local] Instance earlier_total : Total Db.earlier.
Proof. intros a b. unfold Db.earlier. lia. Qed.

#[local] Instance earlier_trans : Transitive Db.earlier.
Proof. intros a b c. unfold Db.earlier. lia. Qed.

(** [getLastPunch] returns a punch of the user that no punch of the user
    is later than. *)
Lemma getLastPunch_most_recent (db : list PunchLog) (uid : ObjectId)
    (p : PunchLog) :
  TimeEngine.getLastPunch db uid = Some p ->
  p ∈ db /\ userId p = uid
  /\ forall q, q ∈ db -> userId q = uid -> punchTime q <= punchTime p.
Proof.
  unfold TimeEngine.getLastPunch, Db.sortDesc. intros Hhead.
  set (mine := List.filter (fun p => (userId p =? uid)%N) db) in *.
  assert (Hperm : merge_sort Db.later mine ≡ₚ mine)
    by apply merge_sort_Permutation.
  assert (Hsorted : StronglySorted Db.later (merge_sort Db.later mine))
    by (apply (StronglySorted_merge_sort Db.later)).
  destruct (merge_sort Db.later mine) as [|x rest] eqn:Hm; [discriminate|].
  simpl in Hhead. inversion Hhead; subst x.
  assert (Hin : p ∈ mine) by (rewrite <- Hperm; left).
  apply list_elem_of_In, filter_In in Hin as [Hin Huid].
  apply N.eqb_eq in Huid. split; [by apply list_elem_of_In|]. split; [done|].
  intros q Hq Hquid.
  assert (Hqm : q ∈ mine).
  { apply list_elem_of_In, filter_In. split; [by apply list_elem_of_In|].
    by apply N.eqb_eq. }
  rewrite <- Hperm in Hqm. apply elem_of_cons in Hqm as [->|Hqr]; [lia|].
  apply StronglySorted_inv in Hsorted as [_ Hall].
  rewrite Forall_forall in Hall. by apply Hall.
Qed.

(** [getLastPunch] finds nothing exactly when the user has no punch. *)
Lemma getLastPunch_None (db : list PunchLog) (uid : ObjectId) :
  TimeEngine.getLastPunch db uid = None <->
  forall q, q ∈ db -> userId q <> uid.
Proof.
  unfold TimeEngine.getLastPunch, Db.sortDesc.
  set (mine := List.filter (fun p => (userId p =? uid)%N) db).
  assert (Hperm : merge_sort Db.later mine ≡ₚ mine)
    by apply merge_sort_Permutation.
  split.
  - intros Hhead q Hq Huid.
    destruct (merge_sort Db.later mine) as [|x rest]; [|discriminate].
    apply Permutation_nil_l in Hperm.
    assert (Hqm : q ∈ mine).
    { apply list_elem_of_In, filter_In. split; [by apply list_elem_of_In|].
      by apply N.eqb_eq. }
    rewrite <- Hperm in Hqm. by apply elem_of_nil in Hqm.
  - intros Hnone.
    destruct (merge_sort Db.later mine) as [|x rest]; [done|].
    assert (Hx : x ∈ mine) by (rewrite <- Hperm; left).
    apply list_elem_of_In, filter_In in Hx as [Hx Huid].
    apply N.eqb_eq in Huid. exfalso.
    apply (Hnone x); [by apply list_elem_of_In | done].
Qed.

(** [getNextPunchType] is the opposite of the type of the user's last
    punch of any day, and IN when the user has no punch at all. *)
Lemma getNextPunchType_toggle (db : list PunchLog) (uid : ObjectId) :
  TimeEngine.getNextPunchType db uid
  = match TimeEngine.getLastPunch db uid with
    | Some lastPunch => toggle (punchType lastPunch)
    | None => IN
    end.
Proof.
  unfold TimeEngine.getNextPunchType.
  destruct (TimeEngine.getLastPunch db uid) as [p|]; [|done].
  by destruct (punchType p).
Qed.

(** C2 at the failing input: user 1 has no punch today and an IN of the day
    before as last punch. [getNextPunchType] answers OUT, and [createPunch]
    then rejects the punch because the first punch of the day must be IN. *)
Theorem getNextPunchType_open_punch_of_yesterday :
  TimeEngine.getTodayPunches Ex.openYesterday (Ex.clockAt 9 0 0) 1%N = []
  /\ TimeEngine.getNextPunchType Ex.openYesterday 1%N = OUT
  /\ PunchService.createPunch Ex.cfg [] (Ex.clockAt 9 0 0)
       Ex.openYesterday Ex.alice Ex.manual
     = (Throw (ValidationError "First punch of the day must be IN"),
        Ex.openYesterday).
Proof. vm_compute. done. Qed.

(** ** Double-punch suppression *)

Section DoublePunch.

Import PunchService.

(** The truncated difference in seconds is under 60 exactly when the two
    instants are less than 60000 milliseconds apart. *)
Lemma diffSeconds_under_60 (a b : Z) :
  Z.abs (JS.diffSeconds a b) < 60 <-> Z.abs (a - b) < 60000.
Proof.
  unfold JS.diffSeconds. generalize (a - b). intros d.
  Z.to_euclidean_division_equations. lia.
Qed.

Lemma isDoublePunch_iff (db : list PunchLog) (uid : ObjectId) (t : Z) :
  TimeEngine.isDoublePunch db uid t = true <->
  exists lastPunch,
    TimeEngine.getLastPunch db uid = Some lastPunch
    /\ Z.abs (t - punchTime lastPunch) < 60000.
Proof.
  unfold TimeEngine.isDoublePunch.
  destruct (TimeEngine.getLastPunch db uid) as [p|].
  - rewrite Z.ltb_lt, diffSeconds_under_60. split.
    + intros H. by exists p.
    + intros (q & Hq & H). by inversion Hq; subst.
  - split; [discriminate|]. by intros (q & Hq & _).
Qed.

Lemma checkNfc_not_double (tags : list NfcTag) (user : User)
    (options : Options) :
  checkNfc tags user options <> Throw DoublePunchError.
Proof.
  unfold checkNfc.
  destruct (o_source options); try discriminate.
  destruct (o_nfcUID options) as [u|]; try discriminate.
  destruct (String.eqb u ""); try discriminate.
  destruct (findActiveByUID tags u) as [t|]; try discriminate.
  destruct (tag_userId t =? user_id user)%N; discriminate.
Qed.

(** [validation.valid] is the answer of the sequence check, and the first
    error is the error of that check. *)
Lemma valid_sequence (cfg : Defaults) (db : list PunchLog) (clock : Clock)
    (uid : ObjectId) (t : PunchType)
    (userConfig_ : PunchValidator.userConfig) :
  PunchValidator.valid
    (PunchValidator.validatePunch cfg db clock uid t userConfig_)
  = PunchValidator.sequenceValid
      (PunchValidator.validatePunchSequence db clock uid t)
  /\ PunchValidator.errors
       (PunchValidator.validatePunch cfg db clock uid t userConfig_)
     = match PunchValidator.validatePunchSequence db clock uid t with
       | PunchValidator.SequenceError e => [e]
       | PunchValidator.SequenceValid => []
       end.
Proof.
  unfold PunchValidator.validatePunch. cbv zeta.
  cbn [PunchValidator.valid PunchValidator.errors].
  by rewrite negb_involutive.
Qed.

(** What a call of [createPunch] returns and leaves. On success: the
    collection with one more document, the punch created, of the next
    type, at the instant of the call; the call was no double punch and
    passed the later checks. On failure: the collection as it was; the
    error is the double-punch error exactly for a double punch, and
    otherwise one of the later checks did not pass. *)
Lemma createPunch_inv (cfg : Defaults) (tags : list NfcTag)
    (clock : Clock) (db : list PunchLog) (user : User)
    (options : Options) :
  match createPunch cfg tags clock db user options with
  | (Ok created, db') =>
      db' = db ++ [c_punch created]
      /\ _id (c_punch created) = Db.freshId db
      /\ userId (c_punch created) = user_id user
      /\ punchType (c_punch created)
         = TimeEngine.getNextPunchType db (user_id user)
      /\ punchTime (c_punch created) = now clock
      /\ source (c_punch created) = o_source options
      /\ edited (c_punch created) = false
      /\ TimeEngine.isDoublePunch db (user_id user) (now clock) = false
      /\ notes (c_punch created) = finalNotes cfg clock db user options
      /\ passes cfg tags clock db user options
  | (Throw e, db') =>
      db' = db
      /\ (TimeEngine.isDoublePunch db (user_id user) (now clock) = true ->
          e = DoublePunchError)
      /\ (TimeEngine.isDoublePunch db (user_id user) (now clock) = false ->
          e <> DoublePunchError
          /\ ~ passes cfg tags clock db user options)
  end.
Proof.
  unfold createPunch, passes.
  destruct (TimeEngine.isDoublePunch db (user_id user) (now clock)).
  { split; [done|]. split; [done | discriminate]. }
  cbv zeta.
  pose proof (checkNfc_not_double tags user options) as Hnot.
  assert (Hval : validation cfg clock db user options
                 = if o_skipValidation options then None
                   else Some (PunchValidator.validatePunch cfg db clock
                                (user_id user)
                                (TimeEngine.getNextPunchType db (user_id user))
                                (profile user))) by reflexivity.
  destruct (valid_sequence cfg db clock (user_id user)
              (TimeEngine.getNextPunchType db (user_id user))
              (profile user)) as [Hv _].
  destruct (o_skipValidation options) eqn:Hskip; rewrite Hval; cbv beta iota;
    [|rewrite Hv;
      destruct (PunchValidator.validatePunchSequence db clock (user_id user)
                  (TimeEngine.getNextPunchType db (user_id user))) eqn:Hseq;
      cbn [PunchValidator.sequenceValid]; cbv beta iota].
  1,2: destruct (checkNfc tags user options) as [nfcTag|e] eqn:Hnfc;
    [destruct (Schema.maxlength 500 (finalNotes cfg clock db user options))
       eqn:Hlen|].
  1,4: cbn [c_punch _id userId punchType punchTime source edited notes];
    repeat split; try done; first [by left | by right | by exists nfcTag].
  1,3: split; [done|]; split; [discriminate|]; intros _;
    split; [discriminate|]; intros (_ & _ & H); discriminate.
  1,2: split; [done|]; split; [discriminate|]; intros _;
    split; [congruence|]; intros (_ & [t H] & _); discriminate.
  split; [done|]. split; [discriminate|]. intros _.
  split; [discriminate|]. intros ([H|H] & _); discriminate.
Qed.


End DoublePunch.



(** 10 seconds after the same IN the punch is rejected as a double punch,
    although the sequence check would reject it as well. *)
Example createPunch_rejected_10_seconds_after :
  PunchValidator.validatePunchSequence Ex.inBeforeMidnight (Ex.clockAt 0 0 5)
    1%N (TimeEngine.getNextPunchType Ex.inBeforeMidnight 1%N)
  = PunchValidator.SequenceError "First punch of the day must be IN"
  /\ PunchService.createPunch Ex.cfg [] (Ex.clockAt 0 0 5)
       Ex.inBeforeMidnight Ex.alice Ex.manual
     = (Throw DoublePunchError, Ex.inBeforeMidnight).
Proof. vm_compute. done. Qed.

(** Exactly 60 seconds after the last punch the punch is not a double punch. *)
Example isDoublePunch_at_60_seconds :
  TimeEngine.isDoublePunch Ex.inAtNine 1%N (Ex.at_ 9 1 0) = false
  /\ TimeEngine.isDoublePunch Ex.inAtNine 1%N (Ex.at_ 9 1 0 - 1) = true.
Proof. vm_compute. done. Qed.

(** ** Business hours *)

(** C7, as amended. The business-hours check warns, with
    [requiresApproval], exactly when the local minute of the day is before
    the start or after the end of the configured window: the window is the
    closed interval from start to end, counted in whole minutes. *)
Theorem validateBusinessHours_closed_window (cfg : Defaults)
    (hour minute : Z) (businessHours_ : option BusinessHours) :
  let window :=
    match businessHours_ with
    | Some bh => bh
    | None => PunchValidator.defaultBusinessHours cfg
    end in
  let punchMinutes := hour * 60 + minute in
  let startMinutes := hh (bh_start window) * 60 + mm (bh_start window) in
  let endMinutes := hh (bh_end window) * 60 + mm (bh_end window) in
  let r := PunchValidator.validateBusinessHours cfg hour minute businessHours_ in
  (PunchValidator.bhr_requiresApproval r = true
   <-> ~ (startMinutes <= punchMinutes <= endMinutes))
  /\ PunchValidator.bhr_warning r = PunchValidator.bhr_requiresApproval r
  /\ PunchValidator.bhr_valid r = negb (PunchValidator.bhr_requiresApproval r).
Proof.
  intros window punchMinutes startMinutes endMinutes r.
  subst r. unfold PunchValidator.validateBusinessHours.
  fold window. fold punchMinutes startMinutes endMinutes.
  destruct (punchMinutes <? startMinutes) eqn:Hs;
    destruct (punchMinutes >? endMinutes) eqn:He; simpl;
    rewrite ?Z.ltb_lt, ?Z.ltb_ge in Hs; rewrite Z.gtb_ltb in He;
    rewrite ?Z.ltb_lt, ?Z.ltb_ge in He;
    (split; [split; intros H; first [done | lia | exfalso; lia] | done]).
Qed.

(** C7 as stated fails at the end of the window: with business hours from
    09:00 to 17:00 a punch at 17:00 local time lies outside [09:00, 17:00)
    and gets no warning. *)
Lemma validateBusinessHours_end_time_no_warning :
  ~ (9 * 60 + 0 <= 17 * 60 + 0 < 17 * 60 + 0)
  /\ PunchValidator.validateBusinessHours Ex.cfg 17 0 (Some Ex.nineToFive)
     = PunchValidator.mkBusinessHoursResult true false false.
Proof. split; [lia | reflexivity]. Qed.

(** ** Short sessions *)

Section ShortSessions.

Import PunchValidator.

Lemma elem_of_pairIndices (len fuel i0 i : nat) :
  (len <= i0 + 2 * fuel + 1)%nat ->
  i ∈ pairIndices i0 len fuel
  <-> (i0 <= i)%nat /\ Nat.even (i - i0) = true /\ (i + 1 < len)%nat.
Proof.
  revert i0. induction fuel as [|fuel IH]; intros i0 Hlen; simpl.
  - rewrite elem_of_nil. split; [done|]. lia.
  - destruct (Z.of_nat i0 <? Z.of_nat len - 1) eqn:Hlt.
    + apply Z.ltb_lt in Hlt. rewrite elem_of_cons, IH by lia. split.
      * intros [->|(Hle & Hev & Hi)].
        -- rewrite Nat.sub_diag. split; [lia|]. split; [done|lia].
        -- split; [lia|]. split; [|lia].
           replace (i - i0)%nat with (S (S (i - (i0 + 2))))%nat by lia.
           exact Hev.
      * intros (Hle & Hev & Hi).
        destruct (decide (i = i0)) as [->|Hne]; [by left|right].
        destruct (decide (i = S i0)) as [->|Hne'].
        { replace (S i0 - i0)%nat with 1%nat in Hev by lia. discriminate. }
        split; [lia|]. split; [|lia].
        replace (i - i0)%nat with (S (S (i - (i0 + 2))))%nat in Hev by lia.
        exact Hev.
    + apply Z.ltb_ge in Hlt. rewrite elem_of_nil. split; [done|]. lia.
Qed.

(** Truncating the difference to whole minutes does not change whether it
    is under 30 minutes. *)
Lemma diffMinutes_under_30 (a b : Z) :
  JS.diffMinutes b a < 30 <-> b - a < 1800000.
Proof.
  unfold JS.diffMinutes. generalize (b - a). intros d.
  Z.to_euclidean_division_equations. lia.
Qed.

Lemma elem_of_shortSessionAt (today : list PunchLog) (i : nat) (x : Issue) :
  x ∈ shortSessionAt today i <->
  exists a b,
    today !! i = Some a /\ today !! (i + 1)%nat = Some b
    /\ punchType a = IN /\ punchType b = OUT
    /\ punchTime b - punchTime a < 1800000
    /\ x = SHORT_SESSION (JS.diffMinutes (punchTime b) (punchTime a))
             (punchTime a) (punchTime b).
Proof.
  unfold shortSessionAt.
  assert (Hnil : (exists a b,
      today !! i = Some a /\ today !! (i + 1)%nat = Some b
      /\ punchType a = IN /\ punchType b = OUT
      /\ punchTime b - punchTime a < 1800000
      /\ x = SHORT_SESSION (JS.diffMinutes (punchTime b) (punchTime a))
               (punchTime a) (punchTime b)) ->
    forall a b, today !! i = Some a -> today !! (i + 1)%nat = Some b ->
                punchType a = IN /\ punchType b = OUT).
  { intros (a' & b' & Ea & Eb & Ta & Tb & _) a b Ha Hb. by simplify_eq. }
  destruct (today !! i) as [a|] eqn:Ei;
    [|rewrite elem_of_nil; split; [done|];
      by intros (a' & b' & Ea & _)].
  destruct (today !! (i + 1)%nat) as [b|] eqn:Ei1;
    [|rewrite elem_of_nil; split; [done|];
      by intros (a' & b' & _ & Eb & _)].
  destruct (punchType a) eqn:Ha;
    [|rewrite elem_of_nil; split; [done|];
      intros H; destruct (Hnil H a b eq_refl eq_refl); congruence].
  destruct (punchType b) eqn:Hb;
    [rewrite elem_of_nil; split; [done|];
      intros H; destruct (Hnil H a b eq_refl eq_refl); congruence|].
  clear Hnil.
  destruct (JS.diffMinutes (punchTime b) (punchTime a) <? 30) eqn:Hd.
  - apply Z.ltb_lt, diffMinutes_under_30 in Hd.
    rewrite list_elem_of_singleton. split.
    + intros ->. exists a, b. done.
    + intros (a' & b' & Ea & Eb & _ & _ & _ & ->). by simplify_eq.
  - apply Z.ltb_ge in Hd. rewrite elem_of_nil. split; [done|].
    intros (a' & b' & Ea & Eb & _ & _ & Hlt & _). simplify_eq.
    apply diffMinutes_under_30 in Hlt. lia.
Qed.

End ShortSessions.

(** C8, as amended. [detectPunchIssues] reports a short session exactly for
    the pairs of today's ordered punches at positions [i], [i + 1] with [i]
    even (0 and 1, 2 and 3, ...) that are an IN followed by an OUT less
    than 30 minutes later; a pair that starts at an odd position is not
    examined. *)
Theorem detectPunchIssues_short_sessions (db : list PunchLog) (clock : Clock)
    (uid : ObjectId) (duration fromTime toTime : Z) :
  let todayPunches :=
    Db.findInRange db uid (startOfDay clock) (endOfDay clock) in
  PunchValidator.SHORT_SESSION duration fromTime toTime
    ∈ PunchValidator.detectPunchIssues db clock uid
  <-> exists (i : nat) (a b : PunchLog),
        Nat.even i = true
        /\ todayPunches !! i = Some a /\ todayPunches !! (i + 1)%nat = Some b
        /\ punchType a = IN /\ punchType b = OUT
        /\ punchTime b - punchTime a < 1800000
        /\ duration = JS.diffMinutes (punchTime b) (punchTime a)
        /\ fromTime = punchTime a /\ toTime = punchTime b.
Proof.
  intros todayPunches. unfold PunchValidator.detectPunchIssues.
  fold todayPunches. cbv zeta.
  rewrite !elem_of_app.
  split.
  - intros [Hodd|[Hopen|[Hshort|Hmult]]].
    + destruct (_ && _); [|by apply elem_of_nil in Hodd].
      by apply list_elem_of_singleton in Hodd.
    + destruct (last todayPunches) as [l|]; [|by apply elem_of_nil in Hopen].
      destruct (punchType l); [|by apply elem_of_nil in Hopen].
      destruct (JS.gtb _ _); [|by apply elem_of_nil in Hopen].
      by apply list_elem_of_singleton in Hopen.
    + apply list_elem_of_In, in_flat_map in Hshort as (i & Hi & Hx).
      apply list_elem_of_In, elem_of_pairIndices in Hi as (_ & Hev & _); [|lia].
      rewrite Nat.sub_0_r in Hev.
      apply list_elem_of_In, elem_of_shortSessionAt in Hx
        as (a & b & Ea & Eb & Ta & Tb & Hlt & Heq).
      inversion Heq; subst. by exists i, a, b.
    + destruct (_ <? _)%nat; [|by apply elem_of_nil in Hmult].
      by apply list_elem_of_singleton in Hmult.
  - intros (i & a & b & Hev & Ea & Eb & Ta & Tb & Hlt & -> & -> & ->).
    right. right. left. apply list_elem_of_In, in_flat_map. exists i. split.
    + apply list_elem_of_In, elem_of_pairIndices; [lia|].
      rewrite Nat.sub_0_r. split; [lia|]. split; [done|].
      apply lookup_lt_Some in Eb. lia.
    + apply list_elem_of_In, elem_of_shortSessionAt. by exists a, b.
Qed.

(** C8 as stated fails on IN 09:00, IN 09:05, OUT 09:10: the second and
    third punch are an adjacent IN followed by an OUT five minutes later,
    and the only issue reported is the odd punch count. *)
Lemma detectPunchIssues_misses_pair_at_odd_position :
  Db.findInRange Ex.inInOut 1%N (startOfDay (Ex.clockAt 10 0 0))
    (endOfDay (Ex.clockAt 10 0 0))
  = [Ex.punch 1%N IN (Ex.at_ 9 0 0); Ex.punch 2%N IN (Ex.at_ 9 5 0);
     Ex.punch 3%N OUT (Ex.at_ 9 10 0)]
  /\ Ex.at_ 9 10 0 - Ex.at_ 9 5 0 = 5 * 60000
  /\ PunchValidator.detectPunchIssues Ex.inInOut (Ex.clockAt 10 0 0) 1%N
     = [PunchValidator.ODD_PUNCH_COUNT 3].
Proof. vm_compute. done. Qed.

(** ** The first-write snapshot of an edited punch *)

Section Edits.

Import PunchService.

Lemma findById_Some_id (db : list PunchLog) (id : ObjectId) (p : PunchLog) :
  Db.findById db id = Some p -> _id p = id.
Proof.
  unfold Db.findById. intros H. apply find_some in H as [_ H].
  by apply N.eqb_eq in H.
Qed.

(** After [save] the saved document is found under its identifier, if a
    document was stored under it, and the other lookups are as before. *)
Lemma findById_save (db : list PunchLog) (p' : PunchLog) (id : ObjectId) :
  Db.findById (save db p') id
  = if decide (id = _id p')
    then match Db.findById db id with Some _ => Some p' | None => None end
    else Db.findById db id.
Proof.
  unfold Db.findById. induction db as [|q rest IH]; simpl.
  - by destruct (decide (id = _id p')).
  - destruct (_id q =? _id p')%N eqn:Hq; simpl.
    + apply N.eqb_eq in Hq. destruct (decide (id = _id p')) as [->|Hne].
      * rewrite N.eqb_refl. rewrite Hq, N.eqb_refl. done.
      * rewrite Hq. destruct (_id p' =? id)%N eqn:E; [|done].
        apply N.eqb_eq in E. congruence.
    + apply N.eqb_neq in Hq. destruct (_id q =? id)%N eqn:E.
      * apply N.eqb_eq in E. destruct (decide (id = _id p')); [congruence|done].
      * exact IH.
Qed.

Lemma maxlength_500_1000 (v : option string) :
  Schema.maxlength 500 v = true -> Schema.maxlength 1000 v = true.
Proof.
  destruct v as [s|]; [|done]. simpl.
  rewrite !Nat.leb_le. lia.
Qed.

(** [editPunch] case by case. The audit entry is never rejected: its
    description is the [editReason] that [punch.save()] accepted. *)
Lemma editPunch_eq (db : list PunchLog) (audit : list AuditEntry)
    (now_ : Z) (id : ObjectId) (editData : EditData) (performedBy : User) :
  editPunch db audit now_ id editData performedBy
  = match Db.findById db id with
    | None => (Throw PunchNotFound, db, audit)
    | Some punch =>
        if match role performedBy with
           | RoleAdmin => false
           | RoleUser => true
           end
           && negb (userId punch =? user_id performedBy)%N
        then (Throw NotAuthorized, db, audit)
        else if Schema.maxlength 500 (e_editReason editData)
        then
          (Ok (applyEdit punch editData performedBy now_),
           save db (applyEdit punch editData performedBy now_),
           audit ++ [mkAuditEntry (user_id performedBy) (userId punch)
                       (_id punch) (punchTime punch, punchType punch)
                       (punchTime (applyEdit punch editData performedBy now_),
                        punchType (applyEdit punch editData performedBy now_))
                       (e_editReason editData)])
        else (Throw Schema.editReasonError, db, audit)
    end.
Proof.
  unfold editPunch.
  destruct (Db.findById db id) as [punch|]; [|done].
  destruct (_ && _); [done|]. cbv zeta.
  change (editReason (applyEdit punch editData performedBy now_))
    with (e_editReason editData).
  destruct (Schema.maxlength 500 (e_editReason editData)) eqn:Hlen;
    [|done].
  by rewrite (maxlength_500_1000 _ Hlen).
Qed.

(** One call of [editPunch], on any punch and whether it succeeds or not,
    keeps a snapshot that is already set. *)
Lemma editPunch_keeps_snapshot (db : list PunchLog) (audit : list AuditEntry)
    (now_ : Z) (id' : ObjectId) (editData : EditData) (performedBy : User)
    (id : ObjectId) (p : PunchLog) (t : Z) (ty : PunchType) :
  Db.findById db id = Some p ->
  originalPunchTime p = Some t -> originalPunchType p = Some ty ->
  exists p',
    Db.findById (snd (fst (editPunch db audit now_ id' editData performedBy))) id
    = Some p'
    /\ originalPunchTime p' = Some t /\ originalPunchType p' = Some ty.
Proof.
  intros Hfind Ht Hty. rewrite editPunch_eq.
  destruct (Db.findById db id') as [q|] eqn:Hq; simpl; [|by exists p].
  destruct (_ && _); simpl; [by exists p|].
  destruct (Schema.maxlength 500 (e_editReason editData)); simpl;
    [|by exists p].
  rewrite findById_save. simpl.
  pose proof (findById_Some_id _ _ _ Hq) as Hid.
  destruct (decide (id = _id q)) as [E|Hne]; [|by exists p].
  rewrite Hfind. assert (id' = id) by congruence. subst id'.
  assert (q = p) by congruence. subst q.
  eexists. split; [done|]. simpl. by rewrite Ht, Hty.
Qed.

Lemma editMany_keeps_snapshot (requests : list Scenario.EditRequest)
    (db : list PunchLog) (audit : list AuditEntry)
    (id : ObjectId) (p : PunchLog) (t : Z) (ty : PunchType) :
  Db.findById db id = Some p ->
  originalPunchTime p = Some t -> originalPunchType p = Some ty ->
  exists p',
    Db.findById (fst (Scenario.editMany db audit requests)) id = Some p'
    /\ originalPunchTime p' = Some t /\ originalPunchType p' = Some ty.
Proof.
  revert db audit p. induction requests as [|q rest IH];
    intros db audit p Hfind Ht Hty; simpl.
  - by exists p.
  - destruct (editPunch_keeps_snapshot db audit (Scenario.q_now q)
                (Scenario.q_punchId q) (Scenario.q_editData q)
                (Scenario.q_performedBy q) id p t ty Hfind Ht Hty)
      as (p1 & Hfind1 & Ht1 & Hty1).
    destruct (editPunch db audit _ _ _ _) as [[r db1] audit1].
    simpl in Hfind1. by apply (IH db1 audit1 p1).
Qed.

End Edits.

(** C9. The first successful edit of a punch that was never edited stores
    the time and the type the punch had before it as [originalPunchTime]
    and [originalPunchType]; after any further calls of [editPunch], on
    this punch or on others, successful or not, the punch still carries
    that time and that type as its originals. *)
Theorem editPunch_keeps_first_snapshot (db : list PunchLog)
    (audit : list PunchService.AuditEntry) (now_ : Z) (punchId : ObjectId)
    (editData : PunchService.EditData) (performedBy : User)
    (punch edited_ : PunchLog) (db1 : list PunchLog)
    (audit1 : list PunchService.AuditEntry)
    (later : list Scenario.EditRequest) :
  Db.findById db punchId = Some punch ->
  originalPunchTime punch = None ->
  originalPunchType punch = None ->
  PunchService.editPunch db audit now_ punchId editData performedBy
  = (Ok edited_, db1, audit1) ->
  originalPunchTime edited_ = Some (punchTime punch)
  /\ originalPunchType edited_ = Some (punchType punch)
  /\ Db.findById db1 punchId = Some edited_
  /\ exists final,
       Db.findById (fst (Scenario.editMany db1 audit1 later)) punchId
       = Some final
       /\ originalPunchTime final = Some (punchTime punch)
       /\ originalPunchType final = Some (punchType punch).
Proof.
  intros Hfind Ht Hty Hedit. rewrite editPunch_eq, Hfind in Hedit.
  destruct (_ && _); [discriminate|].
  destruct (Schema.maxlength 500 _); [|discriminate].
  inversion Hedit; subst edited_ db1 audit1. clear Hedit.
  pose proof (findById_Some_id _ _ _ Hfind) as Hid.
  assert (Hfound : Db.findById
            (PunchService.save db
               (PunchService.applyEdit punch editData performedBy now_))
            punchId
          = Some (PunchService.applyEdit punch editData performedBy now_)).
  { rewrite findById_save. simpl. rewrite Hid.
    destruct (decide (punchId = punchId)); [|done]. by rewrite Hfind. }
  assert (Hot : originalPunchTime
                  (PunchService.applyEdit punch editData performedBy now_)
                = Some (punchTime punch)) by (simpl; by rewrite Ht).
  assert (Hoty : originalPunchType
                   (PunchService.applyEdit punch editData performedBy now_)
                 = Some (punchType punch)) by (simpl; by rewrite Hty).
  split; [exact Hot|]. split; [exact Hoty|]. split; [exact Hfound|].
  by apply (editMany_keeps_snapshot later _ _ punchId _ _ _ Hfound).
Qed.

(** C9 at a concrete input: the IN of 09:00 is moved to 08:55, then to
    08:50, then turned into an OUT by the administrator; its originals are
    still 09:00 and IN. *)
Lemma editPunch_keeps_first_snapshot_witness :
  exists final,
    Db.findById
      (fst (Scenario.editMany
              [PunchService.applyEdit (Ex.punch 1%N IN (Ex.at_ 9 0 0))
                 (Ex.moveTo (Ex.at_ 8 55 0)) Ex.alice (Ex.at_ 10 0 0)]
              [PunchService.mkAuditEntry 1%N 1%N 1%N (Ex.at_ 9 0 0, IN)
                 (Ex.at_ 8 55 0, IN) (Some "correction")]
              Ex.laterEdits)) 1%N
    = Some final
    /\ punchTime final = Ex.at_ 8 50 0 /\ punchType final = OUT
    /\ originalPunchTime final = Some (Ex.at_ 9 0 0)
    /\ originalPunchType final = Some IN.
Proof.
  destruct (editPunch_keeps_first_snapshot Ex.inAtNine [] (Ex.at_ 10 0 0) 1%N
              (Ex.moveTo (Ex.at_ 8 55 0)) Ex.alice
              (Ex.punch 1%N IN (Ex.at_ 9 0 0)) _ _ _ Ex.laterEdits
              eq_refl eq_refl eq_refl eq_refl)
    as (_ & _ & _ & final & Hfind & Ht & Hty).
  exists final. split; [exact Hfind|].
  vm_compute in Hfind. inversion Hfind; subst final.
  split; [reflexivity|]. split; [reflexivity|]. split; [exact Ht | exact Hty].
Defined.

(** ** The weekly summary *)

Section WeeklyLoop.

Import TimeEngine.

Variables (now_ : Z) (dailyTarget : Q) (workingDays_ : list string)
          (punches : list PunchLog) (week : nat -> WeekDay).

Abbreviation workedOn := (Weekly.workedOn now_ punches week).
Abbreviation workingOn := (Weekly.workingOn workingDays_ week).

(** What the loop over the days [l] adds to its three variables. *)
Lemma fold_weekStep (l : list nat) (st : WeekLoop) :
  let r :=
    fold_left (weekStep now_ dailyTarget workingDays_ punches week) l st in
  wl_dailyData r
  = wl_dailyData st
    ++ map (fun i => dailyEntry now_ dailyTarget workingDays_ punches (week i)) l
  /\ wl_workingDaysCount r
     = (wl_workingDaysCount st + length (List.filter workingOn l))%nat
  /\ (wl_totalWeekMinutes r
      == wl_totalWeekMinutes st
         + JS.sum (map workedOn (List.filter workingOn l)))%Q.
Proof.
  revert st. induction l as [|i l IH]; intros st; simpl.
  - rewrite app_nil_r, Nat.add_0_r. split; [done|]. split; [done|].
    unfold JS.sum. simpl. ring.
  - destruct (IH (weekStep now_ dailyTarget workingDays_ punches week st i))
      as (Hd & Hc & Ht).
    rewrite Hd, Hc, Ht. unfold weekStep.
    change (includes workingDays_ (wd_dayName (week i))) with (workingOn i).
    change (dayWorked now_ punches (week i)) with (workedOn i).
    destruct (workingOn i); simpl.
    + rewrite <- app_assoc. split; [reflexivity|]. split; [lia|].
      unfold JS.sum. simpl. ring.
    + rewrite <- app_assoc. split; [done|]. split; [done|]. reflexivity.
Qed.

End WeeklyLoop.

(** The operations on numbers respect the equality of rationals. *)
Lemma round2_same (a b : Q) : (a == b)%Q -> (JS.round2 a == JS.round2 b)%Q.
Proof. intros H. unfold JS.round2, JS.roundQ. by rewrite H. Qed.

Lemma div_same (a a' b b' : Q) :
  (a == a')%Q -> (b == b')%Q -> JS.same (JS.div a b) (JS.div a' b').
Proof.
  intros Ha Hb. unfold JS.div.
  assert (Eb : Qeq_bool b 0 = Qeq_bool b' 0) by (by rewrite Hb).
  assert (Ea : Qeq_bool a 0 = Qeq_bool a' 0) by (by rewrite Ha).
  assert (El : Qle_bool 0 a = Qle_bool 0 a') by (by rewrite Ha).
  rewrite Eb, Ea, El.
  destruct (Qeq_bool b' 0); [|simpl; by rewrite Ha, Hb].
  destruct (Qeq_bool a' 0); [exact I|]. destruct (Qle_bool 0 a'); exact I.
Qed.

Lemma percent_same (x y : JS.number) :
  JS.same x y ->
  JS.same (JS.min 100 (JS.round (JS.mul x 100)))
          (JS.min 100 (JS.round (JS.mul y 100))).
Proof.
  destruct x, y; simpl; try done. intros H.
  unfold JS.roundQ. by rewrite H.
Qed.

(** The percentage is at most 100 unless it is [NaN]. *)
Lemma percent_capped (x : JS.number) :
  JS.min 100 (JS.round (JS.mul x 100)) = JS.NaN
  \/ JS.leb (JS.min 100 (JS.round (JS.mul x 100))) 100 = true.
Proof.
  destruct x; simpl; [right|by left|by right|by right].
  apply Qle_bool_iff, Q.le_min_l.
Qed.

(** C10. The weekly total is the sum of the minutes worked on the days of
    the week that are working days of the user, rounded to two decimals,
    and the progress percentage is computed from that sum; the entry of
    every day in [dailyData], working day or not, reports the minutes
    worked on that day. *)
Theorem getWeeklySummary_counts_working_days_only (cfg : Defaults)
    (db : list PunchLog) (now_ : Z) (week : nat -> TimeEngine.WeekDay)
    (user : User) :
  let dailyTarget := TimeEngine.getDailyWorkTarget cfg user in
  let workingDays_ :=
    match workingDays (profile user) with
    | Some l => l
    | None => d_workingDays cfg
    end in
  let punches :=
    Db.findInRange db (user_id user) (TimeEngine.wd_start (week 0%nat))
      (TimeEngine.wd_end (week 6%nat)) in
  let worked := Weekly.workedOn now_ punches week in
  let working := Weekly.workingOn workingDays_ week in
  let total := JS.sum (map worked (List.filter working (seq 0 7))) in
  let summary := TimeEngine.getWeeklySummary cfg db now_ week user in
  (TimeEngine.totalWorkedMinutes summary == JS.round2 total)%Q
  /\ JS.same (TimeEngine.progressPercent summary)
       (JS.min 100
          (JS.round
             (JS.mul (JS.div total (TimeEngine.weeklyTargetMinutes summary))
                100)))
  /\ Forall2
       (fun i entry =>
          TimeEngine.dayName entry = TimeEngine.wd_dayName (week i)
          /\ TimeEngine.isWorkingDay entry = working i
          /\ TimeEngine.workedMinutes entry = JS.round2 (worked i))
       (seq 0 7) (TimeEngine.dailyData summary).
Proof.
  intros dailyTarget workingDays_ punches worked working total summary.
  destruct (fold_weekStep now_ dailyTarget workingDays_ punches week (seq 0 7)
              (TimeEngine.mkWeekLoop [] 0 0)) as (Hd & Hc & Ht).
  cbv zeta in Hd, Hc, Ht. simpl TimeEngine.wl_dailyData in Hd.
  simpl TimeEngine.wl_totalWeekMinutes in Ht.
  assert (Htotal :
    (TimeEngine.wl_totalWeekMinutes
       (fold_left
          (TimeEngine.weekStep now_ dailyTarget workingDays_ punches week)
          (seq 0 7) (TimeEngine.mkWeekLoop [] 0 0)) == total)%Q).
  { rewrite Ht. subst total worked working. ring. }
  split; [|split].
  - subst summary. unfold TimeEngine.getWeeklySummary.
    cbn [TimeEngine.totalWorkedMinutes]. by apply round2_same.
  - subst summary. unfold TimeEngine.getWeeklySummary.
    cbn [TimeEngine.progressPercent TimeEngine.weeklyTargetMinutes].
    apply percent_same, div_same; [exact Htotal | reflexivity].
  - assert (Hdata : TimeEngine.dailyData summary
                     = map (fun i => TimeEngine.dailyEntry now_ dailyTarget
                                       workingDays_ punches (week i))
                         (seq 0 7)) by exact Hd.
    rewrite Hdata.
    apply Forall2_fmap_r, Forall_Forall2_diag, Forall_forall.
    intros i _. done.
Qed.

(** The weekly target is the number of working days of the week times the
    daily target. *)
Lemma getWeeklySummary_weeklyTarget (cfg : Defaults) (db : list PunchLog)
    (now_ : Z) (week : nat -> TimeEngine.WeekDay) (user : User) :
  let summary := TimeEngine.getWeeklySummary cfg db now_ week user in
  TimeEngine.weeklyTargetMinutes summary
  = (inject_Z (Z.of_nat (TimeEngine.workingDaysCount summary))
     * TimeEngine.getDailyWorkTarget cfg user)%Q.
Proof. reflexivity. Qed.

(** The progress percentage is at most 100 unless it is [NaN]. *)
Lemma getWeeklySummary_progress_capped (cfg : Defaults) (db : list PunchLog)
    (now_ : Z) (week : nat -> TimeEngine.WeekDay) (user : User) :
  let summary := TimeEngine.getWeeklySummary cfg db now_ week user in
  TimeEngine.progressPercent summary = JS.NaN
  \/ JS.leb (TimeEngine.progressPercent summary) 100 = true.
Proof. apply percent_capped. Qed.

(** With an empty list of working days no day of any week counts and the
    progress percentage is [NaN], whatever the punches. *)
Lemma getWeeklySummary_empty_workingDays (cfg : Defaults)
    (db : list PunchLog) (now_ : Z) (week : nat -> TimeEngine.WeekDay)
    (user : User) :
  workingDays (profile user) = Some [] ->
  let summary := TimeEngine.getWeeklySummary cfg db now_ week user in
  TimeEngine.workingDaysCount summary = 0%nat
  /\ TimeEngine.progressPercent summary = JS.NaN.
Proof.
  intros H. unfold TimeEngine.getWeeklySummary. rewrite H. split; reflexivity.
Qed.

(** C6 at the failing input: user 2 has an empty list of working days and
    worked eight hours on the Monday. The week counts no working day, the
    weekly target is 0 and the progress percentage is [NaN], which is not
    at most 100. *)
Theorem getWeeklySummary_no_working_days_NaN :
  let summary :=
    TimeEngine.getWeeklySummary Ex.cfg Ex.bobMonday (Ex.at_ 18 0 0) Ex.week
      Ex.bob in
  TimeEngine.workingDaysCount summary = 0%nat
  /\ (TimeEngine.weeklyTargetMinutes summary == 0)%Q
  /\ TimeEngine.progressPercent summary = JS.NaN
  /\ JS.leb (TimeEngine.progressPercent summary) 100 = false.
Proof. vm_compute. done. Qed.

(** ** The jobs of the scheduler *)

Section Jobs.

Import PunchCleanupService.

Lemma bind_Ok {A B : Type} (m : M A) (f : A -> M B) (w w' : World) (a : A) :
  m w = (Ok a, w') -> (m ≫= f) w = f a w'.
Proof. intros H. unfold mbind, M_bind. by rewrite H. Qed.

Lemma bind_Throw {A B : Type} (m : M A) (f : A -> M B) (w w' : World)
    (e : Error) :
  m w = (Throw e, w') -> (m ≫= f) w = (Throw e, w').
Proof. intros H. unfold mbind, M_bind. by rewrite H. Qed.

(** A loop over [l1 ++ l2] is the loop over [l1] followed, unless it threw,
    by the loop over [l2]. *)
Lemma forOf_app {A B : Type} (body : B -> A -> M B) (l1 l2 : list A) (acc : B)
    (w : World) :
  forOf body (l1 ++ l2) acc w
  = match forOf body l1 acc w with
    | (Ok acc', w') => forOf body l2 acc' w'
    | (Throw e, w') => (Throw e, w')
    end.
Proof.
  revert acc w. induction l1 as [|x l1 IH]; intros acc w; simpl; [done|].
  unfold mbind, M_bind. destruct (body acc x w) as [[acc'|e] w']; [|done].
  apply IH.
Qed.

(** The body of the auto-close loop on a user whose punches can be read and
    written: it returns and sends no mail; when it inserts a punch it logs
    the line of the user, counts one more and queues the notification. *)
Lemma autoCloseUser_reachable (F : Faults) (cfg : Defaults)
    (clockOf : string -> Clock) (acc : nat * list Notification) (user : User)
    (w : World) :
  reachable F user = true ->
  exists added acc' w',
    autoCloseUser F cfg clockOf acc user w = (Ok acc', w')
    /\ fst acc' = (fst acc + length added)%nat
    /\ snd acc' = snd acc ++ added
    /\ sublist (map n_user added) [user]
    /\ outbox w' = outbox w
    /\ logs w' = logs w ++ map closedLog added
    /\ length (punches w') = (length (punches w) + length added)%nat.
Proof.
  unfold reachable. intros H. apply andb_true_iff in H as [Hf Hc].
  apply negb_true_iff in Hf, Hc.
  assert (Hnone : exists added acc' w',
             (Ok acc, w) = (Ok acc', w')
             /\ fst acc' = (fst acc + length added)%nat
             /\ snd acc' = snd acc ++ added
             /\ sublist (map n_user added) [user]
             /\ outbox w' = outbox w
             /\ logs w' = logs w ++ map closedLog added
             /\ length (punches w') = (length (punches w) + length added)%nat).
  { exists [], acc, w. simpl. rewrite !app_nil_r.
    repeat split; try done; try lia. apply sublist_nil_l. }
  unfold autoCloseUser, mbind, M_bind, find. rewrite Hf.
  destruct (last _) as [lastPunch|]; [|exact Hnone].
  destruct (punchType lastPunch); [|exact Hnone].
  unfold create. rewrite Hc. unfold log, mret, M_ret.
  cbn [punches logs outbox punchTime].
  eexists [_], _, _. split; [reflexivity|].
  cbn [fst snd punches logs outbox map length n_user].
  rewrite length_app. cbn [length].
  repeat split; try done; lia.
Qed.

Lemma autoClose_loop_reachable (F : Faults) (cfg : Defaults)
    (clockOf : string -> Clock) (users : list User)
    (acc : nat * list Notification) (w : World) :
  forallb (reachable F) users = true ->
  exists added acc' w',
    forOf (autoCloseUser F cfg clockOf) users acc w = (Ok acc', w')
    /\ fst acc' = (fst acc + length added)%nat
    /\ snd acc' = snd acc ++ added
    /\ sublist (map n_user added) users
    /\ outbox w' = outbox w
    /\ logs w' = logs w ++ map closedLog added
    /\ length (punches w') = (length (punches w) + length added)%nat.
Proof.
  revert acc w. induction users as [|u users IH]; intros acc w H.
  - exists [], acc, w. simpl. rewrite !app_nil_r.
    repeat split; try done; lia.
  - simpl in H. apply andb_true_iff in H as [Hu Hrest].
    destruct (autoCloseUser_reachable F cfg clockOf acc u w Hu)
      as (added1 & acc1 & w1 & E1 & Hc1 & Hq1 & Hs1 & Ho1 & Hl1 & Hp1).
    destruct (IH acc1 w1 Hrest)
      as (added2 & acc2 & w2 & E2 & Hc2 & Hq2 & Hs2 & Ho2 & Hl2 & Hp2).
    exists (added1 ++ added2), acc2, w2. cbn [forOf].
    rewrite (bind_Ok _ _ _ _ _ E1).
    split; [exact E2|].
    rewrite length_app, map_app, map_app.
    split; [lia|]. split; [by rewrite Hq2, Hq1, app_assoc|].
    split; [exact (sublist_app _ [u] _ _ Hs1 Hs2)|].
    split; [congruence|].
    split; [by rewrite Hl2, Hl1, app_assoc | lia].
Qed.

(** The notification loop never throws and leaves the punches alone; a
    mail that goes through is in the outbox, a mail that fails is in the
    log. *)
Lemma notify_loop_log (F : Faults) (ns : list Notification) (w : World) :
  exists w',
    forOf (notify F) ns tt w = (Ok tt, w')
    /\ punches w' = punches w
    /\ outbox w' = outbox w ++ flat_map (notificationMail F) ns
    /\ logs w' = logs w ++ flat_map (notificationLog F) ns.
Proof.
  revert w. induction ns as [|n ns IH]; intros w.
  - exists w. simpl. by rewrite !app_nil_r.
  - assert (Hn : exists w1,
               notify F tt n w = (Ok tt, w1)
               /\ punches w1 = punches w
               /\ outbox w1 = outbox w ++ notificationMail F n
               /\ logs w1 = logs w ++ notificationLog F n).
    { unfold notify, tryCatch, sendMissedPunchOutAlert, log,
        notificationMail, notificationLog.
      destruct (mailFails F _); eexists; (split; [reflexivity|]);
        simpl; by rewrite ?app_nil_r. }
    destruct Hn as (w1 & E1 & Hp1 & Ho1 & Hl1).
    destruct (IH w1) as (w2 & E2 & Hp2 & Ho2 & Hl2).
    exists w2. cbn [forOf flat_map]. rewrite (bind_Ok _ _ _ _ _ E1).
    split; [exact E2|]. split; [congruence|].
    split; [by rewrite Ho2, Ho1, app_assoc | by rewrite Hl2, Hl1, app_assoc].
Qed.

(** Sending the notifications never throws and leaves the punches alone. *)
Lemma notify_loop (F : Faults) (ns : list Notification) (w : World) :
  exists w', forOf (notify F) ns tt w = (Ok tt, w') /\ punches w' = punches w.
Proof.
  revert w. induction ns as [|n ns IH]; intros w; simpl; [by exists w|].
  assert (Hn : exists w1, notify F tt n w = (Ok tt, w1)
                          /\ punches w1 = punches w).
  { unfold notify, tryCatch, sendMissedPunchOutAlert, log.
    destruct (mailFails F _); eexists; split; reflexivity. }
  destruct Hn as (w1 & E1 & Hp1). destruct (IH w1) as (w2 & E2 & Hp2).
  exists w2. rewrite (bind_Ok _ _ _ _ _ E1). split; [exact E2|congruence].
Qed.

End Jobs.




(** Without a failure the same run closes the punches of both users. *)
Example autoCloseOpenPunches_all_reachable :
  exists w',
    PunchCleanupService.autoCloseOpenPunches Ex.noFaults Ex.cfg
      Ex.atMidnightJob [Ex.alice; Ex.carol] Ex.threeOpen
    = (Ok (PunchCleanupService.mkAutoCloseResult 2 2), w').
Proof. eexists. vm_compute. reflexivity. Qed.

(** ** The orphan scan *)

Section Orphans.

Import PunchCleanupService.

Lemma findInRange_elem_of (db : list PunchLog) (uid : ObjectId)
    (start end_ : Z) (p : PunchLog) :
  p ∈ Db.findInRange db uid start end_ -> p ∈ db.
Proof.
  unfold Db.findInRange, Db.sortAsc. rewrite merge_sort_Permutation.
  intros H. apply list_elem_of_In, filter_In in H as [H _].
  by apply list_elem_of_In.
Qed.

(** The scan of one user's punches only adds entries of punches scanned. *)
Lemma orphanStep_flagged (db : list PunchLog) (user : User)
    (ps : list PunchLog) (acc : list Orphan * PunchType) :
  (forall p, p ∈ ps -> p ∈ db) ->
  Forall (flagged db) (fst acc) ->
  Forall (flagged db) (fst (fold_left (orphanStep user) ps acc)).
Proof.
  revert acc. induction ps as [|p ps IH]; intros acc Hsub Hacc; simpl;
    [done|].
  apply IH; [intros q Hq; apply Hsub; by right|].
  unfold orphanStep. simpl.
  destruct (decide (punchType p = snd acc)) as [E|E]; [done|].
  apply Forall_app. split; [done|]. apply Forall_singleton.
  exists p. split; [apply Hsub; by left|].
  unfold entryFor. simpl. split; [done|]. split; [done|].
  destruct (punchType p), (snd acc); done.
Qed.

(** The scan of the users writes nothing and only adds entries of punches of
    the collection. *)
Lemma scan_loop (F : Faults) (cfg : Defaults) (clockOf : string -> Clock)
    (users : list User) (acc : list Orphan) (w : World) :
  Forall (flagged (punches w)) acc ->
  match forOf (scanUser F cfg clockOf) users acc w with
  | (Ok orphans, w') => w' = w /\ Forall (flagged (punches w)) orphans
  | (Throw _, w') => w' = w
  end.
Proof.
  revert acc. induction users as [|u users IH]; intros acc Hacc; simpl;
    [done|].
  unfold mbind at 1, M_bind at 1.
  unfold scanUser at 1, mbind at 1, M_bind at 1, find.
  destruct (findFails F (user_id u)); [done|].
  unfold mret, M_ret. apply IH.
  change acc with (fst (acc, IN)) in Hacc.
  apply (orphanStep_flagged (punches w) u _ (acc, IN)); [|exact Hacc].
  intros p. apply findInRange_elem_of.
Qed.

Lemma setNotes_ids (db : list PunchLog) (id : ObjectId) (n : string)
    (now_ : Z) :
  map _id (setNotes db id n now_) = map _id db.
Proof.
  induction db as [|p db IH]; simpl; [done|].
  destruct (_id p =? id)%N; simpl; [done | by rewrite IH].
Qed.

(** With unique identifiers [setNotes] changes the document with the given
    identifier, its notes and its [updatedAt], and no other document. *)
Lemma setNotes_NoDup (db : list PunchLog) (id : ObjectId) (n : string)
    (now_ : Z) :
  NoDup (map _id db) ->
  Forall2 (fun p q => (_id p = id /\ q = withNotes p (Some n) now_)
                      \/ (_id p <> id /\ q = p))
    db (setNotes db id n now_).
Proof.
  induction db as [|p db IH]; intros Hnd; simpl; [constructor|].
  cbn [map] in Hnd. apply NoDup_cons in Hnd as [Hp Hnd].
  destruct (_id p =? id)%N eqn:E.
  - apply N.eqb_eq in E. constructor; [by left|].
    apply Forall_Forall2_diag, Forall_forall. intros q Hq. right.
    split; [|done]. intros Hid. apply Hp. rewrite E, <- Hid.
    apply list_elem_of_fmap. by exists q.
  - apply N.eqb_neq in E. constructor; [by right | by apply IH].
Qed.

Lemma findById_is_Some (db : list PunchLog) (id : ObjectId) :
  id ∈ map _id db -> is_Some (Db.findById db id).
Proof.
  unfold Db.findById. induction db as [|p db IH]; simpl.
  - intros H. by apply elem_of_nil in H.
  - intros H. destruct (_id p =? id)%N eqn:E; [done|].
    apply N.eqb_neq in E. apply elem_of_cons in H as [H|H]; [congruence|].
    by apply IH.
Qed.

Lemma mark_ids (now_ : Z) (os : list Orphan) (db : list PunchLog) :
  map _id (fold_left (mark now_) os db) = map _id db.
Proof.
  revert db. induction os as [|o os IH]; intros db; simpl; [done|].
  rewrite IH. apply setNotes_ids.
Qed.

(** Two documents of a collection with the same identifier are the same
    document when identifiers are unique. *)
Lemma NoDup_ids_eq (db : list PunchLog) (p q : PunchLog) :
  NoDup (map _id db) -> p ∈ db -> q ∈ db -> _id p = _id q -> p = q.
Proof.
  induction db as [|x db IH]; simpl; intros Hnd Hp Hq Hid.
  - by apply elem_of_nil in Hp.
  - apply NoDup_cons in Hnd as [Hx Hnd].
    apply elem_of_cons in Hp as [->|Hp]; apply elem_of_cons in Hq as [->|Hq].
    + done.
    + exfalso. apply Hx. rewrite Hid. apply list_elem_of_fmap. by exists q.
    + exfalso. apply Hx. rewrite <- Hid. apply list_elem_of_fmap. by exists p.
    + by apply IH.
Qed.

(** The note of the entry of a punch is the annotation of its type. *)
Lemma entryFor_note (p : PunchLog) (o : Orphan) :
  entryFor p o -> orphanNote o = systemNote (punchType p).
Proof.
  intros (_ & Hty & Hre). unfold orphanNote, systemNote. by rewrite Hty, Hre.
Qed.

End Orphans.

Section Marking.

Import PunchCleanupService.

Variable now_ : Z.

(** Marking one more entry [o], whose note is the annotation of the type
    of its punch. *)
Lemma annotated_step (os : list Orphan) (o : Orphan)
    (l mid final : list PunchLog) :
  (forall p, p ∈ l -> _id p = punchId o ->
     orphanNote o = systemNote (punchType p)) ->
  Forall2 (annotated now_ os) l mid ->
  Forall2 (fun m q => (_id m = punchId o
                       /\ q = withNotes m (Some (orphanNote o)) now_)
                      \/ (_id m <> punchId o /\ q = m)) mid final ->
  Forall2 (annotated now_ (os ++ [o])) l final.
Proof.
  intros Hnote H1. revert final.
  induction H1 as [|p m l' mid' Hpm H1 IHf]; intros final H2.
  - inversion H2. constructor.
  - inversion H2 as [|? q ? final' Hmq H2']; subst. constructor.
    + assert (Hp : _id p = punchId o ->
                   orphanNote o = systemNote (punchType p))
        by (apply Hnote; left).
      unfold annotated. rewrite map_app. cbn [map].
      destruct Hpm as [[Hin ->]|[Hout ->]];
        destruct Hmq as [[Hid ->]|[Hid ->]].
      * left. split; [apply elem_of_app; by left|].
        cbn in Hid. rewrite (Hp Hid). reflexivity.
      * left. split; [apply elem_of_app; by left | done].
      * left. split.
        { apply elem_of_app. right. rewrite Hid. left. }
        by rewrite (Hp Hid).
      * right. split; [|done]. intros Hin.
        apply elem_of_app in Hin as [Hin|Hin]; [done|].
        apply list_elem_of_singleton in Hin. done.
    + apply IHf; [|done]. intros p' Hp'. apply Hnote. by right.
Qed.

(** With unique identifiers, marking entries of punches of the collection
    annotates the punches of these entries and no other. *)
Lemma annotated_mark (os : list Orphan) (db : list PunchLog) :
  NoDup (map _id db) ->
  Forall (flagged db) os ->
  Forall2 (annotated now_ os) db (fold_left (mark now_) os db).
Proof.
  intros Hnd. induction os as [|o os IH] using rev_ind; intros Hfl.
  - simpl. apply Forall_Forall2_diag, Forall_forall. intros p _. right.
    split; [|done]. simpl. apply not_elem_of_nil.
  - apply Forall_app in Hfl as [Hfl Ho]. apply Forall_inv in Ho.
    rewrite fold_left_app. simpl. unfold mark at 1.
    apply (annotated_step os o db (fold_left (mark now_) os db)).
    + intros p Hp Hid. destruct Ho as (p0 & Hp0 & Hentry).
      assert (p0 = p).
      { apply (NoDup_ids_eq db); [done..|].
        destruct Hentry as (Hid0 & _). congruence. }
      subst p0. by apply entryFor_note.
    + by apply IH.
    + apply setNotes_NoDup. by rewrite mark_ids.
Qed.

(** The marking loop, whether it completes or throws, has marked the first
    entries of the list, all of them when it completes. *)
Lemma mark_loop (F : Faults) (os : list Orphan) (w w' : World)
    (r : Result unit) :
  forOf (markOrphan F now_) os tt w = (r, w') ->
  exists marked rest,
    os = marked ++ rest
    /\ punches w' = fold_left (mark now_) marked (punches w)
    /\ (forall u, r = Ok u -> rest = []).
Proof.
  revert w. induction os as [|o os IH]; intros w H; simpl in H.
  - inversion H; subst. by exists [], [].
  - unfold mbind, M_bind in H. unfold markOrphan at 1 in H.
    unfold findByIdAndUpdate in H.
    destruct (updateFails F (punchId o)).
    + inversion H; subst. exists [], (o :: os). split; [done|].
      split; [done|]. intros u Hu. discriminate.
    + apply IH in H as (marked & rest & -> & Hp & Hall).
      exists (o :: marked), rest. split; [done|]. split; [exact Hp|].
      exact Hall.
Qed.

End Marking.

Section Cleanup.

Import PunchCleanupService.

Lemma bind_inv {A B : Type} (m : M A) (f : A -> M B) (w w' : World)
    (r : Result B) :
  (m ≫= f) w = (r, w') ->
  (exists a w1, m w = (Ok a, w1) /\ f a w1 = (r, w'))
  \/ (exists e, m w = (Throw e, w') /\ r = Throw e).
Proof.
  unfold mbind, M_bind. destruct (m w) as [[a|e] w1]; intros H.
  - left. by exists a, w1.
  - right. exists e. by inversion H.
Qed.

Lemma tryCatch_inv {A : Type} (m : M A) (h : Error -> M A) (w w' : World)
    (r : Result A) :
  tryCatch m h w = (r, w') ->
  (exists a, m w = (Ok a, w') /\ r = Ok a)
  \/ (exists e w1, m w = (Throw e, w1) /\ h e w1 = (r, w')).
Proof.
  unfold tryCatch. destruct (m w) as [[a|e] w1]; intros H.
  - left. exists a. by inversion H.
  - right. by exists e, w1.
Qed.

(** What a run of the cleanup does to the collection, whether it completes
    or throws: it marks the first entries of those found, all of them when
    it completes, and these entries are entries of punches of the
    collection. *)
Lemma cleanup_run (F : Faults) (cfg : Defaults) (clockOf : string -> Clock)
    (users : list User) (w w' : World) (r : Result CleanupResult) :
  cleanupOrphanedPunches F cfg clockOf users false w = (r, w') ->
  exists marked,
    punches w' = fold_left (mark (instant cfg clockOf)) marked (punches w)
    /\ Forall (flagged (punches w)) marked
    /\ match r with
       | Ok result => marked = orphanedPunches result
       | Throw _ => True
       end.
Proof.
  unfold cleanupOrphanedPunches. intros H.
  apply tryCatch_inv in H
    as [(result & Hinner & ->)|(e & wi & Hinner & H)].
  - apply bind_inv in Hinner
      as [(u & w0 & Hlog & Hinner)|(e & _ & Habs)]; [|discriminate].
    unfold log in Hlog. inversion Hlog; subst u w0. clear Hlog.
    apply bind_inv in Hinner
      as [(os & w1 & Hscan & Hinner)|(e & _ & Habs)]; [|discriminate].
    match type of Hscan with
    | forOf _ _ _ ?W = _ =>
        pose proof (scan_loop F cfg clockOf users [] W (Forall_nil_2 _)) as Hs
    end.
    rewrite Hscan in Hs. destruct Hs as [-> Hfl]. simpl in Hfl.
    apply bind_inv in Hinner
      as [(u & w2 & Hmark & Hinner)|(e & _ & Habs)]; [|discriminate].
    apply bind_inv in Hinner
      as [(u' & w3 & Hlog & Hinner)|(e & _ & Habs)]; [|discriminate].
    unfold log in Hlog. inversion Hlog; subst u' w3. clear Hlog.
    unfold mret, M_ret in Hinner. inversion Hinner; subst result w'.
    simpl. exists os. split; [|done].
    destruct (negb false && (0 <? length os)%nat) eqn:Hif.
    + apply mark_loop in Hmark as (marked & rest & Hos & Hp & Hall).
      rewrite (Hall u eq_refl), app_nil_r in Hos. by subst marked.
    + unfold mret, M_ret in Hmark. inversion Hmark; subst u w2. simpl.
      destruct os; [done|discriminate].
  - apply bind_inv in H as [(u & wl & Hlog & H)|(e' & Hlog & _)];
      [|unfold log in Hlog; discriminate].
    unfold log in Hlog. inversion Hlog; subst u wl. clear Hlog.
    unfold throw in H. inversion H; subst r w'. clear H. simpl.
    apply bind_inv in Hinner
      as [(u & w0 & Hlog & Hinner)|(e' & Hlog & _)];
      [|unfold log in Hlog; discriminate].
    unfold log in Hlog. inversion Hlog; subst u w0. clear Hlog.
    apply bind_inv in Hinner
      as [(os & w1 & Hscan & Hinner)|(e' & Hscan & _)].
    + match type of Hscan with
      | forOf _ _ _ ?W = _ =>
          pose proof (scan_loop F cfg clockOf users [] W (Forall_nil_2 _))
            as Hs
      end.
      rewrite Hscan in Hs. destruct Hs as [-> Hfl]. simpl in Hfl.
      apply bind_inv in Hinner
        as [(u & w2 & Hmark & Hinner)|(e' & Hmark & _)].
      * apply bind_inv in Hinner
          as [(u' & w3 & Hlog & Hinner)|(e' & Hlog & _)];
          unfold log in Hlog; discriminate.
      * destruct (negb false && (0 <? length os)%nat);
          [|unfold mret, M_ret in Hmark; discriminate].
        apply mark_loop in Hmark as (marked & rest & Hos & Hp & _).
        exists marked. split; [exact Hp|]. split; [|done].
        subst os. by apply Forall_app in Hfl as [Hfl _].
    + match type of Hscan with
      | forOf _ _ _ ?W = _ =>
          pose proof (scan_loop F cfg clockOf users [] W (Forall_nil_2 _))
            as Hs
      end.
      rewrite Hscan in Hs. subst wi. exists []. by repeat split.
Qed.

End Cleanup.

(** C5, as amended. A run of [cleanupOrphanedPunches] with
    [dryRun = false] on a collection with unique identifiers removes no
    punch and adds none. The entries it marked are entries of punches of
    the collection, all the entries it returns when it completes. The
    punch of a marked entry has the annotation
    '[SYSTEM] Orphaned <type> punch - Expected <other type> but got <type>'
    of its own type as its whole [notes] field, whatever the field held
    before, and its [updatedAt] is the instant of the run; nothing else of
    it changes. Every other punch is as it was. *)
Theorem cleanupOrphanedPunches_replaces_notes
    (F : PunchCleanupService.Faults) (cfg : Defaults)
    (clockOf : string -> Clock) (users : list User)
    (w w' : PunchCleanupService.World)
    (r : Result PunchCleanupService.CleanupResult) :
  NoDup (map _id (PunchCleanupService.punches w)) ->
  PunchCleanupService.cleanupOrphanedPunches F cfg clockOf users false w
  = (r, w') ->
  map _id (PunchCleanupService.punches w')
  = map _id (PunchCleanupService.punches w)
  /\ exists marked,
       Forall (PunchCleanupService.flagged (PunchCleanupService.punches w))
         marked
       /\ Forall2
            (PunchCleanupService.annotated
               (PunchCleanupService.instant cfg clockOf) marked)
            (PunchCleanupService.punches w) (PunchCleanupService.punches w')
       /\ match r with
          | Ok result =>
              marked = PunchCleanupService.orphanedPunches result
          | Throw _ => True
          end.
Proof.
  intros Hnd Hrun.
  apply cleanup_run in Hrun as (marked & Hp & Hfl & Hr). rewrite Hp.
  split; [apply mark_ids|]. exists marked. split; [exact Hfl|].
  split; [by apply annotated_mark | exact Hr].
Qed.

(** C5 at a concrete input: the lone OUT of user 1 is flagged and, after
    the run at 23:59, carries the annotation as its notes. *)
Lemma cleanupOrphanedPunches_replaces_notes_witness :
  map _id (PunchCleanupService.punches Ex.loneOutMarked)
  = map _id (PunchCleanupService.punches Ex.loneOut)
  /\ exists marked,
       Forall (PunchCleanupService.flagged
                 (PunchCleanupService.punches Ex.loneOut)) marked
       /\ Forall2
            (PunchCleanupService.annotated
               (PunchCleanupService.instant Ex.cfg Ex.atMidnightJob) marked)
            (PunchCleanupService.punches Ex.loneOut)
            (PunchCleanupService.punches Ex.loneOutMarked)
       /\ marked = [Ex.loneOutEntry].
Proof.
  apply (cleanupOrphanedPunches_replaces_notes Ex.noFaults Ex.cfg
           Ex.atMidnightJob [Ex.alice] Ex.loneOut Ex.loneOutMarked
           (Ok (PunchCleanupService.mkCleanupResult [Ex.loneOutEntry] false))).
  - apply NoDup_singleton.
  - vm_compute. reflexivity.
Defined.

(** C5 as stated fails: the lone OUT of user 1 carried the note
    "Left early, dentist"; after the run its notes are the system note
    alone, in which the earlier note does not occur. *)
Lemma cleanupOrphanedPunches_drops_existing_notes :
  PunchCleanupService.cleanupOrphanedPunches Ex.noFaults Ex.cfg
    Ex.atMidnightJob [Ex.alice] false Ex.loneOut
  = (Ok (PunchCleanupService.mkCleanupResult [Ex.loneOutEntry] false),
     Ex.loneOutMarked)
  /\ map notes (PunchCleanupService.punches Ex.loneOut)
     = [Some "Left early, dentist"]
  /\ map notes (PunchCleanupService.punches Ex.loneOutMarked)
     = [Some "[SYSTEM] Orphaned OUT punch - Expected IN but got OUT"]
  /\ String.index 0 "Left early, dentist"
       "[SYSTEM] Orphaned OUT punch - Expected IN but got OUT"
     = None.
Proof. vm_compute. done. Qed.

(** In the weekly summary of user 1 the two hours worked on the Sunday are
    reported in the entry of the Sunday and are not part of the total. *)
Example getWeeklySummary_sunday_not_counted :
  let summary :=
    TimeEngine.getWeeklySummary Ex.cfg Ex.aliceWeek (Ex.at_ 18 0 0) Ex.week
      Ex.alice in
  (TimeEngine.totalWorkedMinutes summary == 480)%Q
  /\ (TimeEngine.workedMinutes <$> TimeEngine.dailyData summary !! 0%nat)
     = Some (JS.round2 120)
  /\ (TimeEngine.isWorkingDay <$> TimeEngine.dailyData summary !! 0%nat)
     = Some false
  /\ TimeEngine.workingDaysCount summary = 5%nat
  /\ JS.same (TimeEngine.progressPercent summary) (JS.Num 20).
Proof. vm_compute. done. Qed.

(** * Further properties *)

(** ** Worked time as a sum over neighbours *)

Section Sessions.

Import TimeEngine.

Lemma last_cons_default {A : Type} (l : list A) (x d : A) :
  List.last (x :: l) d = List.last l x.
Proof.
  revert x d. induction l as [|a l IH]; intros x d; [done|].
  change (List.last (x :: a :: l) d) with (List.last (a :: l) d).
  by rewrite (IH a d), (IH a x).
Qed.

Abbreviation pendingAfter := Sequence.pendingAfter.

Lemma fold_scanStep_adjacent (l : list PunchLog) (prev : PunchLog) (s : Scan) :
  lastInPunch s = pendingAfter prev ->
  (totalMinutes (fold_left scanStep l s)
   == totalMinutes s
      + JS.sum (map Sequence.session (Sequence.adjacent (prev :: l))))%Q
  /\ lastInPunch (fold_left scanStep l s)
     = pendingAfter (List.last l prev).
Proof.
  revert prev s. induction l as [|p l IH]; intros prev s Hs.
  - simpl. split; [unfold JS.sum; simpl; ring | exact Hs].
  - change (fold_left scanStep (p :: l) s)
      with (fold_left scanStep l (scanStep s p)).
    change (Sequence.adjacent (prev :: p :: l))
      with ((prev, p) :: Sequence.adjacent (p :: l)).
    rewrite last_cons_default.
    assert (Hstep : lastInPunch (scanStep s p) = pendingAfter p
                    /\ (totalMinutes (scanStep s p)
                        == totalMinutes s + Sequence.session (prev, p))%Q).
    { unfold scanStep, Sequence.pendingAfter, Sequence.session,
        Sequence.gap in *.
      simpl fst; simpl snd.
      destruct (punchType p) eqn:Hp; simpl.
      - split; [done|]. destruct (punchType prev); ring.
      - rewrite Hs. destruct (punchType prev) eqn:Hprev; simpl.
        + unfold JS.gtb.
          destruct (Qle_bool (JS.diffMinutesExact (punchTime p)
                                (punchTime prev)) 1440); simpl;
            (split; [done|ring]).
        + split; [done|ring]. }
    destruct Hstep as [Hpend Htot].
    destruct (IH p (scanStep s p) Hpend) as [Ht Hl].
    split; [|exact Hl].
    rewrite Ht, Htot. unfold JS.sum. simpl. ring.
Qed.

(** The loop started on an empty state. *)
Lemma scan_adjacent (punches : list PunchLog) :
  (totalMinutes (fold_left scanStep punches (mkScan 0 None))
   == JS.sum (map Sequence.session (Sequence.adjacent punches)))%Q
  /\ lastInPunch (fold_left scanStep punches (mkScan 0 None))
     = match punches with
       | [] => None
       | p :: l => pendingAfter (List.last l p)
       end.
Proof.
  destruct punches as [|p l]; [split; [reflexivity|done]|].
  change (fold_left scanStep (p :: l) (mkScan 0 None))
    with (fold_left scanStep l (scanStep (mkScan 0 None) p)).
  assert (Hs : lastInPunch (scanStep (mkScan 0 None) p) = pendingAfter p
               /\ (totalMinutes (scanStep (mkScan 0 None) p) == 0)%Q).
  { unfold scanStep, Sequence.pendingAfter. simpl.
    destruct (punchType p); simpl; split; done. }
  destruct Hs as [Hp Ht].
  destruct (fold_scanStep_adjacent l p _ Hp) as [Htot Hl].
  split; [|exact Hl]. rewrite Htot, Ht. ring.
Qed.

Lemma max0_spec (q : Q) :
  (0 <= q /\ JS.max0 q == q)%Q \/ (q < 0 /\ JS.max0 q == 0)%Q.
Proof.
  unfold JS.max0. destruct (Q.max_spec 0 q) as [[H E]|[H E]].
  - left. split; [lra | exact E].
  - destruct (Qlt_le_dec q 0) as [Hlt|Hge].
    + right. split; [exact Hlt | exact E].
    + left. split; [exact Hge|]. rewrite E. lra.
Qed.

Lemma gap_nonneg (a b : PunchLog) :
  Db.earlier a b -> (0 <= Sequence.gap (a, b))%Q.
Proof.
  unfold Db.earlier, Sequence.gap, JS.diffMinutesExact, Qle. simpl. lia.
Qed.

Lemma session_bounds (a b : PunchLog) :
  Db.earlier a b ->
  (0 <= Sequence.session (a, b) <= Sequence.gap (a, b))%Q.
Proof.
  intros H. pose proof (gap_nonneg a b H) as Hg.
  unfold Sequence.session. simpl fst; simpl snd.
  destruct (punchType a), (punchType b); try lra.
  destruct (Qle_bool (Sequence.gap (a, b)) 1440); lra.
Qed.

(** In an ascending sequence the gaps between neighbours add up to the
    span of the sequence, and the sessions add up to no more. *)
Lemma ascending_sums (l : list PunchLog) (a : PunchLog) :
  Sequence.ascending (a :: l) ->
  (0 <= JS.sum (map Sequence.session (Sequence.adjacent (a :: l))))%Q
  /\ (JS.sum (map Sequence.session (Sequence.adjacent (a :: l)))
      <= JS.diffMinutesExact (punchTime (List.last l a)) (punchTime a))%Q.
Proof.
  unfold Sequence.ascending. revert a.
  induction l as [|b l IH]; intros a Hs.
  - unfold JS.sum, JS.diffMinutesExact, Qle. simpl. lia.
  - apply Sorted_inv in Hs as [Hs Hhd]. apply HdRel_inv in Hhd.
    destruct (IH b Hs) as [H0 Hle]. rewrite last_cons_default.
    change (Sequence.adjacent (a :: b :: l))
      with ((a, b) :: Sequence.adjacent (b :: l)).
    pose proof (session_bounds a b Hhd) as [Hs0 Hsg].
    assert (Hsplit :
      (JS.diffMinutesExact (punchTime (List.last l b)) (punchTime a)
       == Sequence.gap (a, b)
          + JS.diffMinutesExact (punchTime (List.last l b)) (punchTime b))%Q).
    { unfold Sequence.gap, JS.diffMinutesExact, Qeq, Qplus. simpl. lia. }
    unfold JS.sum in *. simpl. rewrite Hsplit. lra.
Qed.

(** Without the open session the worked time is the sum of the sessions of
    the pairs of neighbours. *)
Lemma worked_adjacent (now_ : Z) (punches : list PunchLog) :
  (calculateWorkedTime now_ punches false
   == JS.max0 (JS.sum (map Sequence.session (Sequence.adjacent punches))))%Q.
Proof.
  unfold calculateWorkedTime. cbv zeta.
  destruct (scan_adjacent punches) as [Ht _].
  unfold JS.max0. apply Q.max_compat; [reflexivity | exact Ht].
Qed.

(** The total of the loop is not negative on an ascending sequence. *)
Lemma scan_total_nonneg (punches : list PunchLog) :
  Sequence.ascending punches ->
  (0 <= totalMinutes (fold_left scanStep punches (mkScan 0 None)))%Q.
Proof.
  intros Hasc. destruct (scan_adjacent punches) as [Ht _]. rewrite Ht.
  destruct punches as [|a l]; [unfold JS.sum; simpl; lra|].
  by destruct (ascending_sums l a Hasc).
Qed.

End Sessions.

(** X1. Without the open session, the worked time is the sum, over the
    pairs of neighbours of the sequence, of the minutes of each IN followed
    directly by an OUT at most 1440 minutes later, wherever the pair stands
    and whatever the rest of the sequence is; a negative sum gives 0. *)
Theorem calculateWorkedTime_sum_of_adjacent_sessions (now_ : Z)
    (punches : list PunchLog) :
  (TimeEngine.calculateWorkedTime now_ punches false
   == JS.max0 (JS.sum (map Sequence.session (Sequence.adjacent punches))))%Q.
Proof.
  apply worked_adjacent.
Qed.

(** X2. For punches in ascending order of time, the worked time without
    the open session is at least 0 and at most the minutes from the first
    punch to the last. *)
Theorem calculateWorkedTime_within_span (now_ : Z) (first : PunchLog)
    (rest : list PunchLog) :
  Sequence.ascending (first :: rest) ->
  (0 <= TimeEngine.calculateWorkedTime now_ (first :: rest) false)%Q
  /\ (TimeEngine.calculateWorkedTime now_ (first :: rest) false
      <= JS.diffMinutesExact (punchTime (List.last rest first))
           (punchTime first))%Q.
Proof.
  intros Hasc. destruct (ascending_sums rest first Hasc) as [H0 Hle].
  rewrite worked_adjacent.
  destruct (max0_spec
              (JS.sum (map Sequence.session
                         (Sequence.adjacent (first :: rest)))))
    as [[_ E]|[Hneg _]]; [rewrite E; split; assumption | lra].
Qed.

(** X2 at a concrete input: the two sessions of the sample day. *)
Lemma calculateWorkedTime_within_span_witness :
  (0 <= TimeEngine.calculateWorkedTime 0 Ex.twoSessions false)%Q
  /\ (TimeEngine.calculateWorkedTime 0 Ex.twoSessions false
      <= JS.diffMinutesExact (Ex.at_ 17 0 0) (Ex.at_ 9 0 0))%Q.
Proof.
  apply (calculateWorkedTime_within_span 0 (Ex.punch 1%N IN (Ex.at_ 9 0 0))
           [Ex.punch 2%N OUT (Ex.at_ 12 0 0); Ex.punch 3%N IN (Ex.at_ 13 0 0);
            Ex.punch 4%N OUT (Ex.at_ 17 0 0)]).
  repeat constructor; vm_compute; discriminate.
Defined.

(** X3. Including the open session adds at most 960 minutes to the worked
    time, whatever the instant [now] is. *)
Theorem calculateWorkedTime_open_session_bounded (now_ : Z)
    (punches : list PunchLog) :
  (TimeEngine.calculateWorkedTime now_ punches true
   <= TimeEngine.calculateWorkedTime now_ punches false + 960)%Q.
Proof.
  unfold TimeEngine.calculateWorkedTime. cbv zeta.
  set (s := fold_left TimeEngine.scanStep punches (TimeEngine.mkScan 0 None)).
  destruct (TimeEngine.lastInPunch s) as [lastIn|].
  - set (d := JS.diffMinutesExact now_ (punchTime lastIn)).
    destruct (Qle_bool d 960) eqn:Hd.
    + apply Qle_bool_iff in Hd.
      destruct (max0_spec (TimeEngine.totalMinutes s + d)) as [[? E]|[? E]];
        destruct (max0_spec (TimeEngine.totalMinutes s)) as [[? E']|[? E']];
        rewrite E, E'; lra.
    + destruct (max0_spec (TimeEngine.totalMinutes s + 480)) as [[? E]|[? E]];
        destruct (max0_spec (TimeEngine.totalMinutes s)) as [[? E']|[? E']];
        rewrite E, E'; lra.
  - destruct (max0_spec (TimeEngine.totalMinutes s)) as [[? E]|[? E]];
      rewrite E; lra.
Qed.

(** X4. A sequence without an IN punch, the empty one included, counts as
    no worked time, with or without the open session. *)
Theorem calculateWorkedTime_without_IN (now_ : Z) (punches : list PunchLog)
    (includeOpenPunch : bool) :
  Forall (fun p => punchType p = OUT) punches ->
  (TimeEngine.calculateWorkedTime now_ punches includeOpenPunch == 0)%Q.
Proof.
  intros Hout.
  assert (Hs : fold_left TimeEngine.scanStep punches (TimeEngine.mkScan 0 None)
               = TimeEngine.mkScan 0 None).
  { induction Hout as [|p l Hp _ IH]; [done|]. simpl.
    unfold TimeEngine.scanStep at 2. rewrite Hp. simpl. exact IH. }
  unfold TimeEngine.calculateWorkedTime. rewrite Hs. simpl.
  destruct includeOpenPunch; reflexivity.
Qed.

(** X4 at a concrete input: a lone OUT at 17:00. *)
Lemma calculateWorkedTime_without_IN_witness :
  (TimeEngine.calculateWorkedTime (Ex.at_ 18 0 0)
     [Ex.punch 1%N OUT (Ex.at_ 17 0 0)] true == 0)%Q.
Proof.
  apply (calculateWorkedTime_without_IN (Ex.at_ 18 0 0)
           [Ex.punch 1%N OUT (Ex.at_ 17 0 0)] true).
  repeat constructor.
Defined.

(** ** The predicted exit *)

Section PredictedExit.

Import TimeEngine.

Lemma existsb_false_Forall {A : Type} (f : A -> bool) (l : list A) :
  Forall (fun x => f x = false) l -> existsb f l = false.
Proof. induction 1 as [|x l Hx _ IH]; simpl; [done|]. by rewrite Hx, IH. Qed.

Lemma filter_all {A : Type} (f : A -> bool) (l : list A) :
  Forall (fun x => f x = true) l -> List.filter f l = l.
Proof. induction 1 as [|x l Hx _ IH]; simpl; [done|]. by rewrite Hx, IH. Qed.

(** The predicted exit of a day that ends with an IN later than all the
    other punches. *)
Lemma predictedExit_open (now_ : Z) (before : list PunchLog)
    (lastIn : PunchLog) (target : Q) :
  punchType lastIn = IN ->
  Forall (fun p => punchTime p < punchTime lastIn) before ->
  calculatePredictedExitTime now_ (before ++ [lastIn]) target
  = Some (mkPredictedExit
            (Qfloor (inject_Z (punchTime lastIn)
                     + (target - calculateWorkedTime now_ before false)
                       * 60000))
            (target - calculateWorkedTime now_ before false)).
Proof.
  intros Hin Hbefore. unfold calculatePredictedExitTime.
  rewrite rev_app_distr. simpl rev. simpl List.find.
  rewrite Hin. simpl.
  rewrite existsb_app, List.filter_app. simpl.
  rewrite Hin, Z.ltb_irrefl. simpl.
  rewrite existsb_false_Forall, filter_all, app_nil_r; [done|..].
  - eapply Forall_impl; [exact Hbefore|]. intros p Hp. simpl in Hp.
    by apply Z.ltb_lt.
  - eapply Forall_impl; [exact Hbefore|]. intros p Hp. simpl in Hp.
    apply andb_false_iff. right. apply Z.ltb_ge. lia.
Qed.

End PredictedExit.

(** X5. On an ascending day that ends with an IN later than all the other
    punches and at most 960 minutes old, a predicted exit is returned; its
    [remainingMinutes] is the target less the time worked before that IN,
    and the target less the time worked so far, open session included, is
    that [remainingMinutes] less the minutes elapsed since the IN. *)
Theorem calculatePredictedExitTime_agrees_with_worked (now_ : Z)
    (before : list PunchLog) (lastIn : PunchLog) (target : Q) :
  punchType lastIn = IN ->
  Forall (fun p => punchTime p < punchTime lastIn) before ->
  Sequence.ascending before ->
  0 <= now_ - punchTime lastIn <= 57600000 ->
  exists pe,
    TimeEngine.calculatePredictedExitTime now_ (before ++ [lastIn]) target
    = Some pe
    /\ (TimeEngine.pe_remainingMinutes pe
        == target - TimeEngine.calculateWorkedTime now_ before false)%Q
    /\ (target
        - TimeEngine.calculateWorkedTime now_ (before ++ [lastIn]) true
        == TimeEngine.pe_remainingMinutes pe
           - JS.diffMinutesExact now_ (punchTime lastIn))%Q.
Proof.
  intros Hin Hbefore Hasc Hnow.
  eexists. split; [by apply predictedExit_open|]. simpl.
  split; [reflexivity|].
  pose proof (scan_total_nonneg before Hasc) as Htot.
  unfold TimeEngine.calculateWorkedTime. cbv zeta.
  rewrite fold_left_app. simpl fold_left.
  set (s := fold_left TimeEngine.scanStep before (TimeEngine.mkScan 0 None))
    in *.
  assert (Hstep : TimeEngine.scanStep s lastIn
                  = TimeEngine.mkScan (TimeEngine.totalMinutes s)
                      (Some lastIn))
    by (unfold TimeEngine.scanStep; by rewrite Hin).
  rewrite Hstep. simpl.
  set (d := JS.diffMinutesExact now_ (punchTime lastIn)).
  assert (Hd : (0 <= d <= 960)%Q).
  { subst d. unfold JS.diffMinutesExact, Qle. simpl. lia. }
  destruct Hd as [Hd0 Hd960].
  apply Qle_bool_iff in Hd960 as Hb. rewrite Hb.
  destruct (max0_spec (TimeEngine.totalMinutes s + d)) as [[_ E]|[Hneg _]];
    [|lra].
  destruct (max0_spec (TimeEngine.totalMinutes s)) as [[_ E']|[Hneg _]];
    [|lra].
  lra.
Qed.

(** X5 at a concrete input: IN 09:00, OUT 12:00, IN 13:00, seen at 15:00. *)
Lemma calculatePredictedExitTime_agrees_with_worked_witness :
  exists pe,
    TimeEngine.calculatePredictedExitTime (Ex.at_ 15 0 0)
      ([Ex.punch 1%N IN (Ex.at_ 9 0 0); Ex.punch 2%N OUT (Ex.at_ 12 0 0)]
       ++ [Ex.punch 3%N IN (Ex.at_ 13 0 0)]) 480
    = Some pe
    /\ (TimeEngine.pe_remainingMinutes pe
        == 480 - TimeEngine.calculateWorkedTime (Ex.at_ 15 0 0)
                   [Ex.punch 1%N IN (Ex.at_ 9 0 0);
                    Ex.punch 2%N OUT (Ex.at_ 12 0 0)] false)%Q
    /\ (480
        - TimeEngine.calculateWorkedTime (Ex.at_ 15 0 0)
            ([Ex.punch 1%N IN (Ex.at_ 9 0 0); Ex.punch 2%N OUT (Ex.at_ 12 0 0)]
             ++ [Ex.punch 3%N IN (Ex.at_ 13 0 0)]) true
        == TimeEngine.pe_remainingMinutes pe
           - JS.diffMinutesExact (Ex.at_ 15 0 0)
               (punchTime (Ex.punch 3%N IN (Ex.at_ 13 0 0))))%Q.
Proof.
  apply (calculatePredictedExitTime_agrees_with_worked (Ex.at_ 15 0 0)
           [Ex.punch 1%N IN (Ex.at_ 9 0 0); Ex.punch 2%N OUT (Ex.at_ 12 0 0)]
           (Ex.punch 3%N IN (Ex.at_ 13 0 0)) 480).
  - reflexivity.
  - repeat constructor.
  - repeat constructor; vm_compute; discriminate.
  - vm_compute. split; discriminate.
Defined.

(** X6. No predicted exit is returned when some OUT is later than every IN
    of the sequence. *)
Theorem calculatePredictedExitTime_none_after_out (now_ : Z)
    (punches : list PunchLog) (target : Q) (out : PunchLog) :
  out ∈ punches ->
  punchType out = OUT ->
  Forall (fun p => punchType p = IN -> punchTime p < punchTime out) punches ->
  TimeEngine.calculatePredictedExitTime now_ punches target = None.
Proof.
  intros Hout Hty Hall. unfold TimeEngine.calculatePredictedExitTime.
  destruct (List.find _ (rev punches)) as [lastIn|] eqn:Hfind; [|done].
  apply find_some in Hfind as [Hin Hb].
  apply bool_decide_eq_true in Hb. apply in_rev, list_elem_of_In in Hin.
  rewrite Forall_forall in Hall. specialize (Hall lastIn Hin Hb).
  assert (He : existsb
                 (fun p => bool_decide (punchType p = OUT)
                           && (punchTime lastIn <? punchTime p)) punches
               = true).
  { apply existsb_exists. exists out. split; [by apply list_elem_of_In|].
    apply andb_true_iff. split; [by apply bool_decide_eq_true|].
    by apply Z.ltb_lt. }
  by rewrite He.
Qed.

(** X6 at a concrete input: the sample day, which ends with an OUT. *)
Lemma calculatePredictedExitTime_none_after_out_witness :
  TimeEngine.calculatePredictedExitTime 0 Ex.twoSessions 480 = None.
Proof.
  apply (calculatePredictedExitTime_none_after_out 0 Ex.twoSessions 480
           (Ex.punch 4%N OUT (Ex.at_ 17 0 0))).
  - apply list_elem_of_In. simpl. tauto.
  - reflexivity.
  - repeat (apply List.Forall_cons;
            [intros H; vm_compute in H;
             first [discriminate H | vm_compute; reflexivity]|]).
    apply List.Forall_nil.
Defined.

(** ** Formatting minutes *)

Section Formatting.

Lemma Qfloor_unique (z : Z) (x : Q) :
  (inject_Z z <= x)%Q -> (x < inject_Z (z + 1))%Q -> Qfloor x = z.
Proof.
  intros Hle Hlt.
  pose proof (Qfloor_le x) as Hf1. pose proof (Qlt_floor x) as Hf2.
  assert (H1 : (inject_Z (Qfloor x) < inject_Z (z + 1))%Q) by lra.
  assert (H2 : (inject_Z z < inject_Z (Qfloor x + 1))%Q) by lra.
  rewrite <- Zlt_Qlt in H1, H2. lia.
Qed.

Lemma truncQ_small (q : Q) : (0 <= q)%Q -> (q < 1)%Q -> JS.truncQ q = 0.
Proof.
  unfold Qle, Qlt, JS.truncQ. simpl. intros H0 H1.
  apply Z.quot_small. lia.
Qed.

(** The hours and the minutes that [formatMinutes] prints for a whole
    number of minutes. *)
Lemma formatMinutes_parts (n : Z) :
  0 <= n ->
  Qfloor (inject_Z n / 60) = n / 60
  /\ JS.roundQ (JS.remQ (inject_Z n) 60) = n mod 60.
Proof.
  intros Hn. split.
  - apply Qfloor_unique.
    + unfold Qle, Qdiv, Qmult, Qinv, inject_Z. simpl.
      Z.to_euclidean_division_equations. lia.
    + unfold Qlt, Qdiv, Qmult, Qinv, inject_Z. simpl.
      Z.to_euclidean_division_equations. lia.
  - unfold JS.roundQ. apply Qfloor_unique.
    + unfold JS.remQ, JS.truncQ, Qle, Qdiv, Qmult, Qinv, Qplus, Qminus,
        Qopp, inject_Z. simpl.
      Z.to_euclidean_division_equations. lia.
    + unfold JS.remQ, JS.truncQ, Qlt, Qdiv, Qmult, Qinv, Qplus, Qminus,
        Qopp, inject_Z. simpl.
      Z.to_euclidean_division_equations. lia.
Qed.

End Formatting.

(** X7. For a whole number of minutes that is not negative, [formatMinutes]
    prints the minutes alone below 60 and otherwise the hours and the
    remaining minutes, which are below 60. *)
Theorem formatMinutes_whole_minutes (n : Z) :
  0 <= n ->
  TimeEngine.formatMinutes (inject_Z n)
  = (if n <? 60
     then pretty n +:+ "m"
     else pretty (n / 60) +:+ "h " +:+ pretty (n mod 60) +:+ "m")
  /\ 0 <= n mod 60 < 60.
Proof.
  intros Hn. destruct (formatMinutes_parts n Hn) as [Hh Hm].
  split; [|apply Z.mod_pos_bound; lia].
  unfold TimeEngine.formatMinutes. rewrite Hh, Hm.
  destruct (n <? 60) eqn:Hlt.
  - apply Z.ltb_lt in Hlt. rewrite Z.div_small, Z.mod_small by lia. done.
  - apply Z.ltb_ge in Hlt.
    destruct (n / 60 =? 0) eqn:Hz; [|done].
    apply Z.eqb_eq in Hz.
    pose proof (Z.div_le_lower_bound n 60 1). lia.
Qed.

(** X7 at concrete inputs: 90, 45 and 480 minutes. *)
Lemma formatMinutes_whole_minutes_witness :
  TimeEngine.formatMinutes (inject_Z 90) = "1h 30m"
  /\ TimeEngine.formatMinutes (inject_Z 45) = "45m"
  /\ TimeEngine.formatMinutes (inject_Z 480) = "8h 0m".
Proof.
  split; [|split].
  - destruct (formatMinutes_whole_minutes 90) as [H _]; [lia|]. exact H.
  - destruct (formatMinutes_whole_minutes 45) as [H _]; [lia|]. exact H.
  - destruct (formatMinutes_whole_minutes 480) as [H _]; [lia|]. exact H.
Defined.

(** X8. From 59.5 minutes up to, but not including, 60 minutes,
    [formatMinutes] prints "60m": the minutes are rounded after the hours
    were cut off, and the rounding is not carried over to the hours. *)
Theorem formatMinutes_rounds_up_to_60 (minutes : Q) :
  (119 # 2 <= minutes)%Q -> (minutes < 60)%Q ->
  TimeEngine.formatMinutes minutes = "60m".
Proof.
  intros Hlo Hhi.
  assert (Hq : (0 <= minutes / 60)%Q /\ (minutes / 60 < 1)%Q).
  { split.
    - apply Qle_shift_div_l; lra.
    - apply Qlt_shift_div_r; lra. }
  destruct Hq as [Hq0 Hq1].
  assert (Hh : Qfloor (minutes / 60) = 0).
  { apply Qfloor_unique.
    - change (inject_Z 0) with 0%Q. exact Hq0.
    - change (inject_Z (0 + 1)) with 1%Q. exact Hq1. }
  assert (Hm : JS.roundQ (JS.remQ minutes 60) = 60).
  { unfold JS.roundQ, JS.remQ. rewrite (truncQ_small _ Hq0 Hq1).
    change (inject_Z 0) with 0%Q.
    apply Qfloor_unique.
    - change (inject_Z 60) with 60%Q. lra.
    - change (inject_Z (60 + 1)) with 61%Q. lra. }
  unfold TimeEngine.formatMinutes. rewrite Hh, Hm. reflexivity.
Qed.

(** X8 at a concrete input: 59.75 minutes. *)
Lemma formatMinutes_rounds_up_to_60_witness :
  TimeEngine.formatMinutes (239 # 4) = "60m".
Proof.
  apply (formatMinutes_rounds_up_to_60 (239 # 4)); vm_compute; reflexivity
  || (vm_compute; discriminate).
Defined.

(** ** The dashboard *)

Section Dashboard.

Import TimeEngine.

Lemma alternates_last (l : list PunchLog) (first : PunchType) (q : PunchLog) :
  Sequence.alternates first l -> last l = Some q ->
  punchType q = if Nat.odd (length l) then first else toggle first.
Proof.
  revert first. induction l as [|p l IH]; intros first Halt Hlast;
    [discriminate|].
  destruct Halt as [Hp Halt]. destruct l as [|p' l'].
  - simpl in *. by inversion Hlast; subst.
  - change (last (p :: p' :: l')) with (last (p' :: l')) in Hlast.
    rewrite (IH _ Halt Hlast).
    change (length (p :: p' :: l')) with (S (length (p' :: l'))).
    rewrite Nat.odd_succ, <- Nat.negb_odd.
    destruct (Nat.odd (length (p' :: l'))), first; done.
Qed.

Lemma half_succ_succ (n : nat) : ((n + 1 + 1) / 2 = S (n / 2))%nat.
Proof.
  replace (n + 1 + 1)%nat with (n + 1 * 2)%nat by lia.
  rewrite Nat.div_add by lia. lia.
Qed.

Lemma alternates_count (l : list PunchLog) (first : PunchType) :
  Sequence.alternates first l ->
  length (List.filter (fun p => bool_decide (punchType p = IN)) l)
  = match first with
    | IN => ((length l + 1) / 2)%nat
    | OUT => (length l / 2)%nat
    end.
Proof.
  revert first. induction l as [|p l IH]; intros first Halt.
  - by destruct first.
  - destruct Halt as [Hp Halt]. specialize (IH _ Halt).
    cbn [List.filter length]. rewrite Hp.
    replace (S (length l)) with (length l + 1)%nat by lia.
    destruct first; cbn [toggle] in IH.
    + rewrite bool_decide_true by done. cbn [length]. rewrite IH.
      by rewrite half_succ_succ.
    + rewrite bool_decide_false by done. exact IH.
Qed.

Lemma half_plus_odd (n : nat) :
  (n / 2 + (if Nat.odd n then 1 else 0) = (n + 1) / 2)%nat.
Proof.
  destruct (Nat.odd n) eqn:Hodd.
  - apply Nat.odd_spec in Hodd as [k ->].
    replace (2 * k + 1 + 1)%nat with ((k + 1) * 2)%nat by lia.
    rewrite Nat.div_mul by lia.
    replace (2 * k + 1)%nat with (1 + k * 2)%nat by lia.
    rewrite Nat.div_add by lia. simpl. lia.
  - rewrite <- Nat.negb_even in Hodd. apply negb_false_iff in Hodd.
    apply Nat.even_spec in Hodd as [k ->].
    replace (2 * k + 1)%nat with (1 + k * 2)%nat by lia.
    rewrite Nat.div_add by lia.
    replace (2 * k)%nat with (k * 2)%nat by lia.
    rewrite Nat.div_mul by lia. simpl. lia.
Qed.

End Dashboard.

(** X9. When [createPunch] succeeds, the punch it records has the type
    that the dashboard computed on the same collection announces as
    [nextPunchType], and that type is OUT exactly when the dashboard shows
    the status WORKING. *)
Theorem createPunch_records_announced_type (cfg : Defaults)
    (tags : list PunchService.NfcTag) (clock : Clock) (db db' : list PunchLog)
    (user : User) (options : PunchService.Options)
    (created : PunchService.Created) :
  PunchService.createPunch cfg tags clock db user options
  = (Ok created, db') ->
  let dashboard := TimeEngine.getDashboardData cfg db clock user in
  punchType (PunchService.c_punch created)
  = TimeEngine.ds_nextPunchType dashboard
  /\ (TimeEngine.ds_nextPunchType dashboard = OUT
      <-> TimeEngine.ds_status dashboard = TimeEngine.WORKING).
Proof.
  intros Hcreate dashboard.
  pose proof (createPunch_inv cfg tags clock db user options) as Hinv.
  rewrite Hcreate in Hinv. destruct Hinv as (_ & _ & _ & Hty & _).
  rewrite Hty. subst dashboard.
  unfold TimeEngine.getDashboardData, TimeEngine.getNextPunchType. cbn.
  destruct (TimeEngine.getLastPunch db (user_id user)) as [p|]; cbn.
  - destruct (punchType p); cbn; split; try done; split; done.
  - split; [done|]. split; done.
Qed.

(** X9 at a concrete input: the OUT created 61 seconds after the IN of
    09:00. *)
Lemma createPunch_records_announced_type_witness :
  TimeEngine.ds_nextPunchType
    (TimeEngine.getDashboardData Ex.cfg Ex.inAtNine (Ex.clockAt 9 1 1)
       Ex.alice) = OUT
  /\ TimeEngine.ds_status
       (TimeEngine.getDashboardData Ex.cfg Ex.inAtNine (Ex.clockAt 9 1 1)
          Ex.alice) = TimeEngine.WORKING.
Proof.
  destruct (PunchService.createPunch Ex.cfg [] (Ex.clockAt 9 1 1) Ex.inAtNine
              Ex.alice Ex.manual) as [[created|e] db'] eqn:Hc;
    [|vm_compute in Hc; discriminate Hc].
  destruct (createPunch_records_announced_type Ex.cfg [] (Ex.clockAt 9 1 1)
              Ex.inAtNine db' Ex.alice Ex.manual created Hc) as [Hty Hiff].
  assert (Hout : TimeEngine.ds_nextPunchType
                   (TimeEngine.getDashboardData Ex.cfg Ex.inAtNine
                      (Ex.clockAt 9 1 1) Ex.alice) = OUT) by reflexivity.
  split; [exact Hout | by apply Hiff].
Defined.

(** X10. On a day whose punches alternate, starting with an IN, the
    session count of the dashboard is the number of IN punches of the
    day. *)
Theorem getDashboardData_sessionCount (cfg : Defaults) (db : list PunchLog)
    (clock : Clock) (user : User) :
  Sequence.alternates IN (TimeEngine.getTodayPunches db clock (user_id user)) ->
  TimeEngine.ts_sessionCount
    (TimeEngine.ds_todayStats (TimeEngine.getDashboardData cfg db clock user))
  = length (List.filter (fun p => bool_decide (punchType p = IN))
              (TimeEngine.getTodayPunches db clock (user_id user))).
Proof.
  intros Halt. rewrite (alternates_count _ IN Halt).
  unfold TimeEngine.getDashboardData. cbv zeta.
  cbn [TimeEngine.ds_todayStats TimeEngine.ts_sessionCount].
  set (today := TimeEngine.getTodayPunches db clock (user_id user)) in *.
  rewrite <- half_plus_odd. f_equal.
  destruct (last today) as [q|] eqn:Hlast.
  - rewrite (alternates_last today IN q Halt Hlast).
    destruct (Nat.odd (length today)); done.
  - apply last_None in Hlast. by rewrite Hlast.
Qed.

(** X10 at a concrete input: IN 09:00, OUT 12:00, IN 13:00. *)
Lemma getDashboardData_sessionCount_witness :
  TimeEngine.ts_sessionCount
    (TimeEngine.ds_todayStats
       (TimeEngine.getDashboardData Ex.cfg
          [Ex.punch 1%N IN (Ex.at_ 9 0 0); Ex.punch 2%N OUT (Ex.at_ 12 0 0);
           Ex.punch 3%N IN (Ex.at_ 13 0 0)] (Ex.clockAt 14 0 0) Ex.alice))
  = length (List.filter (fun p => bool_decide (punchType p = IN))
              (TimeEngine.getTodayPunches
                 [Ex.punch 1%N IN (Ex.at_ 9 0 0);
                  Ex.punch 2%N OUT (Ex.at_ 12 0 0);
                  Ex.punch 3%N IN (Ex.at_ 13 0 0)] (Ex.clockAt 14 0 0)
                 (user_id Ex.alice))).
Proof.
  apply (getDashboardData_sessionCount Ex.cfg
           [Ex.punch 1%N IN (Ex.at_ 9 0 0); Ex.punch 2%N OUT (Ex.at_ 12 0 0);
            Ex.punch 3%N IN (Ex.at_ 13 0 0)] (Ex.clockAt 14 0 0) Ex.alice).
  vm_compute. repeat split.
Defined.

Section Progress.

Lemma roundQ_nonneg (x : Q) : (0 <= x)%Q -> 0 <= JS.roundQ x.
Proof.
  intros Hx. unfold JS.roundQ.
  change 0 with (Qfloor 0). apply Qfloor_resp_le. lra.
Qed.

Lemma roundQ_at_least (x : Q) (k : Z) :
  (inject_Z k <= x)%Q -> k <= JS.roundQ x.
Proof.
  intros Hx. unfold JS.roundQ.
  rewrite <- (Qfloor_Z k). apply Qfloor_resp_le. lra.
Qed.

Lemma round2_zero (q : Q) : (q == 0)%Q -> (JS.round2 q == 0)%Q.
Proof. intros H. by rewrite (round2_same q 0 H). Qed.

End Progress.

(** X11. With a positive daily target the progress of the dashboard is a
    finite number between 0 and 100; once the target is met it is 100 and
    the remaining time is 0. *)
Theorem getDashboardData_progress (cfg : Defaults) (db : list PunchLog)
    (clock : Clock) (user : User) :
  (0 < TimeEngine.getDailyWorkTarget cfg user)%Q ->
  let stats :=
    TimeEngine.ds_todayStats (TimeEngine.getDashboardData cfg db clock user) in
  exists percent : Q,
    TimeEngine.ts_progressPercent stats = JS.Num percent
    /\ (0 <= percent <= 100)%Q
    /\ (TimeEngine.ts_isTargetMet stats = true ->
        (percent == 100)%Q
        /\ (TimeEngine.ts_remainingMinutes stats == 0)%Q).
Proof.
  intros Htarget stats. subst stats.
  unfold TimeEngine.getDashboardData. cbv zeta.
  cbn [TimeEngine.ds_todayStats TimeEngine.ts_progressPercent
       TimeEngine.ts_isTargetMet TimeEngine.ts_remainingMinutes].
  set (target := TimeEngine.getDailyWorkTarget cfg user) in *.
  set (worked := TimeEngine.calculateWorkedTime _ _ true).
  assert (Hworked : (0 <= worked)%Q) by apply max0_nonneg.
  unfold JS.div.
  assert (Hnz : Qeq_bool target 0 = false).
  { apply not_true_iff_false. intros H. apply Qeq_bool_iff in H. lra. }
  rewrite Hnz. cbn [JS.mul JS.round JS.min].
  assert (Hratio : (0 <= worked / target)%Q)
    by (apply Qle_shift_div_l; [done | lra]).
  eexists. split; [reflexivity|]. split; [split|].
  - apply Q.min_glb; [lra|].
    change 0%Q with (inject_Z 0). rewrite <- Zle_Qle.
    apply roundQ_nonneg. lra.
  - apply Q.le_min_l.
  - intros Hmet. apply Qle_bool_iff in Hmet.
    assert (Hone : (1 <= worked / target)%Q)
      by (apply Qle_shift_div_l; [done | lra]).
    split.
    + apply Q.min_l. change 100%Q with (inject_Z 100).
      rewrite <- Zle_Qle. apply roundQ_at_least.
      change (inject_Z 100) with 100%Q. lra.
    + apply round2_zero. unfold TimeEngine.calculateRemainingTime.
      destruct (max0_spec (target - worked)) as [[? ->]|[? ->]]; lra.
Qed.

(** X11 at a concrete input: three hours worked of eight. *)
Lemma getDashboardData_progress_witness :
  exists percent : Q,
    TimeEngine.ts_progressPercent
      (TimeEngine.ds_todayStats
         (TimeEngine.getDashboardData Ex.cfg Ex.twoSessions
            (Ex.clockAt 18 0 0) Ex.alice)) = JS.Num percent
    /\ (0 <= percent <= 100)%Q
    /\ (TimeEngine.ts_isTargetMet
          (TimeEngine.ds_todayStats
             (TimeEngine.getDashboardData Ex.cfg Ex.twoSessions
                (Ex.clockAt 18 0 0) Ex.alice)) = true ->
        (percent == 100)%Q
        /\ (TimeEngine.ts_remainingMinutes
              (TimeEngine.ds_todayStats
                 (TimeEngine.getDashboardData Ex.cfg Ex.twoSessions
                    (Ex.clockAt 18 0 0) Ex.alice)) == 0)%Q).
Proof.
  apply (getDashboardData_progress Ex.cfg Ex.twoSessions (Ex.clockAt 18 0 0)
           Ex.alice).
  vm_compute. reflexivity.
Defined.

(** ** Validation of a punch *)

Section Validation.

Import PunchValidator.

Lemma warnings_flag (v : Validation) :
  negb (bhr_valid (v_businessHours v))
  || negb (workingDayValid (v_workingDay v))
  || bool_decide (is_Some (isLate v))
  || bool_decide (is_Some (isEarly v)) = true
  <-> collectWarnings v <> [].
Proof.
  unfold collectWarnings.
  destruct (bhr_valid (v_businessHours v)), (v_workingDay v),
    (isLate v), (isEarly v); cbn; split; intros H; done.
Qed.

Lemma elem_of_findInRange (db : list PunchLog) (uid : ObjectId)
    (start end_ : Z) (p : PunchLog) :
  p ∈ Db.findInRange db uid start end_
  <-> p ∈ db /\ Db.inRange uid start end_ p = true.
Proof.
  unfold Db.findInRange, Db.sortAsc.
  rewrite (merge_sort_Permutation Db.earlier).
  rewrite !list_elem_of_In, filter_In. done.
Qed.

Lemma sorted_last (l : list PunchLog) (q : PunchLog) :
  StronglySorted Db.earlier l -> last l = Some q ->
  forall x, x ∈ l -> punchTime x <= punchTime q.
Proof.
  induction 1 as [|a l Hs IH Hall]; intros Hlast x Hx; [discriminate|].
  destruct l as [|b l'].
  - simpl in Hlast. inversion Hlast; subst.
    apply list_elem_of_singleton in Hx. subst. lia.
  - change (last (a :: b :: l')) with (last (b :: l')) in Hlast.
    apply elem_of_cons in Hx as [->|Hx]; [|by apply IH].
    rewrite Forall_forall in Hall. apply Hall.
    by apply last_Some_elem_of.
Qed.

(** The last punch of today is the user's last punch when that one is of
    today and no other punch of the user has its time. *)
Lemma last_today (db : list PunchLog) (clock : Clock) (uid : ObjectId)
    (p : PunchLog) :
  TimeEngine.getLastPunch db uid = Some p ->
  startOfDay clock <= punchTime p <= endOfDay clock ->
  (forall q, q ∈ db -> userId q = uid -> punchTime q = punchTime p -> q = p) ->
  last (Db.findInRange db uid (startOfDay clock) (endOfDay clock)) = Some p.
Proof.
  intros Hlast Htoday Huniq.
  apply getLastPunch_most_recent in Hlast as (Hin & Huid & Hmax).
  set (today := Db.findInRange db uid (startOfDay clock) (endOfDay clock)).
  assert (Hp : p ∈ today).
  { apply elem_of_findInRange. split; [done|]. unfold Db.inRange.
    rewrite Huid, N.eqb_refl. simpl.
    apply andb_true_iff. split; apply Z.leb_le; lia. }
  assert (Hsorted : StronglySorted Db.earlier today)
    by apply (StronglySorted_merge_sort Db.earlier).
  destruct (last today) as [q|] eqn:Hq.
  - pose proof (sorted_last today q Hsorted Hq p Hp) as Hle.
    apply last_Some_elem_of, elem_of_findInRange in Hq as [Hqdb Hqr].
    unfold Db.inRange in Hqr.
    apply andb_true_iff in Hqr as [Hqr _].
    apply andb_true_iff in Hqr as [Hqu _]. apply N.eqb_eq in Hqu.
    f_equal. apply Huniq; [done..|]. specialize (Hmax q Hqdb Hqu). lia.
  - apply last_None in Hq. rewrite Hq in Hp. by apply elem_of_nil in Hp.
Qed.

(** No punch of today when every punch of the user is from before the
    start of the day. *)
Lemma no_punch_today (db : list PunchLog) (clock : Clock) (uid : ObjectId) :
  (forall q, q ∈ db -> userId q = uid -> punchTime q < startOfDay clock) ->
  Db.findInRange db uid (startOfDay clock) (endOfDay clock) = [].
Proof.
  intros Hbefore.
  destruct (Db.findInRange db uid (startOfDay clock) (endOfDay clock))
    as [|x l] eqn:Hl; [done|].
  assert (Hx : x ∈ Db.findInRange db uid (startOfDay clock) (endOfDay clock))
    by (rewrite Hl; left).
  apply elem_of_findInRange in Hx as [Hdb Hr]. unfold Db.inRange in Hr.
  apply andb_true_iff in Hr as [Hr _].
  apply andb_true_iff in Hr as [Hu Hs].
  apply N.eqb_eq in Hu. apply Z.leb_le in Hs.
  specialize (Hbefore x Hdb Hu). lia.
Qed.

End Validation.

(** X12. In the result of [validatePunch] the flags agree with the lists:
    [hasWarnings] is set exactly when [warnings] is not empty, and [valid]
    exactly when [errors] is empty. *)
Theorem validatePunch_flags_agree (cfg : Defaults) (db : list PunchLog)
    (clock : Clock) (uid : ObjectId) (punchType_ : PunchType)
    (userConfig_ : PunchValidator.userConfig) :
  let result :=
    PunchValidator.validatePunch cfg db clock uid punchType_ userConfig_ in
  (PunchValidator.hasWarnings result = true
   <-> PunchValidator.warnings result <> [])
  /\ (PunchValidator.valid result = true
      <-> PunchValidator.errors result = []).
Proof.
  intros result. subst result. unfold PunchValidator.validatePunch.
  cbv zeta.
  cbn [PunchValidator.hasWarnings PunchValidator.warnings
       PunchValidator.valid PunchValidator.errors].
  split.
  - match goal with
    | |- context [PunchValidator.collectWarnings ?v] =>
        exact (warnings_flag v)
    end.
  - destruct (PunchValidator.validatePunchSequence db clock uid punchType_);
    cbn; split; done.
Qed.

(** X13. When [checkGracePeriod] reports a late punch, the minutes it
    reports are at least the grace period. *)
Theorem checkGracePeriod_late_by_at_least_grace (clock : Clock)
    (graceMinutes_ : option Z) (shiftStartTime_ : option HM)
    (minutesLate : Z) :
  PunchValidator.checkGracePeriod clock graceMinutes_ shiftStartTime_
  = Some minutesLate ->
  default 15 graceMinutes_ <= minutesLate.
Proof.
  unfold PunchValidator.checkGracePeriod. cbv zeta.
  destruct (_ >? _) eqn:Hlate; [|discriminate].
  intros H. inversion H as [Hm]. clear H Hm.
  apply Z.gtb_lt in Hlate.
  Z.to_euclidean_division_equations. lia.
Qed.

(** X13 at a concrete input: 09:20 with the default grace period and shift
    start. *)
Lemma checkGracePeriod_late_by_at_least_grace_witness :
  PunchValidator.checkGracePeriod (Ex.clockAt 9 20 0) None None = Some 20
  /\ default 15 None <= 20.
Proof.
  split; [reflexivity|].
  apply (checkGracePeriod_late_by_at_least_grace (Ex.clockAt 9 20 0)
           None None 20).
  reflexivity.
Defined.

(** X14. When the user's last punch is of today and no other punch of the
    user has its time, or when the user has no punch at all, the sequence
    check accepts the type that [getNextPunchType] proposes. *)
Theorem validatePunchSequence_accepts_next_type (db : list PunchLog)
    (clock : Clock) (uid : ObjectId) :
  (forall p, TimeEngine.getLastPunch db uid = Some p ->
     startOfDay clock <= punchTime p <= endOfDay clock
     /\ forall q, q ∈ db -> userId q = uid ->
          punchTime q = punchTime p -> q = p) ->
  PunchValidator.validatePunchSequence db clock uid
    (TimeEngine.getNextPunchType db uid)
  = PunchValidator.SequenceValid.
Proof.
  intros Hlast. rewrite getNextPunchType_toggle.
  unfold PunchValidator.validatePunchSequence. cbv zeta.
  destruct (TimeEngine.getLastPunch db uid) as [p|] eqn:Hp.
  - destruct (Hlast p eq_refl) as [Htoday Huniq].
    rewrite (last_today db clock uid p Hp Htoday Huniq).
    destruct (punchType p); done.
  - rewrite no_punch_today; [done|].
    intros q Hq Hu. exfalso.
    by apply (proj1 (getLastPunch_None db uid) Hp q).
Qed.

(** X14 at a concrete input: one IN at 09:00 today. *)
Lemma validatePunchSequence_accepts_next_type_witness :
  PunchValidator.validatePunchSequence Ex.inAtNine (Ex.clockAt 9 1 1) 1%N
    (TimeEngine.getNextPunchType Ex.inAtNine 1%N)
  = PunchValidator.SequenceValid.
Proof.
  apply (validatePunchSequence_accepts_next_type Ex.inAtNine
           (Ex.clockAt 9 1 1) 1%N).
  intros p Hp. vm_compute in Hp. inversion Hp; subst p.
  split; [vm_compute; split; discriminate|].
  intros q Hq _ _. by apply list_elem_of_singleton in Hq.
Defined.

(** X15. When the user's last punch is an IN from before the start of
    today, [createPunch] with the validation on rejects the punch with
    'First punch of the day must be IN' and stores nothing, unless it is
    rejected as a double punch. *)
Theorem createPunch_blocked_by_open_punch_of_earlier_day (cfg : Defaults)
    (tags : list PunchService.NfcTag) (clock : Clock) (db : list PunchLog)
    (user : User) (options : PunchService.Options) (lastPunch : PunchLog) :
  TimeEngine.getLastPunch db (user_id user) = Some lastPunch ->
  punchType lastPunch = IN ->
  punchTime lastPunch < startOfDay clock ->
  TimeEngine.isDoublePunch db (user_id user) (now clock) = false ->
  PunchService.o_skipValidation options = false ->
  PunchService.createPunch cfg tags clock db user options
  = (Throw (ValidationError "First punch of the day must be IN"), db).
Proof.
  intros Hlast Hin Hbefore Hdouble Hskip.
  assert (Hseq : PunchValidator.validatePunchSequence db clock (user_id user)
                   (TimeEngine.getNextPunchType db (user_id user))
                 = PunchValidator.SequenceError
                     "First punch of the day must be IN").
  { rewrite getNextPunchType_toggle, Hlast, Hin.
    unfold PunchValidator.validatePunchSequence. cbv zeta.
    rewrite no_punch_today; [done|].
    intros q Hq Hu.
    apply getLastPunch_most_recent in Hlast as (_ & _ & Hmax).
    specialize (Hmax q Hq Hu). lia. }
  destruct (valid_sequence cfg db clock (user_id user)
              (TimeEngine.getNextPunchType db (user_id user))
              (profile user)) as [Hv He].
  unfold PunchService.createPunch. rewrite Hdouble. cbv zeta.
  unfold PunchService.validation at 1. rewrite Hskip, Hv, He, Hseq.
  reflexivity.
Qed.

(** X15 at a concrete input: the only punch is an IN at 18:00 of the day
    before. *)
Lemma createPunch_blocked_by_open_punch_of_earlier_day_witness :
  PunchService.createPunch Ex.cfg [] (Ex.clockAt 9 0 0) Ex.openYesterday
    Ex.alice Ex.manual
  = (Throw (ValidationError "First punch of the day must be IN"),
     Ex.openYesterday).
Proof.
  apply (createPunch_blocked_by_open_punch_of_earlier_day Ex.cfg []
           (Ex.clockAt 9 0 0) Ex.openYesterday Ex.alice Ex.manual
           (Ex.punch 1%N IN (Ex.at_ (-6) 0 0)));
    vm_compute; reflexivity.
Defined.


(** A lower-case uid finds the tag stored in upper case, and notes of 501
    characters are rejected by the schema. *)
Example createPunch_uid_and_notes :
  (exists created db',
     PunchService.createPunch Ex.cfg
       [PunchService.mkNfcTag 7%N "AB12" 1%N true] (Ex.clockAt 9 0 0) []
       Ex.alice (PunchService.mkOptions NFC (Some "ab12") None false)
     = (Ok created, db'))
  /\ PunchService.createPunch Ex.cfg [] (Ex.clockAt 9 0 0) [] Ex.alice
       (PunchService.mkOptions Manual None
          (Some (String.concat "" (replicate 501 "x"))) false)
     = (Throw Schema.notesError, []).
Proof. split; [eexists _, _|]; vm_compute; reflexivity. Qed.

(** ** Identifiers and the stored collection *)

Section Collection.

Import PunchService.

Lemma freshId_above (db : list PunchLog) (p : PunchLog) :
  p ∈ db -> (_id p < Db.freshId db)%N.
Proof.
  unfold Db.freshId. induction db as [|q db IH]; intros Hp.
  - by apply elem_of_nil in Hp.
  - simpl. apply elem_of_cons in Hp as [->|Hp]; [lia|].
    specialize (IH Hp). lia.
Qed.

Lemma freshId_not_stored (db : list PunchLog) :
  Db.freshId db ∉ map _id db.
Proof.
  intros Hin. apply list_elem_of_fmap in Hin as (p & Hid & Hp).
  apply freshId_above in Hp. lia.
Qed.

Lemma findById_None (db : list PunchLog) (id : ObjectId) :
  id ∉ map _id db -> Db.findById db id = None.
Proof.
  intros Hnot. destruct (Db.findById db id) as [p|] eqn:Hf; [|done].
  exfalso. apply Hnot. unfold Db.findById in Hf.
  apply find_some in Hf as [Hin Hid]. apply N.eqb_eq in Hid. subst id.
  apply list_elem_of_fmap. exists p. split; [done|].
  by apply list_elem_of_In.
Qed.

Lemma findById_app (db : list PunchLog) (p : PunchLog) (id : ObjectId) :
  Db.findById (db ++ [p]) id
  = match Db.findById db id with
    | Some q => Some q
    | None => if (_id p =? id)%N then Some p else None
    end.
Proof.
  unfold Db.findById. induction db as [|q db IH]; simpl; [done|].
  destruct (_id q =? id)%N; [done | exact IH].
Qed.

Lemma deleteOne_fresh (db : list PunchLog) (p : PunchLog) :
  _id p ∉ map _id db -> deleteOne (db ++ [p]) (_id p) = db.
Proof.
  induction db as [|q db IH]; intros Hnot; simpl.
  - by rewrite N.eqb_refl.
  - destruct (_id q =? _id p)%N eqn:E.
    + apply N.eqb_eq in E. exfalso. apply Hnot. simpl. rewrite E. left.
    + f_equal. apply IH. intros H. apply Hnot. simpl. by right.
Qed.

Lemma findById_deleteOne (db : list PunchLog) (id id' : ObjectId) :
  NoDup (map _id db) ->
  Db.findById (deleteOne db id) id'
  = if decide (id' = id) then None else Db.findById db id'.
Proof.
  unfold Db.findById. induction db as [|q db IH]; intros Hnd; simpl.
  - by destruct (decide _).
  - apply NoDup_cons in Hnd as [Hq Hnd].
    destruct (_id q =? id)%N eqn:E.
    + apply N.eqb_eq in E. destruct (decide (id' = id)) as [->|Hne].
      * apply (findById_None db id). by rewrite <- E.
      * destruct (_id q =? id')%N eqn:E'; [|done].
        apply N.eqb_eq in E'. congruence.
    + simpl. destruct (_id q =? id')%N eqn:E'.
      * apply N.eqb_eq in E'. apply N.eqb_neq in E.
        destruct (decide (id' = id)); [congruence | done].
      * by apply IH.
Qed.

Lemma length_deleteOne (db : list PunchLog) (id : ObjectId) :
  is_Some (Db.findById db id) -> length db = S (length (deleteOne db id)).
Proof.
  unfold Db.findById. induction db as [|q db IH]; simpl.
  - intros [? ?]. discriminate.
  - destruct (_id q =? id)%N; [done|]. intros H. simpl. f_equal. by apply IH.
Qed.

Lemma save_ids (db : list PunchLog) (p' : PunchLog) :
  map _id (save db p') = map _id db.
Proof.
  induction db as [|q db IH]; simpl; [done|].
  destruct (_id q =? _id p')%N eqn:E; simpl; [|by rewrite IH].
  apply N.eqb_eq in E. by rewrite E.
Qed.

End Collection.

(** X17. [createPunch] changes the collection only by adding one document
    at its end, when it succeeds: on any error nothing is added. A
    collection with distinct identifiers keeps distinct identifiers. *)
Theorem createPunch_keeps_ids_distinct (cfg : Defaults)
    (tags : list PunchService.NfcTag) (clock : Clock) (db : list PunchLog)
    (user : User) (options : PunchService.Options) :
  NoDup (map _id db) ->
  match PunchService.createPunch cfg tags clock db user options with
  | (Ok created, db') =>
      db' = db ++ [PunchService.c_punch created]
      /\ NoDup (map _id db')
  | (Throw _, db') => db' = db
  end.
Proof.
  intros Hnd.
  pose proof (createPunch_inv cfg tags clock db user options) as Hinv.
  destruct (PunchService.createPunch cfg tags clock db user options)
    as [[created|e] db'].
  - destruct Hinv as (Hdb & Hid & _). split; [exact Hdb|]. subst db'.
    rewrite map_app. simpl. apply NoDup_app. split; [done|]. split.
    + intros id Hin Hnew. apply list_elem_of_singleton in Hnew.
      subst id. rewrite Hid in Hin. by apply freshId_not_stored in Hin.
    + apply NoDup_singleton.
  - by destruct Hinv as (Hdb & _).
Qed.

(** X17 at a concrete input: the OUT created after the IN of 09:00, and a
    double punch, which adds nothing. *)
Lemma createPunch_keeps_ids_distinct_witness :
  NoDup (map _id (snd (PunchService.createPunch Ex.cfg [] (Ex.clockAt 9 1 1)
                         Ex.inAtNine Ex.alice Ex.manual)))
  /\ snd (PunchService.createPunch Ex.cfg [] (Ex.clockAt 9 0 10)
            Ex.inAtNine Ex.alice Ex.manual) = Ex.inAtNine.
Proof.
  split.
  - exact (proj2 (createPunch_keeps_ids_distinct Ex.cfg [] (Ex.clockAt 9 1 1)
                    Ex.inAtNine Ex.alice Ex.manual (NoDup_singleton _))).
  - exact (createPunch_keeps_ids_distinct Ex.cfg [] (Ex.clockAt 9 0 10)
             Ex.inAtNine Ex.alice Ex.manual (NoDup_singleton _)).
Defined.

(** X18. A punch created by [createManualPunch] is found under its
    identifier, and deleting it, with a reason that the audit log accepts,
    gives back the collection as it was before; the audit entry of the
    deletion holds the punch as it was created. With a reason of more than
    1000 characters the deletion is rejected and changes nothing. *)
Theorem createManualPunch_then_deletePunch (db db' : list PunchLog)
    (audit audit' audit2 : list PunchService.AuditRecord) (now_ : Z)
    (uid : ObjectId) (punchData : PunchService.PunchData)
    (performedBy deletedBy : User) (punch : PunchLog)
    (reason : option string) :
  PunchService.createManualPunch db audit now_ uid punchData performedBy
  = (PunchService.ManualCreated punch, db', audit') ->
  Db.findById db' (_id punch) = Some punch
  /\ PunchService.deletePunch db' audit2 (_id punch) deletedBy reason
     = if Schema.maxlength 1000 reason
       then (Ok tt, db,
             audit2 ++ [PunchService.AuditDeleted (user_id deletedBy) uid
                          (_id punch) punch reason])
       else (Throw Schema.descriptionError, db', audit2).
Proof.
  unfold PunchService.createManualPunch.
  destruct (now_ <? PunchService.pd_punchTime punchData); [discriminate|].
  cbv zeta.
  destruct (negb (Schema.maxlength 500 (PunchService.pd_notes punchData)));
    [discriminate|].
  set (created := mkPunch (Db.freshId db) uid _ _ _ _ _ _ _ _ _ _ _ _ _).
  intros H.
  assert (Hcreated : punch = created /\ db' = db ++ [created]).
  { destruct (if (user_id performedBy =? uid)%N then Manual else Admin);
      try (by inversion H).
    destruct (Schema.maxlength 1000 _); by inversion H. }
  destruct Hcreated as [-> ->]. clear H.
  assert (Hfresh : _id created ∉ map _id db) by apply freshId_not_stored.
  assert (Hfind : Db.findById (db ++ [created]) (_id created) = Some created).
  { rewrite findById_app, (findById_None db _ Hfresh).
    by rewrite N.eqb_refl. }
  split; [exact Hfind|].
  unfold PunchService.deletePunch. rewrite Hfind.
  destruct (Schema.maxlength 1000 reason); [|done].
  by rewrite (deleteOne_fresh db created Hfresh).
Qed.

(** X18 at a concrete input: an administrator adds the missing OUT of
    17:00 to the IN of 09:00 and deletes it again. *)
Lemma createManualPunch_then_deletePunch_witness :
  PunchService.deletePunch
    (Ex.inAtNine
     ++ [mkPunch 2%N 1%N OUT (Ex.at_ 17 0 0) Admin None false None None None
           None None None (Ex.at_ 18 0 0) (Ex.at_ 18 0 0)])
    [] 2%N Ex.admin (Some "entered twice")
  = (Ok tt, Ex.inAtNine,
     [PunchService.AuditDeleted 9%N 1%N 2%N
        (mkPunch 2%N 1%N OUT (Ex.at_ 17 0 0) Admin None false None None None
           None None None (Ex.at_ 18 0 0) (Ex.at_ 18 0 0))
        (Some "entered twice")]).
Proof.
  apply (createManualPunch_then_deletePunch Ex.inAtNine _ []
           [PunchService.AuditCreated 9%N 1%N 2%N
              (mkPunch 2%N 1%N OUT (Ex.at_ 17 0 0) Admin None false None None
                 None None None None (Ex.at_ 18 0 0) (Ex.at_ 18 0 0))
              "Manual punch created by admin"] []
           (Ex.at_ 18 0 0) 1%N
           (PunchService.mkPunchData OUT (Ex.at_ 17 0 0) None None)
           Ex.admin Ex.admin
           (mkPunch 2%N 1%N OUT (Ex.at_ 17 0 0) Admin None false None None
              None None None None (Ex.at_ 18 0 0) (Ex.at_ 18 0 0))
           (Some "entered twice")).
  reflexivity.
Defined.

(** X19. With distinct identifiers, [deletePunch] with a reason that the
    audit log accepts removes the document with the identifier and no
    other: afterwards nothing is found under the identifier, every other
    identifier finds what it found before, and the audit log has one more
    entry, which holds the document removed. With a reason of more than
    1000 characters the audit entry is rejected before the deletion, and
    when nothing is found under the identifier the call fails as well: in
    both cases nothing changes. *)
Theorem deletePunch_removes_only_target (db db' : list PunchLog)
    (audit audit' : list PunchService.AuditRecord) (punchId : ObjectId)
    (performedBy : User) (reason : option string) (r : Result unit) :
  NoDup (map _id db) ->
  PunchService.deletePunch db audit punchId performedBy reason
  = (r, db', audit') ->
  match Db.findById db punchId with
  | Some punch =>
      if Schema.maxlength 1000 reason
      then
        r = Ok tt
        /\ Db.findById db' punchId = None
        /\ (forall id, id <> punchId ->
              Db.findById db' id = Db.findById db id)
        /\ length db = S (length db')
        /\ audit' = audit ++ [PunchService.AuditDeleted
                                (user_id performedBy) (userId punch) punchId
                                punch reason]
      else r = Throw Schema.descriptionError /\ db' = db /\ audit' = audit
  | None => r = Throw PunchNotFound /\ db' = db /\ audit' = audit
  end.
Proof.
  intros Hnd. unfold PunchService.deletePunch.
  destruct (Db.findById db punchId) as [punch|] eqn:Hfind.
  - pose proof (findById_Some_id _ _ _ Hfind) as Hid. rewrite Hid.
    destruct (Schema.maxlength 1000 reason); [|intros H; by inversion H].
    intros H. inversion H; subst r db' audit'. clear H.
    split; [done|]. split.
    { rewrite findById_deleteOne by done. by rewrite decide_True. }
    split.
    { intros id Hne. rewrite findById_deleteOne by done.
      by rewrite decide_False. }
    split; [|done].
    apply length_deleteOne. by rewrite Hfind.
  - intros H. by inversion H.
Qed.

(** X19 at a concrete input: the second punch of the sample day. *)
Lemma deletePunch_removes_only_target_witness :
  Db.findById
    (snd (fst (PunchService.deletePunch Ex.twoSessions [] 2%N Ex.admin
                 (Some "entered twice"))))
    2%N = None.
Proof.
  pose proof (deletePunch_removes_only_target Ex.twoSessions _ [] _ 2%N
                Ex.admin (Some "entered twice") _
                ltac:(apply (bool_decide_unpack _); vm_compute; exact I)
                eq_refl) as H.
  exact (proj1 (proj2 H)).
Defined.

(** X20. [editPunch] changes no identifier and no document other than the
    one edited. It succeeds only for an administrator or the owner of the
    punch; the owner, the source and the notes of the punch stay as they
    were, and one audit entry is written. A failed call changes nothing. *)
Theorem editPunch_changes_only_target (db db' : list PunchLog)
    (audit audit' : list PunchService.AuditEntry) (now_ : Z)
    (punchId : ObjectId) (editData : PunchService.EditData)
    (performedBy : User) (r : Result PunchLog) :
  PunchService.editPunch db audit now_ punchId editData performedBy
  = (r, db', audit') ->
  map _id db' = map _id db
  /\ (forall id, id <> punchId -> Db.findById db' id = Db.findById db id)
  /\ match r with
     | Ok edited_ =>
         exists punch,
           Db.findById db punchId = Some punch
           /\ (role performedBy = RoleAdmin
               \/ userId punch = user_id performedBy)
           /\ Db.findById db' punchId = Some edited_
           /\ _id edited_ = punchId
           /\ userId edited_ = userId punch
           /\ source edited_ = source punch
           /\ notes edited_ = notes punch
           /\ length audit' = S (length audit)
     | Throw _ => db' = db /\ audit' = audit
     end.
Proof.
  rewrite editPunch_eq.
  destruct (Db.findById db punchId) as [punch|] eqn:Hfind.
  - pose proof (findById_Some_id _ _ _ Hfind) as Hid.
    destruct (_ && _) eqn:Hauth.
    + intros H. by inversion H.
    + destruct (Schema.maxlength 500 (PunchService.e_editReason editData));
        [|intros H; by inversion H].
      intros H. inversion H; subst r db' audit'. clear H.
      split; [apply save_ids|]. split.
      { intros id Hne. rewrite findById_save. simpl.
        rewrite decide_False; [done | congruence]. }
      exists punch. split; [done|]. split.
      { apply andb_false_iff in Hauth as [Hrole|Howner].
        - left. by destruct (role performedBy).
        - right. apply negb_false_iff, N.eqb_eq in Howner. done. }
      split.
      { rewrite findById_save. simpl. rewrite decide_True by done.
        by rewrite Hfind. }
      repeat split; try done.
      rewrite length_app. simpl. lia.
  - intros H. by inversion H.
Qed.

(** X20 at a concrete input: the owner moves the first punch of the sample
    day to 09:05. *)
Lemma editPunch_changes_only_target_witness :
  map _id
    (snd (fst (PunchService.editPunch Ex.twoSessions [] (Ex.at_ 18 0 0) 1%N
                 (Ex.moveTo (Ex.at_ 9 5 0)) Ex.alice)))
  = map _id Ex.twoSessions.
Proof.
  exact (proj1 (editPunch_changes_only_target Ex.twoSessions _ [] _
                  (Ex.at_ 18 0 0) 1%N (Ex.moveTo (Ex.at_ 9 5 0)) Ex.alice _
                  eq_refl)).
Defined.

(** ** The pages of the history *)

Section History.

Lemma chunks {A : Type} (l : list A) (n k : nat) :
  concat (map (fun i => take n (drop (i * n) l)) (seq 0 k))
  = take (k * n) l.
Proof.
  induction k as [|k IH]; [done|].
  rewrite seq_S, map_app, concat_app, IH. simpl.
  rewrite app_nil_r, take_take_drop. f_equal. lia.
Qed.

Lemma ceil_covers (total limit : Z) :
  0 <= total -> 0 < limit ->
  total <= (total + limit - 1) / limit * limit.
Proof. intros Ht Hl. Z.to_euclidean_division_equations. nia. Qed.

(** [Math.ceil(total / limit)] for a limit of at least 1. *)
Lemma pagesOf_ceil (total : nat) (limit : Z) :
  1 <= limit ->
  PunchService.pagesOf total (Some limit)
  = JS.Num (inject_Z ((Z.of_nat total + limit - 1) / limit)).
Proof.
  intros Hl. unfold PunchService.pagesOf, JS.div.
  destruct limit as [|l|l]; [lia| |lia].
  change (Qeq_bool (inject_Z (Z.pos l)) 0) with (Z.pos l * 1 =? 0 * 1).
  replace (Z.pos l * 1 =? 0 * 1) with false by (symmetry; lia).
  unfold JS.ceil. do 2 f_equal.
  unfold Qceiling, Qfloor, Qopp, Qdiv, Qmult, Qinv, inject_Z.
  cbn [Qnum Qden].
  rewrite Pos.mul_1_l.
  Z.to_euclidean_division_equations. nia.
Qed.

Lemma sortDesc_length (l : list PunchLog) :
  length (Db.sortDesc l) = length l.
Proof.
  apply Permutation_length. unfold Db.sortDesc.
  apply merge_sort_Permutation.
Qed.

End History.

(** X21. For a driver that skips and limits as asked whenever the skip is
    not negative and the limit is at least 1, and for a [limit] of at least
    1, the pages of [getPunchHistory] partition the history: every page
    from 1 on is returned, holds at most [limit] punches, namely those that
    follow the first [(page - 1) * limit] matches, latest first, and
    reports the number of matches and [ceil(total / limit)] pages; pages 1
    to [pages], one after the other, are the punches that match the query,
    latest first, each of them once. The sorted matches are one function
    of the collection here, so punches of equal time come in the same
    order on every page. The routes pass [limit] on unchecked: with the
    limit 0, whatever the driver returns, the number of pages reported is
    not a number of pages, [Infinity] when a punch matches and [NaN] when
    none does. *)
Theorem getPunchHistory_pages_partition (cursor : PunchService.Cursor)
    (db : list PunchLog) (uid : ObjectId) (gte lte : option Z) (limit : Z) :
  (forall skip lim docs,
     0 <= skip -> 1 <= lim ->
     cursor (Some skip) (Some lim) docs
     = Ok (take (Z.to_nat lim) (drop (Z.to_nat skip) docs))) ->
  1 <= limit ->
  let onPage (page : nat) :=
    PunchService.getPunchHistory cursor db uid
      (PunchService.mkHistoryOptions gte lte (Some (Z.of_nat page))
         (Some limit)) in
  let matched :=
    Db.sortDesc
      (List.filter
         (PunchService.historyQuery uid
            (PunchService.mkHistoryOptions gte lte None None)) db) in
  let pages := Z.to_nat ((Z.of_nat (length matched) + limit - 1) / limit) in
  (forall page,
     (1 <= page)%nat ->
     exists punches_,
       onPage page
       = Ok (PunchService.mkHistory punches_ (length matched)
               (Some (Z.of_nat page)) (Some limit)
               (JS.Num (inject_Z (Z.of_nat pages))))
       /\ punches_
          = take (Z.to_nat limit)
              (drop ((page - 1) * Z.to_nat limit) matched)
       /\ (Z.of_nat (length punches_) <= limit))
  /\ concat
       (map (fun page =>
               match onPage page with
               | Ok history => PunchService.hi_punches history
               | Throw _ => []
               end)
          (seq 1 pages))
     = matched
  /\ (forall page history,
        PunchService.getPunchHistory cursor db uid
          (PunchService.mkHistoryOptions gte lte page (Some 0))
        = Ok history ->
        PunchService.hi_pages history
        = match matched with
          | [] => JS.NaN
          | _ :: _ => JS.PosInf
          end).
Proof.
  intros Hcursor Hlimit onPage matched pages.
  assert (Hpages : 0 <= (Z.of_nat (length matched) + limit - 1) / limit)
    by (apply Z.div_pos; lia).
  assert (Hpage : forall page,
             (1 <= page)%nat ->
             onPage page
             = Ok (PunchService.mkHistory
                     (take (Z.to_nat limit)
                        (drop ((page - 1) * Z.to_nat limit) matched))
                     (length matched) (Some (Z.of_nat page)) (Some limit)
                     (JS.Num (inject_Z (Z.of_nat pages))))).
  { intros page Hp. subst onPage. unfold PunchService.getPunchHistory.
    cbv zeta.
    cbn [PunchService.skipOf PunchService.h_page PunchService.h_limit].
    change (PunchService.historyQuery uid
              (PunchService.mkHistoryOptions gte lte _ _))
      with (PunchService.historyQuery uid
              (PunchService.mkHistoryOptions gte lte None None)).
    fold matched.
    rewrite Hcursor by nia.
    rewrite pagesOf_ceil by done.
    rewrite <- (sortDesc_length (List.filter _ db)). fold matched.
    subst pages. rewrite Z2Nat.id by done.
    do 4 f_equal. nia. }
  split; [|split].
  - intros page Hp. eexists. split; [by apply Hpage|]. split; [done|].
    rewrite length_take. lia.
  - rewrite (map_ext_in _ (fun page =>
                             take (Z.to_nat limit)
                               (drop ((page - 1) * Z.to_nat limit) matched))).
    2:{ intros page Hin. apply in_seq in Hin.
        rewrite Hpage by lia. done. }
    rewrite <- (fmap_S_seq 0), <- list_fmap_compose.
    rewrite (map_ext _ (fun i => take (Z.to_nat limit)
                                   (drop (i * Z.to_nat limit) matched))).
    2:{ intros i. simpl. do 3 f_equal. lia. }
    rewrite chunks. apply take_ge.
    pose proof (ceil_covers (Z.of_nat (length matched)) limit
                  ltac:(lia) ltac:(lia)) as Hc.
    subst pages. nia.
  - intros page history. unfold PunchService.getPunchHistory. cbv zeta.
    cbn [PunchService.h_limit].
    change (PunchService.historyQuery uid
              (PunchService.mkHistoryOptions gte lte page (Some 0)))
      with (PunchService.historyQuery uid
              (PunchService.mkHistoryOptions gte lte None None)).
    rewrite <- (sortDesc_length (List.filter _ db)). fold matched.
    destruct (cursor _ _ _) as [punches_|e]; [|discriminate].
    intros H. inversion H. cbn [PunchService.hi_pages].
    by destruct matched.
Qed.

(** X21 at a concrete input: the four punches of the sample day in pages
    of three, two pages: the three latest, then the first. *)
Lemma getPunchHistory_pages_partition_witness :
  PunchService.getPunchHistory Ex.cursor Ex.twoSessions 1%N
    (PunchService.mkHistoryOptions None None (Some 2) (Some 3))
  = Ok (PunchService.mkHistory [Ex.punch 1%N IN (Ex.at_ 9 0 0)] 4
          (Some 2) (Some 3) (JS.Num (inject_Z 2)))
  /\ map _id
       (concat
          (map (fun page =>
                  match PunchService.getPunchHistory Ex.cursor Ex.twoSessions
                          1%N
                          (PunchService.mkHistoryOptions None None
                             (Some (Z.of_nat page)) (Some 3)) with
                  | Ok history => PunchService.hi_punches history
                  | Throw _ => []
                  end)
             [1; 2]%nat))
     = [4; 3; 2; 1]%N.
Proof.
  pose proof (getPunchHistory_pages_partition Ex.cursor Ex.twoSessions 1%N
                None None 3) as H.
  destruct H as (Hpage & Hall & _).
  - intros skip lim docs Hs Hl. unfold Ex.cursor.
    by rewrite (proj2 (Z.leb_le 0 skip) Hs), (proj2 (Z.leb_le 1 lim) Hl).
  - lia.
  - split.
    + destruct (Hpage 2%nat ltac:(lia)) as (punches_ & Heq & Hpunches & _).
      refine (eq_trans Heq _). rewrite Hpunches. reflexivity.
    + change [1; 2]%nat
        with (seq 1
                (Z.to_nat
                   ((Z.of_nat
                       (length
                          (Db.sortDesc
                             (List.filter
                                (PunchService.historyQuery 1%N
                                   (PunchService.mkHistoryOptions None None
                                      None None)) Ex.twoSessions))) + 3 - 1)
                    / 3))).
      rewrite Hall. reflexivity.
Defined.

(** ** The orphan scan *)

Section OrphanScan.

Import PunchCleanupService.

Abbreviation sameType :=
  (fun pair : PunchLog * PunchLog =>
     bool_decide (punchType (fst pair) = punchType (snd pair))).

(** The scan after the punch [prev]: it expects the opposite type. *)
Lemma orphanStep_after (user : User) (l : list PunchLog) (prev : PunchLog)
    (acc : list Orphan) :
  map punchId
    (fst (fold_left (orphanStep user) l (acc, toggle (punchType prev))))
  = map punchId acc
    ++ map _id (map snd (List.filter sameType (Sequence.adjacent (prev :: l)))).
Proof.
  revert prev acc. induction l as [|p l IH]; intros prev acc.
  - simpl. by rewrite app_nil_r.
  - change (Sequence.adjacent (prev :: p :: l))
      with ((prev, p) :: Sequence.adjacent (p :: l)).
    cbn [fold_left List.filter fst snd].
    unfold orphanStep at 2. cbn [fst snd].
    change (match punchType p with IN => OUT | OUT => IN end)
      with (toggle (punchType p)).
    rewrite IH.
    set (rest := List.filter sameType (Sequence.adjacent (p :: l))).
    destruct (punchType prev), (punchType p); cbn [toggle];
      repeat first [ rewrite decide_True by done
                   | rewrite decide_False by done
                   | rewrite bool_decide_true by done
                   | rewrite bool_decide_false by done ];
      cbn [map snd]; try done;
      by rewrite map_app, <- app_assoc.
Qed.

Lemma adjacent_alternates (l : list PunchLog) (prev : PunchLog) :
  List.filter sameType (Sequence.adjacent (prev :: l)) = []
  <-> Sequence.alternates (toggle (punchType prev)) l.
Proof.
  revert prev. induction l as [|p l IH]; intros prev; [done|].
  change (Sequence.adjacent (prev :: p :: l))
    with ((prev, p) :: Sequence.adjacent (p :: l)).
  cbn [List.filter fst snd Sequence.alternates]. specialize (IH p).
  set (rest := List.filter sameType (Sequence.adjacent (p :: l))) in *.
  destruct (punchType prev), (punchType p); cbn [toggle] in *;
    repeat first [ rewrite bool_decide_true by done
                 | rewrite bool_decide_false by done ].
  - split; [discriminate | intros [? _]; discriminate].
  - rewrite IH. split; [by intros | by intros [_ ?]].
  - rewrite IH. split; [by intros | by intros [_ ?]].
  - split; [discriminate | intros [? _]; discriminate].
Qed.

End OrphanScan.

(** X24. The scan of [cleanupOrphanedPunches] over the punches of a user
    flags a first punch that is an OUT and every punch of the type of the
    punch right before it, in order, and no other punch; it flags nothing
    exactly when the types alternate, starting with an IN. *)
Theorem orphanStep_flags_out_of_turn (user : User) (punches_ : list PunchLog) :
  let orphans :=
    fst (fold_left (PunchCleanupService.orphanStep user) punches_ ([], IN)) in
  map PunchCleanupService.punchId orphans
  = map _id (Sequence.outOfTurn punches_)
  /\ (orphans = [] <-> Sequence.alternates IN punches_).
Proof.
  intros orphans.
  assert (Hids : map PunchCleanupService.punchId orphans
                 = map _id (Sequence.outOfTurn punches_)).
  { subst orphans. destruct punches_ as [|p l]; [done|].
    cbn [fold_left]. unfold PunchCleanupService.orphanStep at 2.
    cbn [fst snd].
    change (match punchType p with IN => OUT | OUT => IN end)
      with (toggle (punchType p)).
    rewrite orphanStep_after. unfold Sequence.outOfTurn.
    destruct (punchType p);
      [rewrite decide_True by done | rewrite decide_False by done]; done. }
  split; [exact Hids|].
  assert (Hnil : orphans = [] <-> Sequence.outOfTurn punches_ = []).
  { split; intros H.
    - rewrite H in Hids. simpl in Hids. symmetry in Hids.
      by apply map_eq_nil in Hids.
    - rewrite H in Hids. simpl in Hids. by apply map_eq_nil in Hids. }
  rewrite Hnil. destruct punches_ as [|p l]; [done|].
  unfold Sequence.outOfTurn. cbn [Sequence.alternates].
  pose proof (adjacent_alternates l p) as Halt.
  destruct (punchType p); cbn [toggle] in Halt.
  - simpl. rewrite <- Halt. split; [intros H|intros [_ H]].
    + split; [done|]. by apply map_eq_nil in H.
    + by rewrite H.
  - split; [discriminate | intros [? _]; discriminate].
Qed.

(** ** Jobs that only read *)

Section ReadOnly.

Import PunchCleanupService.

Lemma readOnly_ret {A : Type} (a : A) : readOnly (mret a).
Proof. intros w. done. Qed.

Lemma readOnly_throw {A : Type} (e : Error) : readOnly (throw (A := A) e).
Proof. intros w. done. Qed.

Lemma readOnly_log (entry : LogEntry) : readOnly (log entry).
Proof. intros w. done. Qed.

Lemma readOnly_find (F : Faults) (uid : ObjectId) (start end_ : Z) :
  readOnly (find F uid start end_).
Proof. intros w. unfold find. by destruct (findFails F uid). Qed.

Lemma readOnly_bind {A B : Type} (m : M A) (f : A -> M B) :
  readOnly m -> (forall a, readOnly (f a)) -> readOnly (m ≫= f).
Proof.
  intros Hm Hf w. unfold mbind, M_bind. specialize (Hm w).
  destruct (m w) as [[a|e] w1]; simpl in *; [|done].
  destruct Hm as [Hm1 Hm2]. destruct (Hf a w1) as [Hp Ho].
  split; congruence.
Qed.

Lemma readOnly_tryCatch {A : Type} (m : M A) (h : Error -> M A) :
  readOnly m -> (forall e, readOnly (h e)) -> readOnly (tryCatch m h).
Proof.
  intros Hm Hh w. unfold tryCatch. specialize (Hm w).
  destruct (m w) as [[a|e] w1]; simpl in *; [done|].
  destruct Hm as [Hm1 Hm2]. destruct (Hh e w1) as [Hp Ho].
  split; congruence.
Qed.

Lemma readOnly_forOf {A B : Type} (body : B -> A -> M B) (l : list A) :
  (forall acc x, readOnly (body acc x)) ->
  forall acc, readOnly (forOf body l acc).
Proof.
  intros Hbody. induction l as [|x l IH]; intros acc; simpl.
  - apply readOnly_ret.
  - apply readOnly_bind; [apply Hbody | exact IH].
Qed.

Lemma readOnly_rethrow {A : Type} (message : string) (e : Error) :
  readOnly (log (LogError message e);; throw (A := A) e).
Proof.
  apply readOnly_bind; [apply readOnly_log | intros _; apply readOnly_throw].
Qed.

Lemma readOnly_openPunchOf (F : Faults) (cfg : Defaults)
    (clockOf : string -> Clock) (acc : list OpenPunch) (user : User) :
  readOnly (openPunchOf F cfg clockOf acc user).
Proof.
  unfold openPunchOf. cbv zeta.
  apply readOnly_bind; [apply readOnly_find|]. intros todayPunches.
  destruct (last todayPunches) as [p|]; [|apply readOnly_ret].
  destruct (punchType p); apply readOnly_ret.
Qed.

Lemma readOnly_oddPunchesOf (F : Faults) (cfg : Defaults)
    (clockOf : string -> Clock) (acc : list OddPunches) (user : User) :
  readOnly (oddPunchesOf F cfg clockOf acc user).
Proof.
  unfold oddPunchesOf. cbv zeta.
  apply readOnly_bind; [apply readOnly_find|]. intros todayPunches.
  destruct (_ && _); apply readOnly_ret.
Qed.

Lemma readOnly_scanUser (F : Faults) (cfg : Defaults)
    (clockOf : string -> Clock) (acc : list Orphan) (user : User) :
  readOnly (scanUser F cfg clockOf acc user).
Proof.
  unfold scanUser. cbv zeta.
  apply readOnly_bind; [apply readOnly_find|]. intros ?. apply readOnly_ret.
Qed.

Lemma readOnly_findUsersWithOpenPunches (F : Faults) (cfg : Defaults)
    (clockOf : string -> Clock) (users : list User) :
  readOnly (findUsersWithOpenPunches F cfg clockOf users).
Proof.
  unfold findUsersWithOpenPunches.
  apply readOnly_tryCatch; [|intros e; apply readOnly_rethrow].
  apply readOnly_forOf. intros acc user. apply readOnly_openPunchOf.
Qed.

Lemma readOnly_dryRun (F : Faults) (cfg : Defaults)
    (clockOf : string -> Clock) (users : list User) :
  readOnly (cleanupOrphanedPunches F cfg clockOf users true).
Proof.
  unfold cleanupOrphanedPunches.
  apply readOnly_tryCatch; [|intros e; apply readOnly_rethrow].
  apply readOnly_bind; [apply readOnly_log|]. intros _.
  apply readOnly_bind.
  { apply readOnly_forOf. intros acc user. apply readOnly_scanUser. }
  intros orphans. cbn [negb andb].
  apply readOnly_bind; [apply readOnly_ret|]. intros _.
  apply readOnly_bind; [apply readOnly_log|]. intros _. apply readOnly_ret.
Qed.

Lemma readOnly_remind (F : Faults) (users : list User) (sent : nat)
    (userData : OpenPunch) :
  readOnly (remind F users sent userData).
Proof.
  unfold remind. destruct (Qle_bool 8 _); [|apply readOnly_ret].
  apply readOnly_tryCatch.
  - apply readOnly_bind.
    { intros w. unfold sendPunchOutReminder.
      destruct (List.find _ users) as [u|]; [|done].
      by destruct (mailFails F (user_id u)). }
    intros _. apply readOnly_bind; [apply readOnly_log|]. intros _.
    apply readOnly_ret.
  - intros e. apply readOnly_bind; [apply readOnly_log|]. intros _.
    apply readOnly_ret.
Qed.

(** The scan of the users reads the collection only: on two worlds with
    the same collection it returns the same. *)
Lemma scan_same (F : Faults) (cfg : Defaults) (clockOf : string -> Clock)
    (users : list User) (acc : list Orphan) (w1 w2 : World) :
  punches w1 = punches w2 ->
  forOf (scanUser F cfg clockOf) users acc w1
  = (fst (forOf (scanUser F cfg clockOf) users acc w2), w1).
Proof.
  intros Hsame. revert acc. induction users as [|user users IH]; intros acc.
  - done.
  - simpl. unfold mbind, M_bind. unfold scanUser at 1 3. cbv zeta.
    unfold mbind, M_bind, find. rewrite Hsame.
    destruct (findFails F (user_id user)); [done|]. simpl. apply IH.
Qed.

End ReadOnly.

(** X23. Whenever a run of [cleanupOrphanedPunches] that marks the orphans
    completes, the dry run on the same collection completes as well and
    reports the same orphans; the dry run changes neither the collection
    nor the mail sent. *)
Theorem cleanupOrphanedPunches_dry_run_predicts
    (F : PunchCleanupService.Faults) (cfg : Defaults)
    (clockOf : string -> Clock) (users : list User)
    (w w' : PunchCleanupService.World)
    (real : PunchCleanupService.CleanupResult) :
  PunchCleanupService.cleanupOrphanedPunches F cfg clockOf users false w
  = (Ok real, w') ->
  exists dry w1,
    PunchCleanupService.cleanupOrphanedPunches F cfg clockOf users true w
    = (Ok dry, w1)
    /\ PunchCleanupService.orphanedPunches dry
       = PunchCleanupService.orphanedPunches real
    /\ PunchCleanupService.r_dryRun dry = true
    /\ PunchCleanupService.punches w1 = PunchCleanupService.punches w
    /\ PunchCleanupService.outbox w1 = PunchCleanupService.outbox w.
Proof.
  intros Hreal.
  pose proof (readOnly_dryRun F cfg clockOf users w) as [Hp Ho].
  destruct (PunchCleanupService.cleanupOrphanedPunches F cfg clockOf users
              true w) as [rdry w1] eqn:Hdry.
  simpl in Hp, Ho.
  enough (Hok : exists dry,
             rdry = Ok dry
             /\ PunchCleanupService.orphanedPunches dry
                = PunchCleanupService.orphanedPunches real
             /\ PunchCleanupService.r_dryRun dry = true).
  { destruct Hok as (dry & -> & ? & ?). by exists dry, w1. }
  unfold PunchCleanupService.cleanupOrphanedPunches,
    PunchCleanupService.tryCatch in Hreal, Hdry.
  unfold mbind, PunchCleanupService.M_bind in Hreal, Hdry.
  unfold PunchCleanupService.log at 1 in Hreal.
  unfold PunchCleanupService.log at 1 in Hdry.
  cbv beta iota in Hreal, Hdry.
  match type of Hreal with
  | context [PunchCleanupService.forOf _ users [] ?W] => set (wr := W) in *
  end.
  match type of Hdry with
  | context [PunchCleanupService.forOf _ users [] ?W] =>
      rewrite (scan_same F cfg clockOf users [] W wr eq_refl) in Hdry
  end.
  destruct (PunchCleanupService.forOf
              (PunchCleanupService.scanUser F cfg clockOf) users [] wr)
    as [[orphans|e] wx] eqn:Hscan; cbn [fst] in Hdry.
  - cbn [negb andb] in Hdry.
    unfold mret, PunchCleanupService.M_ret, PunchCleanupService.log in Hdry.
    inversion Hdry; subst rdry w1. clear Hdry. eexists. split; [done|].
    cbn [PunchCleanupService.orphanedPunches PunchCleanupService.r_dryRun].
    split; [|done].
    destruct (negb false && _).
    + destruct (PunchCleanupService.forOf _ orphans tt wx) as [[[]|e] wy];
        [|unfold PunchCleanupService.log, PunchCleanupService.throw in Hreal;
          discriminate Hreal].
      unfold mret, PunchCleanupService.M_ret, PunchCleanupService.log
        in Hreal.
      by inversion Hreal.
    + unfold mret, PunchCleanupService.M_ret, PunchCleanupService.log
        in Hreal.
      by inversion Hreal.
  - unfold PunchCleanupService.log, PunchCleanupService.throw in Hreal.
    discriminate Hreal.
Qed.

(** X23 at a concrete input: the lone OUT of user 1. *)
Lemma cleanupOrphanedPunches_dry_run_predicts_witness :
  exists dry w1,
    PunchCleanupService.cleanupOrphanedPunches Ex.noFaults Ex.cfg
      Ex.atMidnightJob [Ex.alice] true Ex.loneOut = (Ok dry, w1)
    /\ PunchCleanupService.orphanedPunches dry = [Ex.loneOutEntry]
    /\ PunchCleanupService.r_dryRun dry = true
    /\ PunchCleanupService.punches w1
       = PunchCleanupService.punches Ex.loneOut
    /\ PunchCleanupService.outbox w1 = PunchCleanupService.outbox Ex.loneOut.
Proof.
  apply (cleanupOrphanedPunches_dry_run_predicts Ex.noFaults Ex.cfg
           Ex.atMidnightJob [Ex.alice] Ex.loneOut Ex.loneOutMarked
           (PunchCleanupService.mkCleanupResult [Ex.loneOutEntry] false)).
  vm_compute. reflexivity.
Defined.

(** X26. The jobs that report never write to the collection, whatever
    fails: [findUsersWithOpenPunches], the dry run of
    [cleanupOrphanedPunches] and [getPunchHealthReport] leave the
    collection and the mail sent as they are, and [sendPunchOutReminders]
    leaves the collection as it is. *)
Theorem reporting_jobs_read_only (F : PunchCleanupService.Faults)
    (cfg : Defaults) (clockOf : string -> Clock) (users : list User) :
  PunchCleanupService.readOnly
    (PunchCleanupService.findUsersWithOpenPunches F cfg clockOf users)
  /\ PunchCleanupService.readOnly
       (PunchCleanupService.cleanupOrphanedPunches F cfg clockOf users true)
  /\ PunchCleanupService.readOnly
       (PunchCleanupService.getPunchHealthReport F cfg clockOf users)
  /\ forall w,
       PunchCleanupService.punches
         (snd (PunchCleanupService.sendPunchOutReminders F cfg clockOf users w))
       = PunchCleanupService.punches w.
Proof.
  split; [apply readOnly_findUsersWithOpenPunches|].
  split; [apply readOnly_dryRun|]. split.
  - unfold PunchCleanupService.getPunchHealthReport.
    apply readOnly_tryCatch; [|intros e; apply readOnly_rethrow].
    apply readOnly_bind; [apply readOnly_findUsersWithOpenPunches|].
    intros open. apply readOnly_bind; [apply readOnly_dryRun|].
    intros orphaned. apply readOnly_bind; [|intros ?; apply readOnly_ret].
    apply readOnly_forOf. intros acc user. apply readOnly_oddPunchesOf.
  - assert (Hro : PunchCleanupService.readOnly
                    (PunchCleanupService.sendPunchOutReminders F cfg clockOf
                       users)).
    { unfold PunchCleanupService.sendPunchOutReminders.
      apply readOnly_tryCatch; [|intros e; apply readOnly_rethrow].
      apply readOnly_bind; [apply readOnly_log|]. intros _.
      apply readOnly_bind; [apply readOnly_findUsersWithOpenPunches|].
      intros open. apply readOnly_bind.
      { apply readOnly_forOf. intros acc x. apply readOnly_remind. }
      intros sent. apply readOnly_bind; [apply readOnly_log|]. intros _.
      apply readOnly_ret. }
    intros w. apply Hro.
Qed.

(** ** What the auto-close job writes *)

Section AutoClose.

Import PunchCleanupService.

Variables (F : Faults) (cfg : Defaults) (clockOf : string -> Clock).

Lemma autoClosed_more (users more : list User) (p : PunchLog) :
  autoClosed cfg clockOf users p -> autoClosed cfg clockOf (users ++ more) p.
Proof.
  intros (? & ? & ? & ? & user & Hin & ? & ?). repeat split; try done.
  exists user. split; [|done]. apply elem_of_app. by left.
Qed.

(** One turn of the loop over the users: it adds nothing or one OUT for
    the user, and queues one notification for each punch it adds. *)
Lemma autoCloseUser_adds (acc : nat * list Notification) (user : User)
    (w w' : World) (r : Result (nat * list Notification)) :
  autoCloseUser F cfg clockOf acc user w = (r, w') ->
  outbox w' = outbox w
  /\ exists added,
       punches w' = punches w ++ added
       /\ Forall (autoClosed cfg clockOf [user]) added
       /\ match r with
          | Ok acc' =>
              fst acc' = (fst acc + length added)%nat
              /\ length (snd acc') = (length (snd acc) + length added)%nat
          | Throw _ => added = []
          end.
Proof.
  unfold autoCloseUser. cbv zeta. unfold mbind, M_bind, find.
  destruct (findFails F (user_id user)).
  { intros H. inversion H; subst. split; [done|]. exists [].
    by rewrite app_nil_r. }
  cbv beta iota.
  destruct (last _) as [lastPunch|].
  2:{ intros H. inversion H; subst. split; [done|]. exists [].
      rewrite app_nil_r. simpl. repeat split; try done; lia. }
  destruct (punchType lastPunch).
  2:{ intros H. inversion H; subst. split; [done|]. exists [].
      rewrite app_nil_r. simpl. repeat split; try done; lia. }
  unfold create. destruct (createFails F (user_id user)).
  { intros H. inversion H; subst. split; [done|]. exists [].
    by rewrite app_nil_r. }
  cbv beta iota. unfold log, mret, M_ret. cbn [punches logs outbox].
  intros H. inversion H; subst. clear H. cbn [punches outbox fst snd].
  split; [done|]. eexists. split; [reflexivity|]. split.
  - apply Forall_singleton. repeat split; try done.
    exists user. split; [|done]. apply list_elem_of_singleton. done.
  - rewrite length_app. simpl. split; lia.
Qed.

(** The loop over the users. *)
Lemma autoClose_loop_adds (users : list User) (acc : nat * list Notification)
    (w w' : World) (r : Result (nat * list Notification)) :
  forOf (autoCloseUser F cfg clockOf) users acc w = (r, w') ->
  outbox w' = outbox w
  /\ exists added,
       punches w' = punches w ++ added
       /\ Forall (autoClosed cfg clockOf users) added
       /\ match r with
          | Ok acc' =>
              fst acc' = (fst acc + length added)%nat
              /\ length (snd acc') = (length (snd acc) + length added)%nat
          | Throw _ => True
          end.
Proof.
  revert acc w. induction users as [|user users IH]; intros acc w.
  - simpl. intros H. inversion H; subst. split; [done|]. exists [].
    rewrite app_nil_r. simpl. repeat split; try done; lia.
  - simpl. intros H. apply bind_inv in H as [(acc1 & w1 & H1 & H2)|(e & H1 & ->)].
    + apply autoCloseUser_adds in H1 as (Ho1 & added1 & Hp1 & Hf1 & Hc1 & Hn1).
      apply IH in H2 as (Ho2 & added2 & Hp2 & Hf2 & Hr).
      split; [congruence|]. exists (added1 ++ added2). split.
      { rewrite Hp2, Hp1. by rewrite app_assoc. }
      split.
      { apply Forall_app. split.
        - eapply Forall_impl; [exact Hf1|]. intros p Hp.
          by apply (autoClosed_more [user] users).
        - eapply Forall_impl; [exact Hf2|].
          intros p (? & ? & ? & ? & u & Hin & ? & ?). repeat split; try done.
          exists u. split; [|done]. by right. }
      destruct r as [acc'|]; [|done]. destruct Hr as [Hc2 Hn2].
      rewrite length_app. split; lia.
    + apply autoCloseUser_adds in H1 as (Ho1 & added1 & Hp1 & Hf1 & ->).
      split; [done|]. exists []. by rewrite Hp1.
Qed.

(** The loop over the notifications sends at most one mail for each. *)
Lemma notify_step (n : Notification) (w : World) :
  exists w1,
    notify F tt n w = (Ok tt, w1)
    /\ (length (outbox w1) <= S (length (outbox w)))%nat.
Proof.
  unfold notify, tryCatch, sendMissedPunchOutAlert, log.
  destruct (mailFails F (user_id (n_user n))); eexists;
    (split; [reflexivity|]); cbn [outbox]; rewrite ?length_app; simpl; lia.
Qed.

Lemma notify_loop_outbox (ns : list Notification) (w : World) :
  (length (outbox (snd (forOf (notify F) ns tt w)))
   <= length (outbox w) + length ns)%nat.
Proof.
  revert w. induction ns as [|n ns IH]; intros w; [simpl; lia|].
  cbn [forOf]. destruct (notify_step n w) as (w1 & H1 & Hl).
  rewrite (bind_Ok _ _ _ _ _ H1). specialize (IH w1). simpl. lia.
Qed.

End AutoClose.

(** X22. Whatever fails, [autoCloseOpenPunches] changes the collection only
    by adding punches at its end, each of them an OUT of source Admin for
    one of the users, one minute before the end of that user's day, with
    the note of the job. When the job completes, [closedCount] is the
    number of punches added and [notificationsSent] is the same number,
    whether the mails went through or not, and at most that many mails
    were sent. *)
Theorem autoCloseOpenPunches_only_adds_closing_punches
    (F : PunchCleanupService.Faults) (cfg : Defaults)
    (clockOf : string -> Clock) (users : list User)
    (w w' : PunchCleanupService.World)
    (r : Result PunchCleanupService.AutoCloseResult) :
  PunchCleanupService.autoCloseOpenPunches F cfg clockOf users w = (r, w') ->
  exists added,
    PunchCleanupService.punches w' = PunchCleanupService.punches w ++ added
    /\ Forall (PunchCleanupService.autoClosed cfg clockOf users) added
    /\ match r with
       | Ok result =>
           PunchCleanupService.closedCount result = length added
           /\ PunchCleanupService.notificationsSent result = length added
           /\ (length (PunchCleanupService.outbox w')
               <= length (PunchCleanupService.outbox w) + length added)%nat
       | Throw _ => True
       end.
Proof.
  intros Hrun. unfold PunchCleanupService.autoCloseOpenPunches in Hrun.
  unfold PunchCleanupService.tryCatch in Hrun.
  unfold mbind, PunchCleanupService.M_bind in Hrun.
  unfold PunchCleanupService.log at 1 in Hrun. cbv beta iota in Hrun.
  match type of Hrun with
  | context [PunchCleanupService.forOf _ users (0%nat, []) ?W] =>
      set (w0 := W) in *
  end.
  destruct (PunchCleanupService.forOf
              (PunchCleanupService.autoCloseUser F cfg clockOf) users
              (0%nat, []) w0) as [[acc|e] w1] eqn:Hloop;
    apply autoClose_loop_adds in Hloop as (Ho & added & Hp & Hf & Hr).
  - destruct Hr as [Hc Hn]. simpl in Hc, Hn.
    pose proof (notify_loop F (snd acc) w1) as (w2 & Hnotify & Hp2).
    pose proof (notify_loop_outbox F (snd acc) w1) as Hout.
    rewrite Hnotify in Hrun, Hout. simpl in Hout.
    unfold PunchCleanupService.log, mret, PunchCleanupService.M_ret in Hrun.
    inversion Hrun; subst r w'. clear Hrun.
    cbn [PunchCleanupService.punches PunchCleanupService.outbox
         PunchCleanupService.closedCount
         PunchCleanupService.notificationsSent].
    exists added. split; [by rewrite Hp2, Hp|]. split; [done|].
    split; [done|]. split; [done|]. rewrite Ho in Hout. simpl in Hout. lia.
  - unfold PunchCleanupService.log, PunchCleanupService.throw in Hrun.
    inversion Hrun; subst r w'. clear Hrun.
    cbn [PunchCleanupService.punches]. exists added. by rewrite Hp.
Qed.

(** X22 at a concrete input: three users who never punched out. *)
Lemma autoCloseOpenPunches_only_adds_closing_punches_witness :
  exists added,
    PunchCleanupService.punches
      (snd (PunchCleanupService.autoCloseOpenPunches Ex.noFaults Ex.cfg
              Ex.atMidnightJob [Ex.alice; Ex.carol; Ex.dave] Ex.threeOpen))
    = PunchCleanupService.punches Ex.threeOpen ++ added
    /\ Forall (PunchCleanupService.autoClosed Ex.cfg Ex.atMidnightJob
                 [Ex.alice; Ex.carol; Ex.dave]) added.
Proof.
  destruct (autoCloseOpenPunches_only_adds_closing_punches Ex.noFaults Ex.cfg
              Ex.atMidnightJob [Ex.alice; Ex.carol; Ex.dave] Ex.threeOpen
              _ _ (surjective_pairing _)) as (added & Hp & Hf & _).
  exists added. split; [exact Hp | exact Hf].
Defined.

(** ** The punch-out reminders *)

Section Reminders.

Import PunchCleanupService.

Lemma Qfloor_at_least (x : Q) (k : Z) :
  k <= Qfloor x <-> (inject_Z k <= x)%Q.
Proof.
  split; intros H.
  - pose proof (Qfloor_le x) as Hf. rewrite Zle_Qle in H. lra.
  - rewrite <- (Qfloor_Z k). by apply Qfloor_resp_le.
Qed.

(** The hours rounded to one decimal reach 8 from 7.95 hours on. *)
Lemma rounded_hours_reach_8 (a b : Z) :
  Qle_bool 8 (JS.round1 (JS.diffHoursExact a b)) = (28620000 <=? a - b).
Proof.
  apply eq_true_iff_eq. rewrite Qle_bool_iff, Z.leb_le.
  unfold JS.round1, JS.roundQ.
  assert (H80 : (8 <= inject_Z (Qfloor (JS.diffHoursExact a b * 10 + (1 # 2)))
                      / 10)%Q
                <-> 80 <= Qfloor (JS.diffHoursExact a b * 10 + (1 # 2))).
  { rewrite Zle_Qle. change (inject_Z 80) with 80%Q.
    split; intros H.
    - apply (Qmult_le_r _ _ 10) in H; [|lra]. by field_simplify in H.
    - apply Qle_shift_div_l; lra. }
  rewrite H80, Qfloor_at_least.
  unfold JS.diffHoursExact, Qle, Qplus, Qmult, inject_Z. simpl. lia.
Qed.

End Reminders.

(** X25. For a user whose last punch of today is an IN, and for whom the
    query and the mail go through, [sendPunchOutReminders] sends the
    reminder exactly when at least 7 hours and 57 minutes, 28 620 000 ms,
    have passed since that IN: the hours are rounded to one decimal before
    they are compared with 8. *)
Theorem sendPunchOutReminders_from_7h57 (F : PunchCleanupService.Faults)
    (cfg : Defaults) (clockOf : string -> Clock) (user : User)
    (w : PunchCleanupService.World) (lastPunch : PunchLog) :
  PunchCleanupService.findFails F (user_id user) = false ->
  PunchCleanupService.mailFails F (user_id user) = false ->
  last (Db.findInRange (PunchCleanupService.punches w) (user_id user)
          (startOfDay (clockOf (TimeEngine.getTimezone cfg user)))
          (endOfDay (clockOf (TimeEngine.getTimezone cfg user))))
  = Some lastPunch ->
  punchType lastPunch = IN ->
  fst (PunchCleanupService.sendPunchOutReminders F cfg clockOf [user] w)
  = Ok (if 28620000
           <=? now (clockOf (TimeEngine.getTimezone cfg user))
               - punchTime lastPunch
        then 1%nat else 0%nat).
Proof.
  intros Hfind Hmail Hlast Hin.
  unfold PunchCleanupService.sendPunchOutReminders,
    PunchCleanupService.findUsersWithOpenPunches,
    PunchCleanupService.tryCatch.
  unfold mbind, PunchCleanupService.M_bind.
  unfold PunchCleanupService.log at 1. cbv beta iota.
  cbn [PunchCleanupService.forOf].
  unfold mbind, PunchCleanupService.M_bind.
  unfold PunchCleanupService.openPunchOf. cbv zeta.
  unfold mbind, PunchCleanupService.M_bind, PunchCleanupService.find.
  rewrite Hfind. cbv beta iota. cbn [PunchCleanupService.punches].
  rewrite Hlast, Hin.
  unfold mret, PunchCleanupService.M_ret. cbv beta iota.
  cbn [app PunchCleanupService.forOf].
  unfold mbind, PunchCleanupService.M_bind.
  unfold PunchCleanupService.remind.
  cbn [PunchCleanupService.op_hoursSinceIn PunchCleanupService.op_userId
       PunchCleanupService.op_punchInTime PunchCleanupService.op_email].
  rewrite rounded_hours_reach_8.
  destruct (28620000 <=? _).
  - unfold PunchCleanupService.tryCatch, mbind, PunchCleanupService.M_bind,
      PunchCleanupService.sendPunchOutReminder.
    cbn [List.find]. rewrite N.eqb_refl, Hmail. reflexivity.
  - reflexivity.
Qed.

(** X25 at a concrete input: an IN at 09:00, seen at 16:57 and at 16:56. *)
Lemma sendPunchOutReminders_from_7h57_witness :
  fst (PunchCleanupService.sendPunchOutReminders Ex.noFaults Ex.cfg
         (fun _ => Ex.clockAt 16 57 0) [Ex.alice]
         (PunchCleanupService.mkWorld Ex.inAtNine [] [])) = Ok 1%nat
  /\ fst (PunchCleanupService.sendPunchOutReminders Ex.noFaults Ex.cfg
            (fun _ => Ex.clockAt 16 56 0) [Ex.alice]
            (PunchCleanupService.mkWorld Ex.inAtNine [] [])) = Ok 0%nat.
Proof.
  split.
  - apply (sendPunchOutReminders_from_7h57 Ex.noFaults Ex.cfg
             (fun _ => Ex.clockAt 16 57 0) Ex.alice
             (PunchCleanupService.mkWorld Ex.inAtNine [] [])
             (Ex.punch 1%N IN (Ex.at_ 9 0 0))); reflexivity.
  - apply (sendPunchOutReminders_from_7h57 Ex.noFaults Ex.cfg
             (fun _ => Ex.clockAt 16 56 0) Ex.alice
             (PunchCleanupService.mkWorld Ex.inAtNine [] [])
             (Ex.punch 1%N IN (Ex.at_ 9 0 0))); reflexivity.
Defined.

(** ** Breaks *)

Section Breaks.

Import BreakTimeService.

Abbreviation sumZ := (fold_right Z.add 0).

Lemma fold_left_durations (breaks : list Break) (acc : Z) :
  fold_left (fun sum br => sum + br_durationMinutes br) breaks acc
  = acc + sumZ (map br_durationMinutes breaks).
Proof.
  revert acc. induction breaks as [|br breaks IH]; intros acc; simpl; [lia|].
  rewrite IH. lia.
Qed.

Lemma breakAt_middle (pre : list PunchLog) (a b : PunchLog)
    (l : list PunchLog) :
  sumZ (map br_durationMinutes (breakAt (pre ++ a :: b :: l) (length pre)))
  = Sequence.pause (a, b).
Proof.
  unfold breakAt. rewrite list_lookup_middle by done.
  replace (pre ++ a :: b :: l) with ((pre ++ [a]) ++ b :: l)
    by (by rewrite <- app_assoc).
  rewrite list_lookup_middle by (rewrite length_app; simpl; lia).
  unfold Sequence.pause. simpl fst; simpl snd.
  destruct (punchType a), (punchType b); simpl; lia.
Qed.

(** The minutes of the breaks are the pauses of the pairs of neighbours. *)
Lemma breaks_adjacent (pre l : list PunchLog) :
  sumZ (map br_durationMinutes
          (flat_map (breakAt (pre ++ l)) (seq (length pre) (length l - 1))))
  = sumZ (map Sequence.pause (Sequence.adjacent l)).
Proof.
  revert pre. induction l as [|a l IH]; intros pre; [done|].
  destruct l as [|b l]; [done|].
  change (Sequence.adjacent (a :: b :: l))
    with ((a, b) :: Sequence.adjacent (b :: l)).
  replace (length (a :: b :: l) - 1)%nat with (S (length (b :: l) - 1))
    by (simpl; lia).
  cbn [seq flat_map]. rewrite map_app.
  assert (Happ : forall x y : list Z, sumZ (x ++ y) = sumZ x + sumZ y).
  { intros x y. induction x as [|z x IHx]; simpl; lia. }
  rewrite Happ, breakAt_middle. cbn [map fold_right]. f_equal.
  specialize (IH (pre ++ [a])).
  rewrite <- app_assoc, length_app in IH. simpl in IH.
  replace (S (length pre)) with (length pre + 1)%nat by lia.
  simpl. rewrite <- IH. do 3 f_equal; lia.
Qed.

Lemma pause_bounds (a b : PunchLog) :
  Db.earlier a b ->
  0 <= Sequence.pause (a, b)
  /\ (inject_Z (Sequence.pause (a, b)) + Sequence.session (a, b)
      <= Sequence.gap (a, b))%Q.
Proof.
  intros Hle. pose proof (session_bounds a b Hle) as [Hs0 Hsg].
  unfold Sequence.pause, Sequence.session in *. simpl fst in *.
  simpl snd in *. unfold Db.earlier in Hle.
  destruct (punchType a), (punchType b);
    try (split; [lia | change (inject_Z 0) with 0%Q; lra]).
  split.
  - unfold JS.diffMinutes. Z.to_euclidean_division_equations. lia.
  - unfold JS.diffMinutes, Sequence.gap, JS.diffMinutesExact, Qle, Qplus,
      inject_Z. simpl.
    Z.to_euclidean_division_equations. lia.
Qed.

Lemma ascending_pauses (l : list PunchLog) (a : PunchLog) :
  Sequence.ascending (a :: l) ->
  0 <= sumZ (map Sequence.pause (Sequence.adjacent (a :: l)))
  /\ (inject_Z (sumZ (map Sequence.pause (Sequence.adjacent (a :: l))))
      + JS.sum (map Sequence.session (Sequence.adjacent (a :: l)))
      <= JS.diffMinutesExact (punchTime (List.last l a)) (punchTime a))%Q.
Proof.
  unfold Sequence.ascending. revert a.
  induction l as [|b l IH]; intros a Hs.
  - unfold JS.sum, JS.diffMinutesExact, Qle. simpl. lia.
  - apply Sorted_inv in Hs as [Hs Hhd]. apply HdRel_inv in Hhd.
    destruct (IH b Hs) as [H0 Hle]. rewrite last_cons_default.
    change (Sequence.adjacent (a :: b :: l))
      with ((a, b) :: Sequence.adjacent (b :: l)).
    pose proof (pause_bounds a b Hhd) as [Hp0 Hpg].
    assert (Hsplit :
      (JS.diffMinutesExact (punchTime (List.last l b)) (punchTime a)
       == Sequence.gap (a, b)
          + JS.diffMinutesExact (punchTime (List.last l b)) (punchTime b))%Q).
    { unfold Sequence.gap, JS.diffMinutesExact, Qeq, Qplus. simpl. lia. }
    cbn [map fold_right]. split; [lia|].
    rewrite inject_Z_plus. unfold JS.sum in *. cbn [map fold_right].
    rewrite Hsplit. lra.
Qed.

(** The punch that [checkLongBreak] reads, the head of the punches of today
    latest first, is a punch of the user of today, and no punch of the user
    of today is later. *)
Lemma latest_today (db : list PunchLog) (clock : Clock) (uid : ObjectId)
    (p : PunchLog) :
  head (Db.sortDesc
          (List.filter (Db.inRange uid (startOfDay clock) (endOfDay clock))
             db)) = Some p ->
  p ∈ db
  /\ userId p = uid
  /\ startOfDay clock <= punchTime p <= endOfDay clock
  /\ forall q, q ∈ db -> userId q = uid ->
       startOfDay clock <= punchTime q <= endOfDay clock ->
       punchTime q <= punchTime p.
Proof.
  set (today := List.filter _ db). intros Hhead.
  assert (Hperm : Db.sortDesc today ≡ₚ today)
    by apply merge_sort_Permutation.
  assert (Hsorted : StronglySorted Db.later (Db.sortDesc today))
    by apply (StronglySorted_merge_sort Db.later).
  destruct (Db.sortDesc today) as [|x l]; [discriminate|].
  simpl in Hhead. inversion Hhead; subst x. clear Hhead.
  assert (Hp : p ∈ today) by (rewrite <- Hperm; left).
  apply list_elem_of_In, filter_In in Hp as [Hdb Hr].
  unfold Db.inRange in Hr.
  apply andb_true_iff in Hr as [Hr He]. apply andb_true_iff in Hr as [Hu Hs].
  apply N.eqb_eq in Hu. apply Z.leb_le in Hs, He.
  split; [by apply list_elem_of_In|]. split; [done|]. split; [lia|].
  intros q Hq Hqu Hqr.
  assert (Hqt : q ∈ today).
  { apply list_elem_of_In, filter_In. split; [by apply list_elem_of_In|].
    unfold Db.inRange. apply N.eqb_eq in Hqu. rewrite Hqu. simpl.
    apply andb_true_iff. split; apply Z.leb_le; lia. }
  rewrite <- Hperm in Hqt. apply elem_of_cons in Hqt as [->|Hqt]; [lia|].
  apply StronglySorted_inv in Hsorted as [_ Hall].
  rewrite Forall_forall in Hall. exact (Hall q Hqt).
Qed.

(** With a punch of the user of today in the collection, there is a punch
    for [checkLongBreak] to read. *)
Lemma latest_today_exists (db : list PunchLog) (clock : Clock)
    (uid : ObjectId) (q : PunchLog) :
  q ∈ db -> userId q = uid ->
  startOfDay clock <= punchTime q <= endOfDay clock ->
  exists p,
    head (Db.sortDesc
            (List.filter (Db.inRange uid (startOfDay clock) (endOfDay clock))
               db)) = Some p.
Proof.
  set (today := List.filter _ db). intros Hq Hqu Hqr.
  assert (Hqt : q ∈ today).
  { apply list_elem_of_In, filter_In. split; [by apply list_elem_of_In|].
    unfold Db.inRange. apply N.eqb_eq in Hqu. rewrite Hqu. simpl.
    apply andb_true_iff. split; apply Z.leb_le; lia. }
  assert (Hperm : Db.sortDesc today ≡ₚ today)
    by apply merge_sort_Permutation.
  rewrite <- Hperm in Hqt.
  destruct (Db.sortDesc today) as [|x l]; [by apply elem_of_nil in Hqt|].
  by exists x.
Qed.

(** The whole minutes compared with 90 and 120, in milliseconds. *)
Lemma diffMinutes_thresholds (a b : Z) :
  (JS.diffMinutes a b >? 90) = (5460000 <=? a - b)
  /\ (JS.diffMinutes a b >? 120) = (7260000 <=? a - b).
Proof.
  unfold JS.diffMinutes. rewrite !Z.gtb_ltb. split.
  - destruct (5460000 <=? a - b) eqn:H.
    + apply Z.leb_le in H. apply Z.ltb_lt.
      Z.to_euclidean_division_equations. lia.
    + apply Z.leb_gt in H. apply Z.ltb_ge.
      Z.to_euclidean_division_equations. lia.
  - destruct (7260000 <=? a - b) eqn:H.
    + apply Z.leb_le in H. apply Z.ltb_lt.
      Z.to_euclidean_division_equations. lia.
    + apply Z.leb_gt in H. apply Z.ltb_ge.
      Z.to_euclidean_division_equations. lia.
Qed.

End Breaks.

(** X27. The break minutes of today, which are whole minutes of every OUT
    followed by an IN, are not negative, and together with the time worked
    today, the open session left out, they are at most the minutes from
    the first punch of today to the last. *)
Theorem getTodayBreaks_and_work_within_span (db : list PunchLog)
    (clock : Clock) (uid : ObjectId) (now_ : Z) :
  let today := TimeEngine.getTodayPunches db clock uid in
  let total :=
    BreakTimeService.tb_totalBreakMinutes
      (BreakTimeService.getTodayBreaks db clock uid) in
  0 <= total
  /\ (inject_Z total + TimeEngine.calculateWorkedTime now_ today false
      <= Sequence.span today)%Q.
Proof.
  intros today total. subst total.
  unfold BreakTimeService.getTodayBreaks. cbv zeta.
  cbn [BreakTimeService.tb_totalBreakMinutes].
  change (Db.findInRange db uid (startOfDay clock) (endOfDay clock))
    with today.
  rewrite fold_left_durations. unfold BreakTimeService.analyzeBreaks.
  pose proof (breaks_adjacent [] today) as Hadj. simpl in Hadj.
  rewrite Hadj. clear Hadj. rewrite worked_adjacent.
  assert (Hasc : Sequence.ascending today).
  { unfold Sequence.ascending, today, TimeEngine.getTodayPunches,
      Db.findInRange, Db.sortAsc.
    apply (Sorted_merge_sort Db.earlier). }
  destruct today as [|first rest].
  - simpl. split; [lia|]. vm_compute. discriminate.
  - destruct (ascending_pauses rest first Hasc) as [H0 Hle].
    destruct (ascending_sums rest first Hasc) as [Hs0 _].
    split; [lia|]. unfold Sequence.span.
    destruct (max0_spec
                (JS.sum (map Sequence.session
                           (Sequence.adjacent (first :: rest)))))
      as [[_ E]|[Hneg _]]; [|lra].
    rewrite E. rewrite Z.add_0_l. exact Hle.
Qed.

(** X28. [checkLongBreak] raises an alert only for a user whose last punch
    of today, the one that no punch of the user of today is later than, is
    an OUT that is at least 91 minutes old: the alert reports the time of
    that OUT and the whole minutes since, and it is 'Break exceeds 2 hours'
    exactly from 121 minutes on, the minutes being cut to whole minutes
    before they are compared. Conversely, when one punch of the user of
    today is later than every other, the result is decided by that punch:
    nothing for an IN, nothing for an OUT less than 91 minutes old, and the
    alert above otherwise. *)
Theorem checkLongBreak_thresholds (db : list PunchLog) (clock : Clock)
    (uid : ObjectId) :
  let ofToday (q : PunchLog) :=
    q ∈ db /\ userId q = uid
    /\ startOfDay clock <= punchTime q <= endOfDay clock in
  (forall alert,
     BreakTimeService.checkLongBreak db clock uid = Some alert ->
     exists lastPunch,
       ofToday lastPunch
       /\ (forall q, ofToday q -> punchTime q <= punchTime lastPunch)
       /\ punchType lastPunch = OUT
       /\ BreakTimeService.lb_breakStartTime alert = punchTime lastPunch
       /\ BreakTimeService.lb_breakDuration alert
          = (now clock - punchTime lastPunch) / 60000
       /\ 5460000 <= now clock - punchTime lastPunch
       /\ (BreakTimeService.lb_alert alert = BreakTimeService.ExceedsTwoHours
           <-> 7260000 <= now clock - punchTime lastPunch))
  /\ (forall lastPunch,
        ofToday lastPunch ->
        (forall q, ofToday q -> punchTime lastPunch <= punchTime q ->
           q = lastPunch) ->
        BreakTimeService.checkLongBreak db clock uid
        = match punchType lastPunch with
          | OUT =>
              let elapsed := now clock - punchTime lastPunch in
              if 5460000 <=? elapsed
              then Some (BreakTimeService.mkLongBreak (punchTime lastPunch)
                           (elapsed / 60000)
                           (BreakTimeService.formatBreakDuration
                              (elapsed / 60000))
                           (if 7260000 <=? elapsed
                            then BreakTimeService.ExceedsTwoHours
                            else BreakTimeService.ExtendedDetected))
              else None
          | IN => None
          end).
Proof.
  intros ofToday.
  assert (Hcases : forall p,
            head (Db.sortDesc
                    (List.filter
                       (Db.inRange uid (startOfDay clock) (endOfDay clock))
                       db)) = Some p ->
            BreakTimeService.checkLongBreak db clock uid
            = match punchType p with
              | OUT =>
                  if 5460000 <=? now clock - punchTime p
                  then Some (BreakTimeService.mkLongBreak (punchTime p)
                               ((now clock - punchTime p) / 60000)
                               (BreakTimeService.formatBreakDuration
                                  ((now clock - punchTime p) / 60000))
                               (if 7260000 <=? now clock - punchTime p
                                then BreakTimeService.ExceedsTwoHours
                                else BreakTimeService.ExtendedDetected))
                  else None
              | IN => None
              end).
  { intros p Hhead. unfold BreakTimeService.checkLongBreak. cbv zeta.
    rewrite Hhead. destruct (punchType p); [done|].
    destruct (diffMinutes_thresholds (now clock) (punchTime p)) as [-> ->].
    destruct (5460000 <=? now clock - punchTime p) eqn:H; [|done].
    apply Z.leb_le in H. unfold JS.diffMinutes.
    by rewrite Z.quot_div_nonneg by lia. }
  split.
  - intros alert Halert.
    destruct (head (Db.sortDesc (List.filter _ db))) as [p|] eqn:Hhead.
    2:{ unfold BreakTimeService.checkLongBreak in Halert.
        cbv zeta in Halert. by rewrite Hhead in Halert. }
    rewrite (Hcases p eq_refl) in Halert. clear Hcases.
    destruct (latest_today db clock uid p Hhead) as (Hdb & Hu & Hr & Hlast).
    destruct (punchType p) eqn:Hty; [discriminate|].
    destruct (5460000 <=? now clock - punchTime p) eqn:H91; [|discriminate].
    apply Z.leb_le in H91.
    inversion Halert; subst alert. clear Halert.
    cbn [BreakTimeService.lb_breakStartTime BreakTimeService.lb_alert
         BreakTimeService.lb_breakDuration].
    exists p. split; [done|].
    split; [intros q (Hq & Hqu & Hqr); by apply Hlast|].
    split; [done|]. split; [done|]. split; [done|]. split; [done|].
    destruct (7260000 <=? now clock - punchTime p) eqn:H121.
    + apply Z.leb_le in H121. done.
    + apply Z.leb_gt in H121. split; [discriminate | lia].
  - intros lastPunch (Hdb & Hu & Hr) Hlatest.
    destruct (latest_today_exists db clock uid lastPunch Hdb Hu Hr)
      as [p Hhead].
    destruct (latest_today db clock uid p Hhead) as (Hpdb & Hpu & Hpr & Hlast).
    assert (p = lastPunch) as ->.
    { apply Hlatest; [done|]. by apply Hlast. }
    by apply Hcases.
Qed.

(** X28 at concrete inputs: an OUT at 12:00, seen at 14:01, raises the
    alert of two hours; after IN 09:00, OUT 09:30 and IN 10:00 nothing is
    raised. *)
Lemma checkLongBreak_thresholds_witness :
  BreakTimeService.checkLongBreak
    [Ex.punch 1%N IN (Ex.at_ 9 0 0); Ex.punch 2%N OUT (Ex.at_ 12 0 0)]
    (Ex.clockAt 14 1 0) 1%N
  = Some (BreakTimeService.mkLongBreak (Ex.at_ 12 0 0) 121 "2h 1m"
            BreakTimeService.ExceedsTwoHours)
  /\ BreakTimeService.checkLongBreak
       [Ex.punch 1%N IN (Ex.at_ 9 0 0); Ex.punch 2%N OUT (Ex.at_ 9 30 0);
        Ex.punch 3%N IN (Ex.at_ 10 0 0)]
       (Ex.clockAt 14 1 0) 1%N
     = None.
Proof.
  split.
  - refine (eq_trans
              (proj2 (checkLongBreak_thresholds
                        [Ex.punch 1%N IN (Ex.at_ 9 0 0);
                         Ex.punch 2%N OUT (Ex.at_ 12 0 0)]
                        (Ex.clockAt 14 1 0) 1%N)
                 (Ex.punch 2%N OUT (Ex.at_ 12 0 0)) _ _) _).
    + split; [right; left|]. split; [done|]. vm_compute. by split.
    + intros q (Hq & _) Hle.
      apply elem_of_cons in Hq as [->|Hq]; [by vm_compute in Hle|].
      by apply list_elem_of_singleton in Hq.
    + vm_compute. reflexivity.
  - refine (eq_trans
              (proj2 (checkLongBreak_thresholds
                        [Ex.punch 1%N IN (Ex.at_ 9 0 0);
                         Ex.punch 2%N OUT (Ex.at_ 9 30 0);
                         Ex.punch 3%N IN (Ex.at_ 10 0 0)]
                        (Ex.clockAt 14 1 0) 1%N)
                 (Ex.punch 3%N IN (Ex.at_ 10 0 0)) _ _) _).
    + split; [right; right; left|]. split; [done|]. vm_compute. by split.
    + intros q (Hq & _) Hle.
      apply elem_of_cons in Hq as [->|Hq]; [by vm_compute in Hle|].
      apply elem_of_cons in Hq as [->|Hq]; [by vm_compute in Hle|].
      by apply list_elem_of_singleton in Hq.
    + reflexivity.
Defined.

(** X29. On a whole number of minutes that is not negative,
    [formatBreakDuration] and [formatMinutes] print the same text, except
    for the whole hours from 60 minutes on, where [formatBreakDuration]
    leaves the minutes out and [formatMinutes] prints them as 0. *)
Theorem formatBreakDuration_and_formatMinutes (n : Z) :
  0 <= n ->
  if (60 <=? n) && (n mod 60 =? 0)
  then BreakTimeService.formatBreakDuration n = pretty (n / 60) +:+ "h"
       /\ TimeEngine.formatMinutes (inject_Z n)
          = pretty (n / 60) +:+ "h " +:+ "0" +:+ "m"
  else BreakTimeService.formatBreakDuration n
       = TimeEngine.formatMinutes (inject_Z n).
Proof.
  intros Hn. destruct (formatMinutes_parts n Hn) as [Hh Hm].
  unfold BreakTimeService.formatBreakDuration, TimeEngine.formatMinutes.
  rewrite Hh, Hm, Z.rem_mod_nonneg by lia.
  destruct (60 <=? n) eqn:H60.
  - apply Z.leb_le in H60.
    assert (Hlt : (n <? 60) = false) by (apply Z.ltb_ge; lia).
    assert (Hq : (n / 60 =? 0) = false).
    { apply Z.eqb_neq. pose proof (Z.div_le_lower_bound n 60 1). lia. }
    rewrite Hlt, Hq.
    destruct (n mod 60 =? 0) eqn:Hz; cbn [andb].
    + apply Z.eqb_eq in Hz. rewrite Hz. done.
    + apply Z.eqb_neq in Hz. pose proof (Z.mod_pos_bound n 60).
      assert (Hpos : (0 <? n mod 60) = true) by (apply Z.ltb_lt; lia).
      by rewrite Hpos.
  - apply Z.leb_gt in H60. cbn [andb].
    assert (Hlt : (n <? 60) = true) by (apply Z.ltb_lt; lia).
    rewrite Hlt, Z.div_small, Z.mod_small by lia. done.
Qed.

(** X29 at concrete inputs: 90 and 120 minutes. *)
Lemma formatBreakDuration_and_formatMinutes_witness :
  BreakTimeService.formatBreakDuration 90
  = TimeEngine.formatMinutes (inject_Z 90)
  /\ BreakTimeService.formatBreakDuration 120 = "2h"
  /\ TimeEngine.formatMinutes (inject_Z 120) = "2h 0m".
Proof.
  split.
  - apply (formatBreakDuration_and_formatMinutes 90). lia.
  - apply (formatBreakDuration_and_formatMinutes 120). lia.
Defined.

(** ** Running the auto-close job again *)

Section AutoCloseAgain.

Import PunchCleanupService.

Variables (F : Faults) (cfg : Defaults) (clockOf : string -> Clock).

Abbreviation dayOf user := (clockOf (TimeEngine.getTimezone cfg user)).

Lemma findInRange_other (db : list PunchLog) (q : PunchLog) (uid : ObjectId)
    (start end_ : Z) :
  userId q <> uid ->
  Db.findInRange (db ++ [q]) uid start end_ = Db.findInRange db uid start end_.
Proof.
  intros Hne. unfold Db.findInRange. rewrite List.filter_app. simpl.
  unfold Db.inRange at 2. apply N.eqb_neq in Hne. rewrite Hne. simpl.
  by rewrite app_nil_r.
Qed.

(** A user whose day is closed is passed over. *)
Lemma autoCloseUser_closed (acc : nat * list Notification) (user : User)
    (w : World) :
  findFails F (user_id user) = false ->
  closedFor cfg clockOf (punches w) user ->
  autoCloseUser F cfg clockOf acc user w = (Ok acc, w).
Proof.
  intros Hfind Hclosed. unfold closedFor in Hclosed. cbv zeta in Hclosed.
  unfold autoCloseUser. cbv zeta. unfold mbind, M_bind, find.
  rewrite Hfind. cbv beta iota.
  destruct (last _) as [p|]; [|done]. by rewrite Hclosed.
Qed.

Lemma autoClose_loop_closed (users : list User)
    (acc : nat * list Notification) (w : World) :
  Forall (fun user => findFails F (user_id user) = false
                      /\ closedFor cfg clockOf (punches w) user) users ->
  forOf (autoCloseUser F cfg clockOf) users acc w = (Ok acc, w).
Proof.
  induction 1 as [|user users [Hfind Hclosed] _ IH]; [done|].
  cbn [forOf].
  by rewrite (bind_Ok _ _ _ _ _ (autoCloseUser_closed acc user w Hfind Hclosed)).
Qed.

(** A turn of the loop that completes leaves the day of the user closed,
    and adds at most one punch, of that user. *)
Lemma autoCloseUser_closes (acc acc' : nat * list Notification) (user : User)
    (w w' : World) :
  startOfDay (dayOf user) <= endOfDay (dayOf user) - 60000 ->
  (forall p, p ∈ punches w -> userId p = user_id user ->
     punchTime p <= endOfDay (dayOf user) ->
     punchTime p < endOfDay (dayOf user) - 60000) ->
  autoCloseUser F cfg clockOf acc user w = (Ok acc', w') ->
  findFails F (user_id user) = false
  /\ closedFor cfg clockOf (punches w') user
  /\ (punches w' = punches w
      \/ exists q, punches w' = punches w ++ [q] /\ userId q = user_id user).
Proof.
  intros Hday Hearly. unfold autoCloseUser, closedFor. cbv zeta.
  unfold mbind, M_bind, find.
  destruct (findFails F (user_id user)); [discriminate|]. cbv beta iota.
  destruct (last (Db.findInRange (punches w) _ _ _)) as [lastPunch|] eqn:Hlast.
  2:{ intros H. inversion H; subst. rewrite Hlast.
      split; [done|]. split; [done | by left]. }
  destruct (punchType lastPunch) eqn:Hty.
  2:{ intros H. inversion H; subst. rewrite Hlast.
      split; [done|]. split; [done | by left]. }
  unfold create. destruct (createFails F (user_id user)); [discriminate|].
  cbv beta iota. unfold log, mret, M_ret. cbn [punches logs outbox].
  intros H. inversion H; subst acc' w'. clear H. cbn [punches].
  set (q := mkPunch (Db.freshId (punches w)) _ _ _ _ _ _ _ _ _ _ _ _ _ _).
  split; [done|]. split; [|right; by exists q].
  set (today := Db.findInRange (punches w ++ [q]) (user_id user)
                  (startOfDay (dayOf user)) (endOfDay (dayOf user))).
  assert (Hq : q ∈ today).
  { apply elem_of_findInRange. split; [apply elem_of_app; right; left|].
    unfold Db.inRange. subst q. cbn [userId punchTime].
    rewrite N.eqb_refl. simpl.
    apply andb_true_iff. split; apply Z.leb_le; lia. }
  assert (Hsorted : StronglySorted Db.earlier today)
    by apply (StronglySorted_merge_sort Db.earlier).
  destruct (last today) as [x|] eqn:Hx.
  - pose proof (sorted_last today x Hsorted Hx q Hq) as Hle.
    apply last_Some_elem_of, elem_of_findInRange in Hx as [Hin Hr].
    apply elem_of_app in Hin as [Hin|Hin].
    + exfalso. unfold Db.inRange in Hr.
      apply andb_true_iff in Hr as [Hr He].
      apply andb_true_iff in Hr as [Hu _].
      apply N.eqb_eq in Hu. apply Z.leb_le in He.
      specialize (Hearly x Hin Hu He). subst q. cbn [punchTime] in Hle. lia.
    + apply list_elem_of_singleton in Hin. by subst x.
  - done.
Qed.

(** The loop over users with distinct identifiers leaves the day of every
    one of them closed, and does not touch the punches of anyone else. *)
Lemma autoClose_loop_closes (users : list User)
    (acc acc' : nat * list Notification) (w w' : World) :
  NoDup (map user_id users) ->
  (forall user, user ∈ users ->
     startOfDay (dayOf user) <= endOfDay (dayOf user) - 60000) ->
  (forall user p, user ∈ users -> p ∈ punches w ->
     userId p = user_id user ->
     punchTime p <= endOfDay (dayOf user) ->
     punchTime p < endOfDay (dayOf user) - 60000) ->
  forOf (autoCloseUser F cfg clockOf) users acc w = (Ok acc', w') ->
  Forall (fun user => findFails F (user_id user) = false
                      /\ closedFor cfg clockOf (punches w') user) users
  /\ forall uid start end_,
       uid ∉ map user_id users ->
       Db.findInRange (punches w') uid start end_
       = Db.findInRange (punches w) uid start end_.
Proof.
  revert acc w.
  induction users as [|user users IH]; intros acc w Hnd Hday Hearly Hloop.
  - simpl in Hloop. inversion Hloop; subst. split; [constructor | done].
  - cbn [forOf] in Hloop.
    apply bind_inv in Hloop as [(acc1 & w1 & H1 & H2)|(e & _ & ?)];
      [|discriminate].
    cbn [map] in Hnd. apply NoDup_cons in Hnd as [Hfresh Hnd].
    apply autoCloseUser_closes in H1 as (Hfind & Hclosed & Hadded).
    2:{ apply Hday. left. }
    2:{ intros p Hp Hu. apply (Hearly user p); [left | done..]. }
    assert (Hother : forall uid start end_,
              uid <> user_id user ->
              Db.findInRange (punches w1) uid start end_
              = Db.findInRange (punches w) uid start end_).
    { intros uid start end_ Hne.
      destruct Hadded as [->|(q & -> & Hq)]; [done|].
      apply findInRange_other. congruence. }
    apply IH in H2 as [Hall Hframe]; [|done|..].
    + split.
      * constructor; [|exact Hall]. split; [done|].
        unfold closedFor in *. cbv zeta in *. by rewrite Hframe.
      * intros uid start end_ Hnot. cbn [map] in Hnot.
        apply not_elem_of_cons in Hnot as [Hne Hnot].
        rewrite Hframe by done. by apply Hother.
    + intros u Hu. apply Hday. by right.
    + intros u p Hu Hp Hid. apply (Hearly u p); [by right| |done].
      destruct Hadded as [Hw1|(q & Hw1 & Hq)]; [by rewrite Hw1 in Hp|].
      rewrite Hw1 in Hp. apply elem_of_app in Hp as [Hp|Hp]; [done|].
      apply list_elem_of_singleton in Hp. subst p. exfalso. apply Hfresh.
      rewrite <- Hq, Hid. apply list_elem_of_fmap. by exists u.
Qed.

End AutoCloseAgain.

(** X30. After a run of [autoCloseOpenPunches] that completes, a second
    run at the same instant closes nothing and sends nothing: it returns
    the counts 0 and 0 and leaves the collection and the mail sent as they
    are. This holds for users with distinct identifiers whose day is longer
    than a minute and who have no punch in the last minute of their day or
    later within it. *)
Theorem autoCloseOpenPunches_second_run_closes_nothing
    (F : PunchCleanupService.Faults) (cfg : Defaults)
    (clockOf : string -> Clock) (users : list User)
    (w w1 : PunchCleanupService.World)
    (result : PunchCleanupService.AutoCloseResult) :
  NoDup (map user_id users) ->
  (forall user, user ∈ users ->
     startOfDay (clockOf (TimeEngine.getTimezone cfg user))
     <= endOfDay (clockOf (TimeEngine.getTimezone cfg user)) - 60000) ->
  (forall user p, user ∈ users -> p ∈ PunchCleanupService.punches w ->
     userId p = user_id user ->
     punchTime p <= endOfDay (clockOf (TimeEngine.getTimezone cfg user)) ->
     punchTime p
     < endOfDay (clockOf (TimeEngine.getTimezone cfg user)) - 60000) ->
  PunchCleanupService.autoCloseOpenPunches F cfg clockOf users w
  = (Ok result, w1) ->
  exists w2,
    PunchCleanupService.autoCloseOpenPunches F cfg clockOf users w1
    = (Ok (PunchCleanupService.mkAutoCloseResult 0 0), w2)
    /\ PunchCleanupService.punches w2 = PunchCleanupService.punches w1
    /\ PunchCleanupService.outbox w2 = PunchCleanupService.outbox w1.
Proof.
  intros Hnd Hday Hearly Hrun.
  assert (Hclosed :
    Forall (fun user =>
              PunchCleanupService.findFails F (user_id user) = false
              /\ PunchCleanupService.closedFor cfg clockOf
                   (PunchCleanupService.punches w1) user) users).
  { unfold PunchCleanupService.autoCloseOpenPunches in Hrun.
    unfold PunchCleanupService.tryCatch in Hrun.
    unfold mbind, PunchCleanupService.M_bind in Hrun.
    unfold PunchCleanupService.log at 1 in Hrun. cbv beta iota in Hrun.
    match type of Hrun with
    | context [PunchCleanupService.forOf _ users (0%nat, []) ?W] =>
        set (w0 := W) in *
    end.
    destruct (PunchCleanupService.forOf
                (PunchCleanupService.autoCloseUser F cfg clockOf) users
                (0%nat, []) w0) as [[acc|e] wl] eqn:Hloop.
    2:{ unfold PunchCleanupService.log, PunchCleanupService.throw in Hrun.
        discriminate Hrun. }
    apply autoClose_loop_closes in Hloop as [Hall _]; [|done..].
    pose proof (notify_loop F (snd acc) wl) as (wn & Hnotify & Hp).
    rewrite Hnotify in Hrun.
    unfold PunchCleanupService.log, mret, PunchCleanupService.M_ret in Hrun.
    inversion Hrun; subst result w1. clear Hrun.
    cbn [PunchCleanupService.punches]. by rewrite Hp. }
  unfold PunchCleanupService.autoCloseOpenPunches.
  unfold PunchCleanupService.tryCatch.
  unfold mbind, PunchCleanupService.M_bind.
  unfold PunchCleanupService.log at 1. cbv beta iota.
  rewrite autoClose_loop_closed by exact Hclosed.
  cbn [snd fst PunchCleanupService.forOf length].
  unfold mret, PunchCleanupService.M_ret, PunchCleanupService.log.
  eexists. split; [reflexivity|]. done.
Qed.

(** X30 at a concrete input: three users who never punched out. *)
Lemma autoCloseOpenPunches_second_run_closes_nothing_witness :
  exists w2,
    PunchCleanupService.autoCloseOpenPunches Ex.noFaults Ex.cfg
      Ex.atMidnightJob [Ex.alice; Ex.carol; Ex.dave]
      (snd (PunchCleanupService.autoCloseOpenPunches Ex.noFaults Ex.cfg
              Ex.atMidnightJob [Ex.alice; Ex.carol; Ex.dave] Ex.threeOpen))
    = (Ok (PunchCleanupService.mkAutoCloseResult 0 0), w2)
    /\ PunchCleanupService.punches w2
       = PunchCleanupService.punches
           (snd (PunchCleanupService.autoCloseOpenPunches Ex.noFaults Ex.cfg
                   Ex.atMidnightJob [Ex.alice; Ex.carol; Ex.dave]
                   Ex.threeOpen))
    /\ PunchCleanupService.outbox w2
       = PunchCleanupService.outbox
           (snd (PunchCleanupService.autoCloseOpenPunches Ex.noFaults Ex.cfg
                   Ex.atMidnightJob [Ex.alice; Ex.carol; Ex.dave]
                   Ex.threeOpen)).
Proof.
  apply (autoCloseOpenPunches_second_run_closes_nothing Ex.noFaults Ex.cfg
           Ex.atMidnightJob [Ex.alice; Ex.carol; Ex.dave] Ex.threeOpen _
           (PunchCleanupService.mkAutoCloseResult 3 3)).
  - apply (bool_decide_unpack _). vm_compute. exact I.
  - intros user _. vm_compute. discriminate.
  - intros user p _ Hp _ _.
    apply list_elem_of_In in Hp. simpl in Hp.
    destruct Hp as [<-|[<-|[<-|[]]]]; vm_compute; reflexivity.
  - vm_compute. reflexivity.
Defined.
